(** * RBAC and account-activation core of the construction expense tracker

    A shallow embedding of the authorization engine and of the activation
    state machine of [core/models.py], [core/middleware.py],
    [core/views.py], [core/super_owner_views.py],
    [core/registration_workflow.py] and [core/forms.py], with the profile
    receiver of [core/signals.py] as a parameter.

    The relational store is a record of tables; a table is a finite map
    from primary keys to rows.  Model methods take the store and the
    in-memory instance and give back the new store, the mutated instance
    and either a value or the exception that was raised. *)

From Stdlib Require Import Ascii.
From stdpp Require Import gmap strings list fin_maps pretty.

Open Scope string_scope.

(** ** Keys, time, enumerations *)

Abbreviation pk := nat.

(** A reading of [timezone.now()]. *)
Abbreviation timestamp := Z.

(** [Permission.RESOURCE_CHOICES] *)
Inductive Resource :=
  | projects | expenses | contractors | reports
  | users_mgmt | company_settings | billing.

(** [Permission.ACTION_CHOICES] *)
Inductive Action :=
  | view | create | edit | delete_action | approve_action | export.

(** [CompanyMembership.STATUS_CHOICES] *)
Inductive MembershipStatus := active | invited | suspended | left.

(** [AccountActivationRequest.STATUS_CHOICES] *)
Inductive RequestStatus :=
  | pending | documents_required | under_review
  | approved | rejected | expired.

(** [AccountActivationRequest.REQUEST_TYPES] *)
Inductive RequestType :=
  | company_registration | individual_registration
  | user_invitation | user_registration.

(** [SuperOwner.DELEGATION_LEVELS] *)
Inductive DelegationLevel :=
  | full | company_management | user_management
  | billing_management | read_only.

#[global] Instance Resource_eq_dec : EqDecision Resource.
Proof. solve_decision. Defined.
#[global] Instance Action_eq_dec : EqDecision Action.
Proof. solve_decision. Defined.
#[global] Instance MembershipStatus_eq_dec : EqDecision MembershipStatus.
Proof. solve_decision. Defined.
#[global] Instance RequestStatus_eq_dec : EqDecision RequestStatus.
Proof. solve_decision. Defined.
#[global] Instance RequestType_eq_dec : EqDecision RequestType.
Proof. solve_decision. Defined.
#[global] Instance DelegationLevel_eq_dec : EqDecision DelegationLevel.
Proof. solve_decision. Defined.

Definition RESOURCE_CHOICES : list Resource :=
  [projects; expenses; contractors; reports;
   users_mgmt; company_settings; billing].

Definition ACTION_CHOICES : list Action :=
  [view; create; edit; delete_action; approve_action; export].

(** ** Rows *)

Record User := mkUser {
  username : string;
  user_email : string;
  user_first_name : string;
  user_last_name : string;
  (** [None] is Django's unusable password. *)
  password : option string;
}.

Record Company := mkCompany {
  company_name_ : string;
  slug : string;
  company_description_ : string;
  company_email : string;
  company_phone : string;
  company_address_ : string;
  company_website_ : string;
  company_is_active : bool;
}.

Record Role := mkRole {
  role_company : pk;
  role_name : string;
  role_description : string;
  is_admin : bool;
  is_supervisor : bool;
  is_team_member : bool;
}.

Record Permission := mkPermission {
  perm_role : pk;
  resource : Resource;
  action : Action;
}.

#[global] Instance Permission_eq_dec : EqDecision Permission.
Proof. solve_decision. Defined.

Record CompanyMembership := mkMembership {
  m_user : pk;
  m_company : pk;
  m_role : option pk;
  m_status : MembershipStatus;
  joined_date : option timestamp;
}.

Record UserProfile := mkProfile {
  profile_user : pk;
  profile_phone : string;
  last_company : option pk;
  account_type : string;
  is_verified : bool;
  is_account_active : bool;
  activated_by : option pk;
  activated_at : option timestamp;
}.

Record SuperOwner := mkSuperOwner {
  so_user : pk;
  is_primary_owner : bool;
  delegation_level : DelegationLevel;
  can_manage_companies : bool;
  can_manage_users : bool;
  can_activate_accounts : bool;
  can_access_django_admin : bool;
  can_delegate_permissions : bool;
  can_manage_billing : bool;
  can_view_system_analytics : bool;
  (** the rows of the many-to-many table for this owner, as the set of
      company keys *)
  allowed_companies : gset nat;
}.

Record AccountActivationRequest := mkRequest {
  request_type : RequestType;
  status : RequestStatus;
  email : string;
  req_username : string;
  first_name : string;
  last_name : string;
  phone : string;
  company_name : string;
  company_description : string;
  company_website : string;
  company_address : string;
  target_company : option pk;
  approved_by : option pk;
  approved_at : option timestamp;
  rejection_reason : string;
  activation_token : string;
  expires_at : timestamp;
}.

(** ** The store *)

Record Store := mkStore {
  users : gmap nat User;
  profiles : gmap nat UserProfile;
  companies : gmap nat Company;
  roles : gmap nat Role;
  permissions : gmap nat Permission;
  memberships : gmap nat CompanyMembership;
  requests : gmap nat AccountActivationRequest;
  super_owners : gmap nat SuperOwner;
}.

Definition empty_store : Store :=
  mkStore ∅ ∅ ∅ ∅ ∅ ∅ ∅ ∅.

(** ** Exceptions *)

Inductive Exc :=
  | ValidationError (msg : string)
  | IntegrityError
  | DoesNotExist
  | MultipleObjectsReturned
  | UnboundLocalError
  | SMTPException.

Inductive result (A : Type) :=
  | Ok (a : A)
  | Raise (e : Exc).
Arguments Ok {A} a.
Arguments Raise {A} e.

(** ** Query sets

    A query set is the sub-table of the rows it selects, so that it can be
    filtered again, counted, or updated in place. *)

Module QuerySet.

Section Ops.
Context {A : Type}.

(** [queryset.filter(...)] on the columns of a row. *)
Definition filter_by (P : A → bool) (q : gmap nat A) : gmap nat A :=
  filter (λ kr, P kr.2 = true) q.

(** [queryset.filter(pk=k)] *)
Definition filter_pk (k : nat) (q : gmap nat A) : gmap nat A :=
  filter (λ kr, kr.1 = k) q.

(** [queryset.exclude(pk=k)]; [exclude(pk=None)] excludes nothing. *)
Definition exclude_pk (k : option nat) (q : gmap nat A) : gmap nat A :=
  filter (λ kr, Some kr.1 ≠ k) q.

(** [queryset.filter(id__in=ks)] *)
Definition filter_pk_in (ks : list nat) (q : gmap nat A) : gmap nat A :=
  filter (λ kr, kr.1 ∈ ks) q.

(** [queryset.exists()] *)
Definition exists_ (q : gmap nat A) : bool :=
  match map_to_list q with [] => false | _ :: _ => true end.

(** [queryset.count()] *)
Definition count (q : gmap nat A) : nat := size q.

(** [queryset.get()]: the only row, [DoesNotExist] when there is none,
    [MultipleObjectsReturned] when there are several. *)
Definition get (q : gmap nat A) : result (nat * A) :=
  match map_to_list q with
  | [] => Raise DoesNotExist
  | [kr] => Ok kr
  | _ :: _ :: _ => Raise MultipleObjectsReturned
  end.

(** [queryset.update(...)]: the selected rows are rewritten in the
    table [tbl] they were selected from. *)
Definition update (f : A → A) (q tbl : gmap nat A) : gmap nat A :=
  (f <$> q) ∪ tbl.

(** [queryset.delete()] *)
Definition delete_rows (q tbl : gmap nat A) : gmap nat A := tbl ∖ q.

(** A key the table does not use yet (auto-increment or a new UUID). *)
Definition new_pk (tbl : gmap nat A) : nat := fresh (dom tbl).

(** [Model.objects.create(...)] on a table without unique columns. *)
Definition create (row : A) (tbl : gmap nat A) : nat * gmap nat A :=
  let k := new_pk tbl in (k, <[k := row]> tbl).

(** [Model.objects.bulk_create(rows)] *)
Definition bulk_create (rows : list A) (tbl : gmap nat A) : gmap nat A :=
  foldl (λ t row, (create row t).2) tbl rows.
End Ops.

End QuerySet.

(** ** Authorization engine *)

(** [role.permissions.all()]: the permission rows of the role. *)
Definition role_permissions (db : Store) (rid : pk) : gmap nat Permission :=
  QuerySet.filter_by (λ p, bool_decide (perm_role p = rid)) (permissions db).

(** [CompanyMembership.has_permission].  The foreign key keeps [self.role]
    a stored role or [None], so that only the key of the role is needed. *)
Definition has_permission (db : Store) (self : CompanyMembership)
    (res : Resource) (act : Action) : bool :=
  match m_role self with
  | None => false
  | Some rid =>
      QuerySet.exists_
        (QuerySet.filter_by
           (λ p, bool_decide (resource p = res) && bool_decide (action p = act))
           (role_permissions db rid))
  end.

(** [CompanyMembership.is_company_admin]: [self.role and self.role.is_admin],
    read as a truth value. *)
Definition is_company_admin (db : Store) (self : CompanyMembership) : bool :=
  match m_role self with
  | None => false
  | Some rid =>
      match roles db !! rid with
      | Some r => is_admin r
      | None => false
      end
  end.

(** [CompanyMembership.is_company_supervisor] *)
Definition is_company_supervisor (db : Store) (self : CompanyMembership) : bool :=
  match m_role self with
  | None => false
  | Some rid =>
      match roles db !! rid with
      | Some r => is_supervisor r
      | None => false
      end
  end.

(** [CompanyMembership.objects.filter(user=..., company=..., status='active')] *)
Definition active_memberships (db : Store) (user company : pk)
    : gmap nat CompanyMembership :=
  QuerySet.filter_by
    (λ m, bool_decide (m_user m = user)
          && bool_decide (m_company m = company)
          && bool_decide (m_status m = active))
    (memberships db).

(** [middleware.user_has_permission]: only [DoesNotExist] is caught. *)
Definition user_has_permission (db : Store) (user company : pk)
    (res : Resource) (act : Action) : result bool :=
  match QuerySet.get (active_memberships db user company) with
  | Ok (_, membership) => Ok (has_permission db membership res act)
  | Raise DoesNotExist => Ok false
  | Raise e => Raise e
  end.

(** ** Super owners *)

(** [self.allowed_companies.all()]: the companies joined with the rows of
    the many-to-many table. *)
Definition allowed_companies_all (db : Store) (self : SuperOwner)
    : gmap nat Company :=
  filter (λ kc, kc.1 ∈ allowed_companies self) (companies db).

(** [SuperOwner.can_manage_company]; only [company.id] is read. *)
Definition can_manage_company (db : Store) (self : SuperOwner)
    (company_id : pk) : bool :=
  if negb (can_manage_companies self) then false
  else if QuerySet.exists_ (allowed_companies_all db self) then
    QuerySet.exists_ (QuerySet.filter_pk company_id (allowed_companies_all db self))
  else true.

(** [SuperOwner.get_manageable_companies] *)
Definition get_manageable_companies (db : Store) (self : SuperOwner)
    : gmap nat Company :=
  if negb (can_manage_companies self) then ∅
  else if QuerySet.exists_ (allowed_companies_all db self) then
    allowed_companies_all db self
  else companies db.

Definition set_super_owners (t : gmap nat SuperOwner) (db : Store) : Store :=
  mkStore (users db) (profiles db) (companies db) (roles db) (permissions db)
    (memberships db) (requests db) t.

Definition set_is_primary_owner (b : bool) (s : SuperOwner) : SuperOwner :=
  mkSuperOwner (so_user s) b (delegation_level s) (can_manage_companies s)
    (can_manage_users s) (can_activate_accounts s) (can_access_django_admin s)
    (can_delegate_permissions s) (can_manage_billing s)
    (can_view_system_analytics s) (allowed_companies s).

(** The assignments of [SuperOwner.save] for a primary owner. *)
Definition grant_all (s : SuperOwner) : SuperOwner :=
  mkSuperOwner (so_user s) (is_primary_owner s) full true true true true true
    true true (allowed_companies s).

(** [SuperOwner.save].  [self_pk] is [None] for an instance that was never
    saved.  The one-to-one column [user] is unique: the final write raises
    [IntegrityError] when another row holds the same user, after the
    [update] of the other rows has been done. *)
Definition SuperOwner_save (db : Store) (self_pk : option pk) (self : SuperOwner)
    : Store * SuperOwner * result pk :=
  let tbl := super_owners db in
  let tbl1 :=
    if is_primary_owner self then
      QuerySet.update (set_is_primary_owner false)
        (QuerySet.exclude_pk self_pk
           (QuerySet.filter_by (λ s, is_primary_owner s) tbl))
        tbl
    else tbl in
  let self1 := if is_primary_owner self then grant_all self else self in
  let k := match self_pk with Some k => k | None => QuerySet.new_pk tbl1 end in
  if QuerySet.exists_
       (QuerySet.exclude_pk (Some k)
          (QuerySet.filter_by (λ s, bool_decide (so_user s = so_user self1)) tbl1))
  then (set_super_owners tbl1 db, self1, Raise IntegrityError)
  else (set_super_owners (<[k := self1]> tbl1) db, self1, Ok k).

(** ** The activation request state machine *)

Definition set_requests (t : gmap nat AccountActivationRequest) (db : Store) : Store :=
  mkStore (users db) (profiles db) (companies db) (roles db) (permissions db)
    (memberships db) t (super_owners db).

Definition set_status (s : RequestStatus) (r : AccountActivationRequest)
    : AccountActivationRequest :=
  mkRequest (request_type r) s (email r) (req_username r) (first_name r)
    (last_name r) (phone r) (company_name r) (company_description r)
    (company_website r) (company_address r) (target_company r)
    (approved_by r) (approved_at r) (rejection_reason r)
    (activation_token r) (expires_at r).

Definition set_approved_by (u : option pk) (r : AccountActivationRequest)
    : AccountActivationRequest :=
  mkRequest (request_type r) (status r) (email r) (req_username r)
    (first_name r) (last_name r) (phone r) (company_name r)
    (company_description r) (company_website r) (company_address r)
    (target_company r) u (approved_at r) (rejection_reason r)
    (activation_token r) (expires_at r).

Definition set_approved_at (t : option timestamp) (r : AccountActivationRequest)
    : AccountActivationRequest :=
  mkRequest (request_type r) (status r) (email r) (req_username r)
    (first_name r) (last_name r) (phone r) (company_name r)
    (company_description r) (company_website r) (company_address r)
    (target_company r) (approved_by r) t (rejection_reason r)
    (activation_token r) (expires_at r).

Definition set_rejection_reason (m : string) (r : AccountActivationRequest)
    : AccountActivationRequest :=
  mkRequest (request_type r) (status r) (email r) (req_username r)
    (first_name r) (last_name r) (phone r) (company_name r)
    (company_description r) (company_website r) (company_address r)
    (target_company r) (approved_by r) (approved_at r) m
    (activation_token r) (expires_at r).

(** [self.save()] of a request that was loaded from the store: the row of
    key [k] is overwritten.  No transition writes the unique column
    [activation_token]. *)
Definition save_request (k : pk) (self : AccountActivationRequest) (db : Store)
    : Store :=
  set_requests (<[k := self]> (requests db)) db.

(** [AccountActivationRequest.is_expired], at the reading [t] of the clock. *)
Definition is_expired (t : timestamp) (self : AccountActivationRequest) : bool :=
  bool_decide (expires_at self < t)%Z.

(** The methods below take [now], the readings of [timezone.now()] in the
    order the call makes them, the store, and the instance with its key;
    they give the store, the instance as the call leaves it, and the
    outcome. *)

(** [AccountActivationRequest.approve] *)
Definition approve (now : nat → timestamp) (approved_by_user : pk)
    (db : Store) (k : pk) (self : AccountActivationRequest)
    : Store * AccountActivationRequest * result unit :=
  if bool_decide (status self ≠ pending) then
    (db, self, Raise (ValidationError "Only pending requests can be approved"))
  else if is_expired (now 0) self then
    let self1 := set_status expired self in
    (save_request k self1 db, self1,
     Raise (ValidationError "Request has expired"))
  else
    let self1 :=
      set_approved_at (Some (now 1))
        (set_approved_by (Some approved_by_user)
           (set_status approved self)) in
    (save_request k self1 db, self1, Ok ()).

(** [AccountActivationRequest.reject] *)
Definition reject (now : nat → timestamp) (rejected_by_user : pk)
    (reason : string) (db : Store) (k : pk) (self : AccountActivationRequest)
    : Store * AccountActivationRequest * result unit :=
  if bool_decide (status self ∉ [pending; under_review; documents_required]) then
    (db, self,
     Raise (ValidationError
              "Only pending or under review requests can be rejected"))
  else
    let self1 :=
      set_rejection_reason reason
        (set_approved_at (Some (now 0))
           (set_approved_by (Some rejected_by_user)
              (set_status rejected self))) in
    (save_request k self1 db, self1, Ok ()).

(** [AccountActivationRequest.mark_under_review] *)
Definition mark_under_review (reviewer_user : pk)
    (db : Store) (k : pk) (self : AccountActivationRequest)
    : Store * AccountActivationRequest * result unit :=
  if bool_decide (status self ≠ pending) then
    (db, self,
     Raise (ValidationError
              "Only pending requests can be marked under review"))
  else
    let self1 :=
      set_approved_by (Some reviewer_user) (set_status under_review self) in
    (save_request k self1 db, self1, Ok ()).

(** [AccountActivationRequest.require_documents] *)
Definition require_documents (reviewer_user : pk) (reason : string)
    (db : Store) (k : pk) (self : AccountActivationRequest)
    : Store * AccountActivationRequest * result unit :=
  if bool_decide (status self ∉ [pending; under_review]) then
    (db, self,
     Raise (ValidationError
              "Only pending or under review requests can require documents"))
  else
    let self1 :=
      set_rejection_reason reason
        (set_approved_by (Some reviewer_user)
           (set_status documents_required self)) in
    (save_request k self1 db, self1, Ok ()).

(** ** Statements that write the store

    A statement runs on a store and leaves a store, with a value or the
    exception it raised.  Writes made before an exception stay, unless the
    statement runs inside [transaction.atomic()]. *)

Definition M (A : Type) : Type := Store → Store * result A.

#[global] Instance M_ret : MRet M := λ A a db, (db, Ok a).

#[global] Instance M_bind : MBind M := λ A B f m db,
  match m db with
  | (db1, Ok a) => f a db1
  | (db1, Raise e) => (db1, Raise e)
  end.

Definition raise {A} (e : Exc) : M A := λ db, (db, Raise e).

Definition of_result {A} (r : result A) : M A := λ db, (db, r).

(** [with transaction.atomic(): ...] *)
Definition atomic {A} (m : M A) : M A := λ db,
  match m db with
  | (db1, Ok a) => (db1, Ok a)
  | (_, Raise e) => (db, Raise e)
  end.

Definition set_users (t : gmap nat User) (db : Store) : Store :=
  mkStore t (profiles db) (companies db) (roles db) (permissions db)
    (memberships db) (requests db) (super_owners db).

Definition set_profiles (t : gmap nat UserProfile) (db : Store) : Store :=
  mkStore (users db) t (companies db) (roles db) (permissions db)
    (memberships db) (requests db) (super_owners db).

Definition set_companies (t : gmap nat Company) (db : Store) : Store :=
  mkStore (users db) (profiles db) t (roles db) (permissions db)
    (memberships db) (requests db) (super_owners db).

Definition set_roles (t : gmap nat Role) (db : Store) : Store :=
  mkStore (users db) (profiles db) (companies db) t (permissions db)
    (memberships db) (requests db) (super_owners db).

Definition set_permissions (t : gmap nat Permission) (db : Store) : Store :=
  mkStore (users db) (profiles db) (companies db) (roles db) t
    (memberships db) (requests db) (super_owners db).

Definition set_memberships (t : gmap nat CompanyMembership) (db : Store) : Store :=
  mkStore (users db) (profiles db) (companies db) (roles db) (permissions db)
    t (requests db) (super_owners db).

(** *** Strings *)

Fixpoint string_map (f : ascii → ascii) (s : string) : string :=
  match s with
  | EmptyString => EmptyString
  | String c s' => String (f c) (string_map f s')
  end.

(** [str.lower()] on the ASCII letters; other bytes are kept. *)
Definition py_lower : string → string :=
  string_map (λ c,
    let n := nat_of_ascii c in
    if Nat.leb 65 n && Nat.leb n 90 then ascii_of_nat (n + 32) else c).

(** [str.replace(' ', '-')] *)
Definition replace_space_by_dash : string → string :=
  string_map (λ c, if bool_decide (c = " "%char) then "-"%char else c).

(** *** Row creation with its unique constraints *)

(** [UserProfile.objects.filter(user=u)]: the one-to-one reverse lookup. *)
Definition profiles_of (db : Store) (u : pk) : gmap nat UserProfile :=
  QuerySet.filter_by (λ p, bool_decide (profile_user p = u)) (profiles db).

(** The row [UserProfile(user=u)] with the defaults of the model. *)
Definition default_profile (u : pk) : UserProfile :=
  mkProfile u "" None "individual" false false None None.

(** [UserProfile.objects.create(...)]: [user] is unique. *)
Definition UserProfile_create (p : UserProfile) : M pk := λ db,
  if QuerySet.exists_ (profiles_of db (profile_user p)) then
    (db, Raise IntegrityError)
  else
    let '(k, t) := QuerySet.create p (profiles db) in
    (set_profiles t db, Ok k).

(** [UserProfile.objects.get_or_create(user=u, defaults=...)] *)
Definition UserProfile_get_or_create (defaults : UserProfile) : M (pk * bool) :=
  λ db,
  match QuerySet.get (profiles_of db (profile_user defaults)) with
  | Ok (k, _) => (db, Ok (k, false))
  | Raise DoesNotExist =>
      let '(k, t) := QuerySet.create defaults (profiles db) in
      (set_profiles t db, Ok (k, true))
  | Raise e => (db, Raise e)
  end.

(** [Company.objects.create(...)]: [slug] is unique. *)
Definition Company_create (c : Company) : M pk := λ db,
  if QuerySet.exists_
       (QuerySet.filter_by (λ c', bool_decide (slug c' = slug c)) (companies db))
  then (db, Raise IntegrityError)
  else
    let '(k, t) := QuerySet.create c (companies db) in
    (set_companies t db, Ok k).

(** [Role.objects.create(...)]: [(company, name)] is unique together. *)
Definition Role_create (r : Role) : M pk := λ db,
  if QuerySet.exists_
       (QuerySet.filter_by
          (λ r', bool_decide (role_company r' = role_company r)
                 && bool_decide (role_name r' = role_name r))
          (roles db))
  then (db, Raise IntegrityError)
  else
    let '(k, t) := QuerySet.create r (roles db) in
    (set_roles t db, Ok k).

(** [CompanyMembership.objects.create(...)]: [(user, company)] is unique
    together. *)
Definition CompanyMembership_create (m : CompanyMembership) : M pk := λ db,
  if QuerySet.exists_
       (QuerySet.filter_by
          (λ m', bool_decide (m_user m' = m_user m)
                 && bool_decide (m_company m' = m_company m))
          (memberships db))
  then (db, Raise IntegrityError)
  else
    let '(k, t) := QuerySet.create m (memberships db) in
    (set_memberships t db, Ok k).

(** [Permission.objects.bulk_create(rows)]: [(role, resource, action)] is
    unique together. *)
Definition Permission_bulk_create (rows : list Permission) : M unit := λ db,
  if bool_decide (NoDup rows)
     && forallb
          (λ p, negb (QuerySet.exists_
                        (QuerySet.filter_by (λ p', bool_decide (p' = p))
                           (permissions db))))
          rows
  then (set_permissions (QuerySet.bulk_create rows (permissions db)) db, Ok ())
  else (db, Raise IntegrityError).

(** ** Views *)

(** The flash messages of the views below. *)
Inductive Message :=
  | msg_no_company_selected
  | msg_admin_required
  | msg_role_in_use (name : string) (members : nat)
  | msg_last_admin_role
  | msg_role_deleted (name : string)
  | msg_request_approved (address : string)
  | msg_error_approving (e : Exc).

Inductive Response :=
  | Redirect (target : string) (flash : list Message)
  | Render (template : string)
  | JsonResponse (success : bool) (message : string)
  | NotFound
  | ServerError (e : Exc).

(** [instance.method(...)] as a statement; the value is the instance as
    the method leaves it. *)
Definition call_method
    (m : Store → Store * AccountActivationRequest * result unit)
    : M AccountActivationRequest := λ db,
  match m db with
  | (db1, self1, Ok _) => (db1, Ok self1)
  | (db1, _, Raise e) => (db1, Raise e)
  end.

(** [user.super_owner_profile], when the user has one. *)
Definition super_owner_profile (db : Store) (u : pk) : option SuperOwner :=
  match QuerySet.get
          (QuerySet.filter_by (λ s, bool_decide (so_user s = u))
             (super_owners db)) with
  | Ok (_, s) => Some s
  | Raise _ => None
  end.

(** [super_owner_views.is_super_owner], for an authenticated user. *)
Definition is_super_owner (db : Store) (u : pk) : bool :=
  QuerySet.exists_ (profiles_of db u)
  && bool_decide (is_Some (super_owner_profile db u)).

(** [super_owner_views.can_activate_accounts], for an authenticated user. *)
Definition user_can_activate_accounts (db : Store) (u : pk) : bool :=
  QuerySet.exists_ (profiles_of db u)
  && match super_owner_profile db u with
     | Some s => can_activate_accounts s
     | None => false
     end.

Section Views.

(** Whether the [post_save] receiver of [core/signals.py] that creates a
    profile for every new user is registered.  The application
    configuration that would import it is not among the sources. *)
Variable profile_signal : bool.

(** [django.utils.text.slugify] *)
Variable slugify : string → string.

(** What [send_mail(..., fail_silently=False)] does. *)
Variable mail : result unit.

(** [User.objects.create_user(...)]: [username] is unique. *)
Definition create_user (u : User) : M pk := λ db,
  if QuerySet.exists_
       (QuerySet.filter_by (λ u', bool_decide (username u' = username u))
          (users db))
  then (db, Raise IntegrityError)
  else
    let '(k, t) := QuerySet.create u (users db) in
    let db1 := set_users t db in
    if profile_signal then
      (set_profiles (QuerySet.create (default_profile k) (profiles db1)).2 db1,
       Ok k)
    else (db1, Ok k).

(** The [try] block of [super_owner_views.approve_activation_request]. *)
Definition approve_and_create_account (now : nat → timestamp)
    (request_user k : pk) (self : AccountActivationRequest) : M unit :=
  activation_request ← call_method (λ db, approve now request_user db k self);
  _ ← match request_type activation_request with
      | company_registration =>
          user ← create_user
                   (mkUser (email activation_request) (email activation_request)
                      (first_name activation_request)
                      (last_name activation_request) None);
          _ ← UserProfile_get_or_create
                (mkProfile user "" None "individual" false true
                   (Some request_user) (Some (now 2)));
          company ← Company_create
                      (mkCompany (company_name activation_request)
                         (replace_space_by_dash
                            (py_lower (company_name activation_request)))
                         (company_description activation_request)
                         (email activation_request) "" ""
                         (company_website activation_request) true);
          admin_role ← Role_create
                         (mkRole company "Company Admin"
                            "Full company administration access"
                            true false false);
          _ ← CompanyMembership_create
                (mkMembership user company (Some admin_role) active
                   (Some (now 3)));
          mret user
      | user_invitation =>
          user ← create_user
                   (mkUser (email activation_request) (email activation_request)
                      (first_name activation_request)
                      (last_name activation_request) None);
          _ ← UserProfile_get_or_create
                (mkProfile user "" None "individual" false true
                   (Some request_user) (Some (now 2)));
          _ ← match target_company activation_request with
              | Some c =>
                  _ ← CompanyMembership_create
                        (mkMembership user c None active (Some (now 3)));
                  mret ()
              | None => mret ()
              end;
          mret user
      | _ => raise UnboundLocalError
      end;
  of_result mail.

(** [super_owner_views.approve_activation_request], a POST by the
    authenticated user [request_user]. *)
Definition approve_activation_request (now : nat → timestamp)
    (request_user request_id : pk) (db : Store) : Store * Response :=
  if negb (user_can_activate_accounts db request_user) then
    (db, Redirect "/admin/login/" [])
  else
    match requests db !! request_id with
    | None => (db, NotFound)
    | Some activation_request =>
        match approve_and_create_account now request_user request_id
                activation_request db with
        | (db1, Ok _) =>
            (db1, Redirect "core:activation_requests_list"
                    [msg_request_approved (email activation_request)])
        | (db1, Raise e) =>
            (db1, Redirect "core:activation_requests_list"
                    [msg_error_approving e])
        end
    end.

(** [super_owner_views.bulk_action_requests], a POST by the authenticated
    user [request_user] whose JSON body holds [action] and [request_ids].
    The loops carry the number of clock readings made so far. *)
Definition bulk_action_requests (now : nat → timestamp) (request_user : pk)
    (action : string) (request_ids : list pk) (db : Store)
    : Store * Response :=
  if negb (is_super_owner db request_user) then
    (db, Redirect "/admin/login/" [])
  else if bool_decide (action = "") || bool_decide (request_ids = []) then
    (db, JsonResponse false "Invalid data")
  else
    let reqs := map_to_list (QuerySet.filter_pk_in request_ids (requests db)) in
    let db1 :=
      if bool_decide (action = "approve") then
        (foldl
           (λ '(d, n) '(k, req),
              if bool_decide (status req = pending) then
                (save_request k
                   (set_approved_at (Some (now n))
                      (set_approved_by (Some request_user)
                         (set_status approved req))) d, S n)
              else (d, n))
           (db, 0) reqs).1
      else if bool_decide (action = "reject") then
        (foldl
           (λ '(d, n) '(k, req),
              if bool_decide (status req ∈ [pending; under_review]) then
                (save_request k
                   (set_approved_at (Some (now n))
                      (set_approved_by (Some request_user)
                         (set_status rejected req))) d, S n)
              else (d, n))
           (db, 0) reqs).1
      else if bool_decide (action = "review") then
        foldl
          (λ d '(k, req),
             if bool_decide (status req = pending) then
               save_request k (set_status under_review req) d
             else d)
          db reqs
      else db in
    (db1,
     JsonResponse true
       ("Successfully " +:+ action +:+ "ed " +:+ pretty (length reqs)
        +:+ " requests")).

(** *** [registration_workflow.RegistrationRequestHandler] *)

(** [_add_basic_permissions] *)
Definition _add_basic_permissions (supervisor_role employee_role : pk)
    : M unit :=
  let supervisor_actions := [view; export] in
  _ ← Permission_bulk_create
        (res ← RESOURCE_CHOICES;
         act ← supervisor_actions;
         [mkPermission supervisor_role res act]);
  let employee_resources := [projects; expenses; contractors] in
  let employee_actions := [view; create; edit] in
  Permission_bulk_create
    (res ← employee_resources;
     act ← employee_actions;
     [mkPermission employee_role res act]).

(** [_create_company_default_roles] *)
Definition _create_company_default_roles (now : timestamp)
    (company admin_user : pk) : M unit :=
  admin_role ← Role_create
                 (mkRole company "Company Admin"
                    "Full company administration access" true false false);
  supervisor_role ← Role_create
                      (mkRole company "Supervisor"
                         "High-level oversight and reporting access"
                         false true false);
  employee_role ← Role_create
                    (mkRole company "Employee" "Basic employee access"
                       false false false);
  _ ← Permission_bulk_create
        (res ← RESOURCE_CHOICES;
         act ← ACTION_CHOICES;
         [mkPermission admin_role res act]);
  _ ← _add_basic_permissions supervisor_role employee_role;
  _ ← CompanyMembership_create
        (mkMembership admin_user company (Some admin_role) active (Some now));
  mret ().

(** [user.set_password(raw); user.save()] *)
Definition set_password (user : pk) (raw : string) : M unit := λ db,
  (set_users
     (alter (λ u, mkUser (username u) (user_email u) (user_first_name u)
                    (user_last_name u) (Some raw))
        user (users db)) db,
   Ok ()).

(** [activation_request.save()] *)
Definition save (k : pk) (self : AccountActivationRequest) : M unit := λ db,
  (save_request k self db, Ok ()).

(** [profile.last_company = company; profile.save()] *)
Definition set_last_company (profile : pk) (company : pk) : M unit := λ db,
  (set_profiles
     (alter (λ p, mkProfile (profile_user p) (profile_phone p) (Some company)
                    (account_type p) (is_verified p) (is_account_active p)
                    (activated_by p) (activated_at p))
        profile (profiles db)) db,
   Ok ()).

(** [_create_company_and_admin]; [temp_password] is the password the
    server draws. *)
Definition _create_company_and_admin (now : nat → timestamp)
    (temp_password : string) (activation_request : AccountActivationRequest)
    : M pk :=
  user ← create_user
           (mkUser (req_username activation_request)
              (email activation_request) (first_name activation_request)
              (last_name activation_request) None);
  _ ← set_password user temp_password;
  profile ← UserProfile_create
              (mkProfile user (phone activation_request) None "company_admin"
                 true true (approved_by activation_request) (Some (now 1)));
  company ← Company_create
              (mkCompany (company_name activation_request)
                 (slugify (company_name activation_request))
                 (company_description activation_request)
                 (email activation_request) ""
                 (company_address activation_request)
                 (company_website activation_request) true);
  _ ← set_last_company profile company;
  _ ← _create_company_default_roles (now 2) company user;
  mret user.

(** [_create_individual_user] *)
Definition _create_individual_user (now : nat → timestamp)
    (temp_password : string) (activation_request : AccountActivationRequest)
    : M pk :=
  user ← create_user
           (mkUser (req_username activation_request)
              (email activation_request) (first_name activation_request)
              (last_name activation_request) None);
  _ ← set_password user temp_password;
  _ ← UserProfile_create
        (mkProfile user (phone activation_request) None "individual"
           true true (approved_by activation_request) (Some (now 1)));
  mret user.

(** [approve_request]: no test of the status or of the expiry precedes
    the writes. *)
Definition approve_request (now : nat → timestamp) (temp_password : string)
    (k : pk) (activation_request : AccountActivationRequest)
    (approved_by_user : pk) : M (option pk) :=
  atomic
    (let activation_request :=
       set_approved_at (Some (now 0))
         (set_approved_by (Some approved_by_user)
            (set_status approved activation_request)) in
     _ ← save k activation_request;
     match request_type activation_request with
     | company_registration =>
         user ← _create_company_and_admin now temp_password activation_request;
         mret (Some user)
     | individual_registration =>
         user ← _create_individual_user now temp_password activation_request;
         mret (Some user)
     | _ => mret None
     end).

End Views.

(** *** Role deletion *)

(** [role.delete()]: the permissions of the role go with it
    ([on_delete=CASCADE]) and the memberships that point to it lose their
    role ([on_delete=SET_NULL]). *)
Definition Role_delete (rid : pk) (db : Store) : Store :=
  set_roles (delete rid (roles db))
    (set_permissions
       (QuerySet.delete_rows (role_permissions db rid) (permissions db))
       (set_memberships
          (QuerySet.update
             (λ m, mkMembership (m_user m) (m_company m) None (m_status m)
                     (joined_date m))
             (QuerySet.filter_by (λ m, bool_decide (m_role m = Some rid))
                (memberships db))
             (memberships db))
          db)).

(** [company.roles.filter(is_admin=True)] *)
Definition admin_roles (db : Store) (company : pk) : gmap nat Role :=
  QuerySet.filter_by
    (λ r, bool_decide (role_company r = company) && is_admin r) (roles db).

(** [CompanyMembership.objects.get(user=..., company=...)] *)
Definition membership_of (db : Store) (user company : pk)
    : result (pk * CompanyMembership) :=
  QuerySet.get
    (QuerySet.filter_by
       (λ m, bool_decide (m_user m = user)
             && bool_decide (m_company m = company))
       (memberships db)).

(** [get_object_or_404(Role, id=role_id, company=company)], before the
    exception is turned into a response. *)
Definition role_of_company (db : Store) (company role_id : pk)
    : result (pk * Role) :=
  QuerySet.get
    (QuerySet.filter_by (λ r, bool_decide (role_company r = company))
       (QuerySet.filter_pk role_id (roles db))).

(** [CompanyMembership.objects.filter(company=..., role=..., status='active')] *)
Definition active_members_with_role (db : Store) (company role_id : pk)
    : gmap nat CompanyMembership :=
  QuerySet.filter_by
    (λ m, bool_decide (m_company m = company)
          && bool_decide (m_role m = Some role_id)
          && bool_decide (m_status m = active))
    (memberships db).

(** [views.role_delete] for the authenticated user [request_user];
    [current_company] is what [get_current_company(request)] returned and
    [is_post] tells whether the request method is POST. *)
Definition role_delete (request_user : pk) (current_company : option pk)
    (role_id : pk) (is_post : bool) (db : Store) : Store * Response :=
  match current_company with
  | None => (db, Redirect "dashboard:dashboard" [msg_no_company_selected])
  | Some company =>
      match membership_of db request_user company with
      | Raise e => (db, ServerError e)
      | Ok (_, membership) =>
          if negb (is_company_admin db membership) then
            (db, Redirect "dashboard:dashboard" [msg_admin_required])
          else
            match role_of_company db company role_id with
            | Raise _ => (db, NotFound)
            | Ok (_, role) =>
                let members_with_role :=
                  QuerySet.count (active_members_with_role db company role_id) in
                if Nat.ltb 0 members_with_role then
                  (db, Redirect "core:user_management"
                         [msg_role_in_use (role_name role) members_with_role])
                else if is_admin role
                        && Nat.leb (QuerySet.count (admin_roles db company)) 1
                then
                  (db, Redirect "core:user_management" [msg_last_admin_role])
                else if is_post then
                  (Role_delete role_id db,
                   Redirect "core:user_management"
                     [msg_role_deleted (role_name role)])
                else (db, Render "core/role_confirm_delete.html")
            end
      end
  end.


(** ** Integrity constraints *)

(** [CompanyMembership.Meta.unique_together = ['user', 'company']] *)
Definition unique_together_user_company (db : Store) : Prop :=
  NoDup ((λ kr, (m_user kr.2, m_company kr.2)) <$> map_to_list (memberships db)).

(** Another row of the super-owner table holds the user of [self]: the
    one-to-one column [user] would reject the write of [self]. *)
Definition user_taken_by_other (db : Store) (self_pk : option pk)
    (self : SuperOwner) : bool :=
  QuerySet.exists_
    (QuerySet.exclude_pk self_pk
       (QuerySet.filter_by (λ s, bool_decide (so_user s = so_user self))
          (super_owners db))).

(** The role owns a permission row for the pair. *)
Definition role_owns (db : Store) (rid : pk) (res : Resource) (act : Action)
    : Prop :=
  ∃ kp p, permissions db !! kp = Some p
          ∧ perm_role p = rid ∧ resource p = res ∧ action p = act.

(** ** Example stores *)

(** Scenario A of the specification: company 1 (Acme), an admin role that
    holds the single permission (projects, create), and the active
    membership of user 7. *)
Definition scenario_A : Store :=
  mkStore ∅ ∅
    {[ 1 := mkCompany "Acme" "acme" "" "office@acme.example" "" "" "" true ]}
    {[ 1 := mkRole 1 "admin" "" true false false ]}
    {[ 1 := mkPermission 1 projects create ]}
    {[ 1 := mkMembership 7 1 (Some 1) active None ]}
    ∅ ∅.

(** Scenario A with the membership suspended. *)
Definition suspended_member : CompanyMembership :=
  mkMembership 7 1 (Some 1) suspended None.

Definition scenario_A_suspended : Store :=
  set_memberships {[ 1 := suspended_member ]} scenario_A.

(** Two companies and a super owner restricted to the first. *)
Definition two_companies : Store :=
  set_companies
    {[ 1 := mkCompany "Acme" "acme" "" "office@acme.example" "" "" "" true;
       2 := mkCompany "Bolt" "bolt" "" "office@bolt.example" "" "" "" true ]}
    empty_store.

Definition restricted_owner : SuperOwner :=
  mkSuperOwner 3 false company_management true false false false false false
    false {[ 1 ]}.

(** Scenario of property P3: owner A (user 1) is stored as primary owner;
    owner B (user 2) is then saved with the flag set and nothing else. *)
Definition owner_A : SuperOwner :=
  mkSuperOwner 1 true full true true true true true true true ∅.

Definition owner_B : SuperOwner :=
  mkSuperOwner 2 true read_only false false false false false false false ∅.

Definition store_with_owner_A : Store :=
  set_super_owners {[ 1 := owner_A ]} empty_store.

(** A reviewer: user 1 with a profile and the primary super-owner row. *)
Definition reviewer_store : Store :=
  set_super_owners {[ 1 := owner_A ]}
    (set_profiles {[ 1 := default_profile 1 ]}
       (set_users
          {[ 1 := mkUser "root" "root@tracker.example" "Ada" "Root" None ]}
          empty_store)).

(** A company registration created at time 0, hence expiring after 30
    days (in seconds). *)
Definition company_request : AccountActivationRequest :=
  mkRequest company_registration pending "owner@acme.example"
    "acme-owner" "Grace" "Hopper" "" "Acme Builders" "" "" "" None None None
    "" "token-1" 2592000.

(** The reviewer's store holding the request [r] under key 1. *)
Definition review_store (r : AccountActivationRequest) : Store :=
  set_requests {[ 1 := r ]} reviewer_store.

(** A clock that reads [t] at every reading. *)
Definition clock_at (t : timestamp) : nat → timestamp := λ _, t.

(** A statement that leaves the permissions table as it found it. *)
Definition keeps_permissions {A} (m : M A) : Prop :=
  ∀ db, permissions (m db).1 = permissions db.

(** A company with its admin role (held by user 7) and an employee role
    (held by user 8). *)
Definition staffed_company : Store :=
  set_memberships
    {[ 1 := mkMembership 7 1 (Some 1) active None;
       2 := mkMembership 8 1 (Some 2) active None ]}
    (set_permissions
       {[ 1 := mkPermission 2 projects view ]}
       (set_roles
          {[ 1 := mkRole 1 "Company Admin" "" true false false;
             2 := mkRole 1 "Employee" "" false false false ]}
          (set_companies
             {[ 1 := mkCompany "Acme" "acme" "" "office@acme.example" "" "" ""
                       true ]}
             empty_store))).

(** ** Review traces *)

(** One call of a transition method of a request by a reviewer. *)
Inductive Call :=
  | call_approve (now : nat → timestamp) (user : pk)
  | call_reject (now : nat → timestamp) (user : pk) (reason : string)
  | call_mark_under_review (user : pk)
  | call_require_documents (user : pk) (reason : string).

Definition run_call (c : Call) (db : Store) (k : pk)
    (self : AccountActivationRequest)
    : Store * AccountActivationRequest * result unit :=
  match c with
  | call_approve now user => approve now user db k self
  | call_reject now user reason => reject now user reason db k self
  | call_mark_under_review user => mark_under_review user db k self
  | call_require_documents user reason => require_documents user reason db k self
  end.

(** One review request, as the detail views make it: the row of key [k] is
    loaded ([get_object_or_404]), the method is called, and an exception
    ends the request without any further write. *)
Definition review_step (c : Call) (k : pk) (db : Store) : Store :=
  match requests db !! k with
  | Some self => (run_call c db k self).1.1
  | None => db
  end.

(** Review requests made one after the other. *)
Definition review_steps (cs : list Call) (k : pk) (db : Store) : Store :=
  foldl (λ d c, review_step c k d) db cs.

(** The statuses a request in status [s] can be found in later. *)
Definition may_follow (s s' : RequestStatus) : bool :=
  match s, s' with
  | pending, _ => true
  | under_review, (under_review | documents_required | rejected) => true
  | documents_required, (documents_required | rejected) => true
  | approved, approved => true
  | rejected, rejected => true
  | expired, expired => true
  | _, _ => false
  end.

(** At most one row of the super-owner table has [is_primary_owner]. *)
Definition at_most_one_primary (db : Store) : Prop :=
  (QuerySet.count
     (QuerySet.filter_by (λ s, is_primary_owner s) (super_owners db)) ≤ 1)%nat.

(** A primary owner (user 4) who is restricted to company 1. *)
Definition scoped_primary_owner : SuperOwner :=
  mkSuperOwner 4 true read_only false false false false false false false
    {[ 1 ]}.

(** ** Permission strings *)

(** The stored value of a resource choice. *)
Definition resource_name (r : Resource) : string :=
  match r with
  | projects => "projects"
  | expenses => "expenses"
  | contractors => "contractors"
  | reports => "reports"
  | users_mgmt => "users"
  | company_settings => "company"
  | billing => "billing"
  end.

(** The stored value of an action choice. *)
Definition action_name (a : Action) : string :=
  match a with
  | view => "view"
  | create => "create"
  | edit => "edit"
  | delete_action => "delete"
  | approve_action => "approve"
  | export => "export"
  end.

(** The formatted string [resource.action]. *)
Definition permission_string (res : Resource) (act : Action) : string :=
  resource_name res +:+ "." +:+ action_name act.

(** [middleware.get_user_permissions]: the loop of [permissions.add] over
    [membership.role.permissions.all()]. *)
Definition get_user_permissions (db : Store) (user company : pk)
    : result (gset string) :=
  match QuerySet.get (active_memberships db user company) with
  | Ok (_, membership) =>
      match m_role membership with
      | None => Ok ∅
      | Some rid =>
          Ok (list_to_set
                ((λ kp, permission_string (resource kp.2) (action kp.2))
                   <$> map_to_list (role_permissions db rid)))
      end
  | Raise DoesNotExist => Ok ∅
  | Raise e => Raise e
  end.

(** ** Middleware *)

(** What the middlewares read of a request and the attributes they set on
    it: [user] is [None] for the anonymous user; [current_company] and
    [company_membership] are [None] while the attribute is not set. *)
Record HttpRequest := mkHttpRequest {
  user : option pk;
  path : string;
  current_company : option (option pk);
  company_membership : option CompanyMembership
}.

(** A request as it enters the middleware chain. *)
Definition incoming (u : option pk) (p : string) : HttpRequest :=
  mkHttpRequest u p None None.

(** [messages.warning(request, text)] or [messages.error(request, text)]
    followed by [return redirect(target)]. *)
Inductive Redirected := redirected (target : string) (text : string).

(** [str.startswith] *)
Definition startswith (s pattern : string) : bool := String.prefix pattern s.

(** [MultiTenantMiddleware.process_request]: [exempt_urls] *)
Definition exempt_urls : list string :=
  ["/admin/"; "/auth/"; "/static/"; "/media/";
   "/company/register/"; "/company/switch/"; "/invitation/";
   "/super-owner/"].

Section Middleware.

(** [QuerySet.first()] on memberships.  The ordering of the model is by
    the creation time, which is not among the columns of the embedding. *)
Variable first : gmap nat CompanyMembership → option (pk * CompanyMembership).

(** [CompanyMembership.objects.filter(user=..., status='active')] *)
Definition active_memberships_of (db : Store) (u : pk)
    : gmap nat CompanyMembership :=
  QuerySet.filter_by
    (λ m, bool_decide (m_user m = u) && bool_decide (m_status m = active))
    (memberships db).

(** [MultiTenantMiddleware.get_current_company] for the authenticated
    user [u]. *)
Definition get_current_company (db : Store) (u : pk) : result (option pk) :=
  let first_active :=
    match first (active_memberships_of db u) with
    | Some (_, membership) => Ok (Some (m_company membership))
    | None => Ok None
    end in
  match QuerySet.get (profiles_of db u) with
  | Ok (_, profile) =>
      match last_company profile with
      | Some c =>
          if QuerySet.exists_ (active_memberships db u c) then Ok (Some c)
          else first_active
      | None => first_active
      end
  | Raise DoesNotExist => first_active
  | Raise e => Raise e
  end.

(** [MultiTenantMiddleware.process_request]: the request as the
    middleware leaves it, and the response when it answers itself. *)
Definition process_request (db : Store) (request : HttpRequest)
    : result (HttpRequest * option Redirected) :=
  match user request with
  | None => Ok (request, None)
  | Some u =>
      if existsb (startswith (path request)) exempt_urls then
        Ok (request, None)
      else if is_super_owner db u then Ok (request, None)
      else
        match get_current_company db u with
        | Raise e => Raise e
        | Ok company =>
            if bool_decide (company = None)
               && negb (bool_decide (path request ∈ ["/dashboard/"; "/"]))
            then
              Ok (request,
                  Some (redirected "dashboard:dashboard"
                          "Please select a company to continue"))
            else
              let request1 :=
                mkHttpRequest (user request) (path request) (Some company)
                  (company_membership request) in
              match company with
              | Some c =>
                  match QuerySet.get (active_memberships db u c) with
                  | Ok (_, membership) =>
                      Ok (mkHttpRequest (user request1) (path request1)
                            (current_company request1) (Some membership),
                          None)
                  | Raise DoesNotExist =>
                      Ok (request1,
                          Some (redirected "dashboard:dashboard"
                                  "Access denied to this company"))
                  | Raise e => Raise e
                  end
              | None => Ok (request1, None)
              end
        end
  end.

End Middleware.

(** [PermissionMiddleware.PERMISSION_MAP], in the order of the dictionary. *)
Definition PERMISSION_MAP : list (string * (Resource * Action)) :=
  [("/projects/create/", (projects, create));
   ("/projects/edit/", (projects, edit));
   ("/projects/delete/", (projects, delete_action));
   ("/expenses/create/", (expenses, create));
   ("/expenses/edit/", (expenses, edit));
   ("/expenses/delete/", (expenses, delete_action));
   ("/expenses/approve/", (expenses, approve_action));
   ("/contractors/create/", (contractors, create));
   ("/contractors/edit/", (contractors, edit));
   ("/contractors/delete/", (contractors, delete_action));
   ("/reports/", (reports, view));
   ("/reports/export/", (reports, export));
   ("/company/manage/", (company_settings, edit));
   ("/company/users/", (users_mgmt, view));
   ("/company/billing/", (billing, view))].

Definition admin_only_patterns : list string :=
  ["/company/manage/"; "/company/users/"; "/roles/"].

Definition supervisor_patterns : list string :=
  ["/supervisor/"; "/executive/"].

(** The loop of [process_view] over [PERMISSION_MAP.items()]: the first
    entry whose pattern starts the path and whose permission is missing
    ends the loop with a redirect. *)
Fixpoint check_permission_map (db : Store) (membership : CompanyMembership)
    (p : string) (items : list (string * (Resource * Action)))
    : option Redirected :=
  match items with
  | [] => None
  | (url_pattern, (res, act)) :: items' =>
      if startswith p url_pattern then
        if negb (has_permission db membership res act) then
          Some (redirected "dashboard:dashboard"
                  ("Access denied. Missing permission: " +:+ action_name act
                   +:+ " " +:+ resource_name res))
        else check_permission_map db membership p items'
      else check_permission_map db membership p items'
  end.

(** [PermissionMiddleware.process_view]: [None] lets the view run. *)
Definition process_view (db : Store) (request : HttpRequest)
    : option Redirected :=
  match user request with
  | None => None
  | Some _ =>
      match company_membership request with
      | None => None
      | Some membership =>
          match check_permission_map db membership (path request)
                  PERMISSION_MAP with
          | Some response => Some response
          | None =>
              if existsb (startswith (path request)) admin_only_patterns
                 && negb (is_company_admin db membership)
              then
                Some (redirected "dashboard:dashboard"
                        "Access denied. Administrator privileges required.")
              else if existsb (startswith (path request)) supervisor_patterns
                      && negb (is_company_supervisor db membership
                               || is_company_admin db membership)
              then
                Some (redirected "dashboard:dashboard"
                        "Access denied. Supervisor privileges required.")
              else None
          end
      end
  end.

(** The request passes both middlewares: [process_request] of the tenant
    middleware, then [process_view] of the permission middleware on the
    request as the first one left it. *)
Definition passes_middleware
    (first : gmap nat CompanyMembership → option (pk * CompanyMembership))
    (db : Store) (request : HttpRequest) : Prop :=
  ∃ request1,
    process_request first db request = Ok (request1, None)
    ∧ process_view db request1 = None.

(** [first()] gives a row of the query set, and [None] only when there is
    none. *)
Definition first_of_query
    (first : gmap nat CompanyMembership → option (pk * CompanyMembership))
    : Prop :=
  ∀ q, match first q with
       | Some (k, m) => q !! k = Some m
       | None => q = ∅
       end.

(** A [first()] for the examples: the first row in the enumeration of the
    table. *)
Definition first_by_key (q : gmap nat CompanyMembership)
    : option (pk * CompanyMembership) :=
  head (map_to_list q).

(** ** Bulk actions *)

(** The status that [bulk_action_requests] gives a selected request of
    status [s] under [action]; [None] when the loop skips the request. *)
Definition bulk_target (action : string) (s : RequestStatus)
    : option RequestStatus :=
  if bool_decide (action = "approve") then
    if bool_decide (s = pending) then Some approved else None
  else if bool_decide (action = "reject") then
    if bool_decide (s ∈ [pending; under_review]) then Some rejected else None
  else if bool_decide (action = "review") then
    if bool_decide (s = pending) then Some under_review else None
  else None.


(** The foreign keys of the tables: every reference points to a stored
    row. *)
Definition foreign_keys (db : Store) : Prop :=
  (∀ k p, profiles db !! k = Some p → is_Some (users db !! profile_user p))
  ∧ (∀ k r, roles db !! k = Some r → is_Some (companies db !! role_company r))
  ∧ (∀ k p, permissions db !! k = Some p → is_Some (roles db !! perm_role p))
  ∧ (∀ k m, memberships db !! k = Some m →
            is_Some (users db !! m_user m)
            ∧ is_Some (companies db !! m_company m)
            ∧ ∀ rid, m_role m = Some rid → is_Some (roles db !! rid)).

(** A statement that writes the role, permission and membership tables
    only. *)
Definition writes_roles_only {A} (m : M A) : Prop :=
  ∀ db,
    set_roles ∅ (set_permissions ∅ (set_memberships ∅ (m db).1))
    = set_roles ∅ (set_permissions ∅ (set_memberships ∅ db)).

(** ** The role form *)

(** [str.split(sep)] for a separator of one character. *)
Fixpoint split (sep : ascii) (s : string) : list string :=
  match s with
  | EmptyString => [EmptyString]
  | String c s' =>
      if bool_decide (c = sep) then EmptyString :: split sep s'
      else
        match split sep s' with
        | part :: parts => String c part :: parts
        | [] => [String c EmptyString]
        end
  end.

(** The key of a choice of the field [permissions]: [resource_action]. *)
Definition choice_key (res : Resource) (act : Action) : string :=
  resource_name res +:+ "_" +:+ action_name act.

(** [RoleForm.__init__]: the keys of the choices of the field. *)
Definition permission_choices : list string :=
  res ← RESOURCE_CHOICES; act ← ACTION_CHOICES; [choice_key res act].

(** [RoleForm.__init__]: [initial_permissions] of a form on the stored
    role [k]. *)
Definition initial_permissions (db : Store) (k : pk) : list string :=
  (λ kp, choice_key (resource kp.2) (action kp.2))
    <$> map_to_list (role_permissions db k).

(** The resource, or the action, that a stored value names. *)
Definition resource_of_name (s : string) : option Resource :=
  head (filter (λ r, resource_name r = s) RESOURCE_CHOICES).

Definition action_of_name (s : string) : option Action :=
  head (filter (λ a, action_name a = s) ACTION_CHOICES).

(** [resource, action = perm_key.split('_')] and the row
    [Permission(role=role, resource=resource, action=action)].  The result
    is [None] when the key has not two parts, where the unpacking fails,
    and when a part names no resource or action, which the typed table
    cannot hold; the validation of the field excludes both. *)
Definition permission_of_key (role : pk) (perm_key : string)
    : option Permission :=
  match split "_" perm_key with
  | [res; act] =>
      match resource_of_name res, action_of_name act with
      | Some res, Some act => Some (mkPermission role res act)
      | _, _ => None
      end
  | _ => None
  end.

(** What [is_valid] leaves in [cleaned_data]. *)
Record RoleFormData := mkRoleFormData {
  cleaned_name : string;
  cleaned_description : string;
  cleaned_is_admin : bool;
  cleaned_is_supervisor : bool;
  cleaned_is_team_member : bool;
  cleaned_permissions : list string
}.

(** The validation of the multiple-choice field: every submitted key is
    the key of a choice. *)
Definition valid_permissions (keys : list string) : bool :=
  forallb (λ key, bool_decide (key ∈ permission_choices)) keys.

(** [role.save()] of an instance with or without a primary key:
    [(company, name)] is unique together. *)
Definition Role_save (instance : option pk) (r : Role) : M pk := λ db,
  if QuerySet.exists_
       (QuerySet.exclude_pk instance
          (QuerySet.filter_by
             (λ r', bool_decide (role_company r' = role_company r)
                    && bool_decide (role_name r' = role_name r))
             (roles db)))
  then (db, Raise IntegrityError)
  else
    let k := match instance with
             | Some k => k
             | None => QuerySet.new_pk (roles db)
             end in
    (set_roles (<[k := r]> (roles db)) db, Ok k).

(** [super().save(commit=False)] and the assignment of the company: the
    instance with the cleaned fields; an instance that was loaded from the
    store keeps its company. *)
Definition form_role (company : pk) (instance : option (pk * Role))
    (cleaned_data : RoleFormData) : Role :=
  mkRole
    match instance with Some (_, old) => role_company old | None => company end
    (cleaned_name cleaned_data) (cleaned_description cleaned_data)
    (cleaned_is_admin cleaned_data) (cleaned_is_supervisor cleaned_data)
    (cleaned_is_team_member cleaned_data).

(** [RoleForm.save(commit=True)] of a form made with [company=company],
    without an instance or with the stored role [instance].  The result is
    [None] on a key list that is not made of choice keys, which
    [cleaned_data] never is. *)
Definition RoleForm_save (company : pk) (instance : option (pk * Role))
    (cleaned_data : RoleFormData) (db : Store)
    : option (Store * result pk) :=
  let role := form_role company instance cleaned_data in
  match Role_save (fst <$> instance) role db with
  | (db1, Raise e) => Some (db1, Raise e)
  | (db1, Ok k) =>
      let db2 :=
        set_permissions
          (QuerySet.delete_rows (role_permissions db1 k) (permissions db1))
          db1 in
      match mapM (permission_of_key k) (cleaned_permissions cleaned_data) with
      | None => None
      | Some permissions_to_create =>
          match Permission_bulk_create permissions_to_create db2 with
          | (db3, Raise e) => Some (db3, Raise e)
          | (db3, Ok _) => Some (db3, Ok k)
          end
      end
  end.

(** The data of an edit of the employee role that ticks two permissions,
    and the same with one of them submitted twice. *)
Definition employee_edit : RoleFormData :=
  mkRoleFormData "Employee" "" false false false
    ["projects_view"; "expenses_create"].

Definition employee_edit_twice : RoleFormData :=
  mkRoleFormData "Employee" "" false false false
    ["projects_view"; "expenses_create"; "projects_view"].

(** ** The owner of a company *)

(** [Company.get_owner]: the user of the first active membership of the
    company whose role is an admin role. *)
Definition get_owner
    (first : gmap nat CompanyMembership → option (pk * CompanyMembership))
    (db : Store) (company : pk) : option pk :=
  match first
          (QuerySet.filter_by
             (λ m, bool_decide (m_company m = company)
                   && is_company_admin db m
                   && bool_decide (m_status m = active))
             (memberships db)) with
  | Some (_, admin_membership) => Some (m_user admin_membership)
  | None => None
  end.

(** ** The company registration form *)

(** What [is_valid] leaves in [cleaned_data] of the registration form,
    for the columns of the embedding. *)
Record CompanyRegistrationData := mkCompanyRegistrationData {
  form_name : string;
  form_description : string;
  form_email : string;
  form_phone : string;
  form_address : string;
  form_website : string;
  admin_first_name : string;
  admin_last_name : string;
  admin_email : string;
  admin_password : string;
  admin_phone : string
}.

(** [company.save()] of an instance with or without a primary key:
    [slug] is unique. *)
Definition Company_save (instance : option pk) (c : Company) : M pk := λ db,
  if QuerySet.exists_
       (QuerySet.exclude_pk instance
          (QuerySet.filter_by (λ c', bool_decide (slug c' = slug c))
             (companies db)))
  then (db, Raise IntegrityError)
  else
    let k := match instance with
             | Some k => k
             | None => QuerySet.new_pk (companies db)
             end in
    (set_companies (<[k := c]> (companies db)) db, Ok k).

(** [CompanyRegistrationForm._create_default_roles]; [joined] is
    [company.created_at]. *)
Definition _create_default_roles (joined : timestamp)
    (company admin_user : pk) : M unit :=
  admin_role ← Role_create
                 (mkRole company "Company Admin"
                    "Full access to all company features and settings"
                    true false false);
  supervisor_role ← Role_create
                      (mkRole company "Supervisor/Executive"
                         "High-level oversight and reporting access"
                         false true false);
  employee_role ← Role_create
                    (mkRole company "Employee"
                       "Basic access to view and create records"
                       false false false);
  team_member_role ← Role_create
                       (mkRole company "Team Member"
                          "Standard team access with collaborative permissions"
                          false false true);
  _ ← Permission_bulk_create
        (res ← RESOURCE_CHOICES;
         act ← ACTION_CHOICES;
         [mkPermission admin_role res act]);
  let supervisor_actions := [view; export] in
  _ ← Permission_bulk_create
        (res ← RESOURCE_CHOICES;
         act ← supervisor_actions;
         [mkPermission supervisor_role res act]);
  let employee_resources := [projects; expenses; contractors] in
  let employee_actions := [view; create; edit] in
  _ ← Permission_bulk_create
        (res ← employee_resources;
         act ← employee_actions;
         [mkPermission employee_role res act]);
  let team_member_resources := [projects; expenses; contractors; reports] in
  let team_member_actions := [view; create; edit; export] in
  _ ← Permission_bulk_create
        (res ← team_member_resources;
         act ← team_member_actions;
         [mkPermission team_member_role res act]);
  _ ← CompanyMembership_create
        (mkMembership admin_user company (Some admin_role) active
           (Some joined));
  mret ().

(** The [if not created] branch of [save]: the phone is replaced unless
    the submitted one is empty, and the company becomes the last one. *)
Definition update_profile (profile : pk) (phone : string) (company : pk)
    : M unit := λ db,
  (set_profiles
     (alter (λ p, mkProfile (profile_user p)
                    (if bool_decide (phone = "") then profile_phone p
                     else phone)
                    (Some company) (account_type p) (is_verified p)
                    (is_account_active p) (activated_by p) (activated_at p))
        profile (profiles db)) db,
   Ok ()).

Section CompanyRegistrationForm.

Variable profile_signal : bool.
Variable slugify : string → string.

(** [CompanyRegistrationForm.save(commit=True)], without an instance or
    with the stored company [instance]; [created_at] is the creation time
    of the company row. *)
Definition CompanyRegistrationForm_save (created_at : timestamp)
    (instance : option (pk * Company)) (cleaned_data : CompanyRegistrationData)
    : M pk :=
  company ← Company_save (fst <$> instance)
              (mkCompany (form_name cleaned_data)
                 (slugify (form_name cleaned_data))
                 (form_description cleaned_data) (form_email cleaned_data)
                 (form_phone cleaned_data) (form_address cleaned_data)
                 (form_website cleaned_data)
                 match instance with
                 | Some (_, old) => company_is_active old
                 | None => true
                 end);
  admin_user ← create_user profile_signal
                 (mkUser (admin_email cleaned_data) (admin_email cleaned_data)
                    (admin_first_name cleaned_data)
                    (admin_last_name cleaned_data)
                    (Some (admin_password cleaned_data)));
  '(profile, created) ← UserProfile_get_or_create
                          (mkProfile admin_user (admin_phone cleaned_data)
                             (Some company) "individual" false false None
                             None);
  _ ← (if negb created then
         update_profile profile (admin_phone cleaned_data) company
       else mret ());
  _ ← _create_default_roles created_at company admin_user;
  mret company.

End CompanyRegistrationForm.

(** The data of a registration. *)
Definition acme_registration : CompanyRegistrationData :=
  mkCompanyRegistrationData "Acme Builders" "" "office@acme.example" "" "" ""
    "Grace" "Hopper" "grace@acme.example" "s3cret-Pass" "555-0100".

(** [views._is_company_approved]: the profile of the first active admin
    membership of the company is activated, or its user is a super owner. *)
Definition _is_company_approved
    (first : gmap nat CompanyMembership → option (pk * CompanyMembership))
    (db : Store) (company : pk) : result bool :=
  match first
          (QuerySet.filter_by
             (λ m, bool_decide (m_company m = company)
                   && is_company_admin db m
                   && bool_decide (m_status m = active))
             (memberships db)) with
  | None => Ok false
  | Some (_, admin_membership) =>
      match QuerySet.get (profiles_of db (m_user admin_membership)) with
      | Ok (_, profile) =>
          Ok (is_account_active profile
              || bool_decide
                   (is_Some (super_owner_profile db (profile_user profile))))
      | Raise DoesNotExist => Ok false
      | Raise e => Raise e
      end
  end.

(** ** The approval of [core/views.py] *)

Section ProcessApproval.

Variable profile_signal : bool.
Variable slugify : string → string.

(** What [send_mail(..., fail_silently=False)] does. *)
Variable mail : result unit.

(** [views._create_default_company_setup] *)
Definition _create_default_company_setup (joined : timestamp)
    (company admin_user : pk) : M unit :=
  admin_role ← Role_create
                 (mkRole company "Company Admin"
                    "Full access to all company features and settings"
                    true false false);
  _ ← CompanyMembership_create
        (mkMembership admin_user company (Some admin_role) active
           (Some joined));
  mret ().

(** [views._process_approval]; [generated_password] is the password that
    [make_random_password] draws. *)
Definition _process_approval (now : nat → timestamp)
    (generated_password : string) (k : pk)
    (activation_request : AccountActivationRequest) (approver : pk)
    : M unit :=
  activation_request ← call_method
                         (λ db, approve now approver db k activation_request);
  match request_type activation_request with
  | company_registration =>
      company ← Company_create
                  (mkCompany (company_name activation_request)
                     (slugify (company_name activation_request))
                     (company_description activation_request)
                     (email activation_request) (phone activation_request)
                     (company_address activation_request)
                     (company_website activation_request) true);
      admin_user ← create_user profile_signal
                     (mkUser (req_username activation_request)
                        (email activation_request)
                        (first_name activation_request)
                        (last_name activation_request)
                        (Some generated_password));
      _ ← UserProfile_create
            (mkProfile admin_user (phone activation_request) (Some company)
               "company" true true (Some approver) (Some (now 2)));
      _ ← _create_default_company_setup (now 3) company admin_user;
      of_result mail
  | individual_registration =>
      user ← create_user profile_signal
               (mkUser (req_username activation_request)
                  (email activation_request)
                  (first_name activation_request)
                  (last_name activation_request)
                  (Some generated_password));
      _ ← UserProfile_create
            (mkProfile user (phone activation_request) None "individual"
               true true (Some approver) (Some (now 2)));
      of_result mail
  | _ => mret ()
  end.

(** The [try] block of the action [approve] of
    [views.activation_request_detail]. *)
Definition activation_request_detail_approve (now : nat → timestamp)
    (generated_password : string) (k : pk)
    (activation_request : AccountActivationRequest) (approver : pk)
    : M unit :=
  atomic (_process_approval now generated_password k activation_request
            approver).

End ProcessApproval.

(** * Properties *)

(** ** Query sets *)

Section QuerySetFacts.
Context {A : Type}.
Implicit Types (q tbl : gmap nat A) (P : A → bool).

Lemma lookup_filter_by P q k a :
  QuerySet.filter_by P q !! k = Some a ↔ q !! k = Some a ∧ P a = true.
Proof. unfold QuerySet.filter_by. by rewrite map_lookup_filter_Some. Qed.

Lemma lookup_filter_pk q k0 k a :
  QuerySet.filter_pk k0 q !! k = Some a ↔ q !! k = Some a ∧ k = k0.
Proof. unfold QuerySet.filter_pk. by rewrite map_lookup_filter_Some. Qed.

Lemma lookup_exclude_pk q o k a :
  QuerySet.exclude_pk o q !! k = Some a ↔ q !! k = Some a ∧ Some k ≠ o.
Proof. unfold QuerySet.exclude_pk. by rewrite map_lookup_filter_Some. Qed.

Lemma exists_true q :
  QuerySet.exists_ q = true ↔ ∃ k a, q !! k = Some a.
Proof.
  unfold QuerySet.exists_. split.
  - destruct (map_to_list q) as [|[k a] l] eqn:E; [done|]. intros _.
    exists k, a. apply elem_of_map_to_list. rewrite E. left.
  - intros (k & a & Hk). apply elem_of_map_to_list in Hk.
    destruct (map_to_list q); [by apply elem_of_nil in Hk | done].
Qed.

Lemma exists_false q :
  QuerySet.exists_ q = false ↔ q = ∅.
Proof.
  unfold QuerySet.exists_. rewrite <- map_to_list_empty_iff.
  by destruct (map_to_list q).
Qed.

(** [get] on a query set with at most one row never sees several. *)
Lemma get_at_most_one q :
  (∀ k1 k2 a1 a2, q !! k1 = Some a1 → q !! k2 = Some a2 → k1 = k2) →
  (q = ∅ ∧ QuerySet.get q = Raise DoesNotExist)
  ∨ (∃ k a, q !! k = Some a ∧ QuerySet.get q = Ok (k, a)).
Proof.
  intros Huniq. unfold QuerySet.get.
  pose proof (NoDup_map_to_list q) as Hnd.
  destruct (map_to_list q) as [|[k1 a1] [|[k2 a2] l]] eqn:E.
  - left. split; [by apply map_to_list_empty_iff | done].
  - right. exists k1, a1. split; [|done].
    apply elem_of_map_to_list. rewrite E. left.
  - exfalso.
    assert (q !! k1 = Some a1) as H1
      by (apply elem_of_map_to_list; rewrite E; left).
    assert (q !! k2 = Some a2) as H2
      by (apply elem_of_map_to_list; rewrite E; right; left).
    pose proof (Huniq _ _ _ _ H1 H2) as ->.
    assert (a1 = a2) as -> by congruence.
    apply NoDup_cons in Hnd as [Hnotin _]. apply Hnotin. left.
Qed.

Lemma count_pos q :
  0 < QuerySet.count q ↔ ∃ k a, q !! k = Some a.
Proof.
  unfold QuerySet.count. split.
  - intros Hpos. destruct (decide (q = ∅)) as [->|Hne].
    + rewrite map_size_empty in Hpos. lia.
    + apply map_choose in Hne. destruct Hne as (k & a & Hk). eauto.
  - intros (k & a & Hk). 
    destruct (decide (size q = 0)) as [Hz|Hnz]; [|lia].
    apply map_size_empty_iff in Hz. subst q. by rewrite lookup_empty in Hk.
Qed.

Lemma new_pk_fresh tbl : tbl !! QuerySet.new_pk tbl = None.
Proof.
  unfold QuerySet.new_pk. apply not_elem_of_dom. apply is_fresh.
Qed.
End QuerySetFacts.

(** ** Authorization *)

Lemma has_permission_true db m res act :
  has_permission db m res act = true
  ↔ ∃ rid, m_role m = Some rid ∧ role_owns db rid res act.
Proof.
  unfold has_permission, role_owns, role_permissions.
  destruct (m_role m) as [rid|];
    [|split; [done | by intros (rid & [=] & _)]].
  rewrite exists_true. split.
  - intros (kp & p & Hp). exists rid. split; [done|]. exists kp, p.
    apply lookup_filter_by in Hp as [Hp Hra].
    apply lookup_filter_by in Hp as [Hp Hrole].
    apply andb_true_iff in Hra as [Hr Ha].
    apply bool_decide_eq_true in Hrole, Hr, Ha. done.
  - intros (rid' & [= <-] & kp & p & Hp & Hrole & Hr & Ha).
    exists kp, p. apply lookup_filter_by. split.
    + apply lookup_filter_by. split; [done|]. by apply bool_decide_eq_true.
    + apply andb_true_iff. split; by apply bool_decide_eq_true.
Qed.

Lemma lookup_active_memberships db user company k m :
  active_memberships db user company !! k = Some m
  ↔ memberships db !! k = Some m
    ∧ m_user m = user ∧ m_company m = company ∧ m_status m = active.
Proof.
  unfold active_memberships. rewrite lookup_filter_by.
  rewrite !andb_true_iff, !bool_decide_eq_true. tauto.
Qed.

Lemma NoDup_fmap_eq {A B} (f : A → B) (l : list A) x y :
  NoDup (f <$> l) → x ∈ l → y ∈ l → f x = f y → x = y.
Proof.
  induction l as [|a l IH]; simpl; intros Hnd Hx Hy Hf.
  - by apply elem_of_nil in Hx.
  - apply NoDup_cons in Hnd as [Hnotin Hnd].
    apply elem_of_cons in Hx as [->|Hx]; apply elem_of_cons in Hy as [->|Hy].
    + done.
    + exfalso. apply Hnotin. rewrite Hf. by apply list_elem_of_fmap_2.
    + exfalso. apply Hnotin. rewrite <- Hf. by apply list_elem_of_fmap_2.
    + by apply IH.
Qed.

Lemma unique_together_user_company_keys db k1 k2 m1 m2 :
  unique_together_user_company db →
  memberships db !! k1 = Some m1 → memberships db !! k2 = Some m2 →
  m_user m1 = m_user m2 → m_company m1 = m_company m2 → k1 = k2.
Proof.
  intros Hnd H1 H2 Hu Hc.
  apply elem_of_map_to_list in H1, H2.
  assert ((k1, m1) = (k2, m2)) as [= -> _]; [|done].
  eapply (NoDup_fmap_eq _ _ _ _ Hnd H1 H2). simpl. congruence.
Qed.

Lemma active_memberships_at_most_one db user company :
  unique_together_user_company db →
  ∀ k1 k2 m1 m2,
    active_memberships db user company !! k1 = Some m1 →
    active_memberships db user company !! k2 = Some m2 → k1 = k2.
Proof.
  intros Huniq k1 k2 m1 m2 H1 H2.
  apply lookup_active_memberships in H1 as (H1 & Hu1 & Hc1 & _).
  apply lookup_active_memberships in H2 as (H2 & Hu2 & Hc2 & _).
  eapply unique_together_user_company_keys; eauto; congruence.
Qed.

(** C1.  Under the unique-together constraint on (user, company), the
    user-level check returns a boolean, never an exception, and it returns
    true exactly when an active membership of the pair has a role that owns
    a permission row for (resource, action); the roles table, and with it
    the flags [is_admin] and [is_supervisor], is never read. *)
Theorem user_has_permission_iff db user company res act :
  unique_together_user_company db →
  (∃ b, user_has_permission db user company res act = Ok b
        ∧ (b = true ↔
           ∃ km m rid, memberships db !! km = Some m
                       ∧ m_user m = user ∧ m_company m = company
                       ∧ m_status m = active ∧ m_role m = Some rid
                       ∧ role_owns db rid res act))
  ∧ (∀ roles', user_has_permission (set_roles roles' db) user company res act
               = user_has_permission db user company res act).
Proof.
  intros Huniq. split; [|done].
  unfold user_has_permission.
  destruct (get_at_most_one (active_memberships db user company)
              (active_memberships_at_most_one db user company Huniq))
    as [[Hempty ->]|(k & m & Hk & ->)].
  - exists false. split; [done|]. split; [done|].
    intros (km & m & rid & Hm & Hu & Hc & Hs & _).
    assert (active_memberships db user company !! km = Some m) as Hin
      by by apply lookup_active_memberships.
    rewrite Hempty in Hin. by rewrite lookup_empty in Hin.
  - exists (has_permission db m res act). split; [done|].
    rewrite has_permission_true.
    pose proof Hk as Hk'.
    apply lookup_active_memberships in Hk' as (Hm & Hu & Hc & Hs).
    split.
    + intros (rid & Hrole & Hown). by exists k, m, rid.
    + intros (km & m' & rid & Hm' & Hu' & Hc' & Hs' & Hrole & Hown).
      assert (km = k) as ->
        by (eapply unique_together_user_company_keys; eauto; congruence).
      assert (m' = m) as -> by congruence.
      by exists rid.
Qed.

Lemma user_has_permission_iff_witness :
  unique_together_user_company scenario_A
  ∧ (∃ b, user_has_permission scenario_A 7 1 projects create = Ok b
          ∧ (b = true ↔
             ∃ km m rid, memberships scenario_A !! km = Some m
                         ∧ m_user m = 7 ∧ m_company m = 1
                         ∧ m_status m = active ∧ m_role m = Some rid
                         ∧ role_owns scenario_A rid projects create)).
Proof.
  split.
  - apply (bool_decide_unpack _). vm_compute. reflexivity.
  - apply (user_has_permission_iff scenario_A 7 1 projects create).
    apply (bool_decide_unpack _). vm_compute. reflexivity.
Defined.

(** Scenario A: the admin role holds (projects, create) only. *)
Example scenario_A_projects_create :
  user_has_permission scenario_A 7 1 projects create = Ok true.
Proof. reflexivity. Qed.

Example scenario_A_expenses_create :
  user_has_permission scenario_A 7 1 expenses create = Ok false.
Proof. reflexivity. Qed.

(** C2, as stated, fails: the membership-level check does not read the
    status.  A suspended membership whose role holds (projects, create) is
    granted that permission by [has_permission]. *)
Lemma has_permission_ignores_status :
  ¬ (∀ db m res act,
       m_role m = None ∨ m_status m ≠ active →
       has_permission db m res act = false).
Proof.
  intros H.
  specialize (H scenario_A_suspended suspended_member projects create).
  vm_compute in H. discriminate H. by right.
Qed.

(** C2, amended.  A membership without a role is denied every pair by the
    membership-level check; a stored membership without a role, or whose
    status is not active, is denied every pair by the user-level check,
    which is where the status is tested. *)
Theorem least_privilege db k m res act :
  unique_together_user_company db →
  memberships db !! k = Some m →
  m_role m = None ∨ m_status m ≠ active →
  (m_role m = None → has_permission db m res act = false)
  ∧ user_has_permission db (m_user m) (m_company m) res act = Ok false.
Proof.
  intros Huniq Hm Hcase. split.
  - intros Hrole. unfold has_permission. by rewrite Hrole.
  - unfold user_has_permission.
    destruct (get_at_most_one (active_memberships db (m_user m) (m_company m))
                (active_memberships_at_most_one db _ _ Huniq))
      as [[_ ->]|(k' & m' & Hk' & ->)]; [done|].
    apply lookup_active_memberships in Hk' as (Hm' & Hu & Hc & Hs).
    assert (k' = k) as ->
      by (eapply unique_together_user_company_keys; eauto).
    assert (m' = m) as -> by congruence.
    destruct Hcase as [Hrole|Hst]; [|done].
    unfold has_permission. by rewrite Hrole.
Qed.

Lemma least_privilege_witness :
  unique_together_user_company scenario_A_suspended
  ∧ memberships scenario_A_suspended !! 1 = Some suspended_member
  ∧ (m_role suspended_member = None ∨ m_status suspended_member ≠ active)
  ∧ user_has_permission scenario_A_suspended 7 1 projects create = Ok false.
Proof.
  assert (unique_together_user_company scenario_A_suspended) as Huniq
    by (apply (bool_decide_unpack _); vm_compute; reflexivity).
  assert (m_role suspended_member = None ∨ m_status suspended_member ≠ active)
    as Hcase by (right; discriminate).
  split; [exact Huniq|]. split; [reflexivity|]. split; [exact Hcase|].
  apply (least_privilege scenario_A_suspended 1 suspended_member projects create
           Huniq eq_refl Hcase).
Defined.

(** ** Super owners *)

Lemma lookup_allowed_companies_all db s k c :
  allowed_companies_all db s !! k = Some c
  ↔ companies db !! k = Some c ∧ k ∈ allowed_companies s.
Proof. unfold allowed_companies_all. by rewrite map_lookup_filter_Some. Qed.



(** The restriction is effective: company 2 is neither enumerated nor
    manageable. *)
Example restricted_owner_other_company :
  get_manageable_companies two_companies restricted_owner !! 2 = None
  ∧ can_manage_company two_companies restricted_owner 2 = false.
Proof. split; reflexivity. Qed.

Lemma lookup_update {A} (f : A → A) (q tbl : gmap nat A) k :
  QuerySet.update f q tbl !! k
  = match q !! k with Some a => Some (f a) | None => tbl !! k end.
Proof.
  unfold QuerySet.update. rewrite lookup_union, lookup_fmap.
  destruct (q !! k); simpl; [|by rewrite (left_id None _)].
  by destruct (tbl !! k).
Qed.

(** The rows that [SuperOwner.save] of a primary owner leaves in the table
    before its own write. *)
Lemma cleared_rows (tbl : gmap nat SuperOwner) self_pk k s :
  QuerySet.update (set_is_primary_owner false)
    (QuerySet.exclude_pk self_pk
       (QuerySet.filter_by (λ s, is_primary_owner s) tbl)) tbl !! k = Some s →
  (∃ s0, tbl !! k = Some s0 ∧ so_user s0 = so_user s)
  ∧ (is_primary_owner s = true → self_pk = Some k).
Proof.
  rewrite lookup_update.
  destruct (QuerySet.exclude_pk self_pk
              (QuerySet.filter_by (λ s, is_primary_owner s) tbl) !! k)
    as [s0|] eqn:Hq.
  - intros [= <-].
    apply lookup_exclude_pk in Hq as [Hq _].
    apply lookup_filter_by in Hq as [Hq _].
    split; [by exists s0 | done].
  - intros Hk. split; [by exists s|]. intros Hprim.
    destruct (decide (self_pk = Some k)) as [|Hne]; [done|].
    assert (QuerySet.exclude_pk self_pk
              (QuerySet.filter_by (λ s, is_primary_owner s) tbl) !! k = Some s)
      as Hin; [|congruence].
    apply lookup_exclude_pk. split; [|done].
    by apply lookup_filter_by.
Qed.

(** C6.  A save of a super owner with [is_primary_owner] set, whose user is
    not held by another row, succeeds; afterwards the saved row is the only
    one with the flag, its delegation level is [full] and its seven
    capability flags are set. *)
Theorem primary_owner_singleton db self_pk self :
  is_primary_owner self = true →
  user_taken_by_other db self_pk self = false →
  ∃ k db' self',
    SuperOwner_save db self_pk self = (db', self', Ok k)
    ∧ super_owners db' !! k = Some self'
    ∧ (∀ k' s', super_owners db' !! k' = Some s' →
                is_primary_owner s' = true → k' = k)
    ∧ is_primary_owner self' = true
    ∧ delegation_level self' = full
    ∧ can_manage_companies self' = true
    ∧ can_manage_users self' = true
    ∧ can_activate_accounts self' = true
    ∧ can_access_django_admin self' = true
    ∧ can_delegate_permissions self' = true
    ∧ can_manage_billing self' = true
    ∧ can_view_system_analytics self' = true.
Proof.
  intros Hprim Hfree.
  assert (∀ k s, super_owners db !! k = Some s → so_user s = so_user self →
                 self_pk = Some k) as Huser.
  { intros k s Hk Hu. destruct (decide (self_pk = Some k)) as [|Hne]; [done|].
    apply not_true_iff_false in Hfree. exfalso. apply Hfree.
    apply exists_true. exists k, s. apply lookup_exclude_pk. split; [|done].
    apply lookup_filter_by. split; [done|]. by apply bool_decide_eq_true. }
  unfold SuperOwner_save. rewrite Hprim.
  set (tbl1 := QuerySet.update _ _ _).
  set (k := match self_pk with Some k => k | None => QuerySet.new_pk tbl1 end).
  assert (QuerySet.exists_
            (QuerySet.exclude_pk (Some k)
               (QuerySet.filter_by
                  (λ s, bool_decide (so_user s = so_user (grant_all self)))
                  tbl1)) = false) as ->.
  { apply not_true_iff_false. rewrite exists_true.
    intros (k' & s' & Hk').
    apply lookup_exclude_pk in Hk' as [Hk' Hne].
    apply lookup_filter_by in Hk' as [Hk' Hu].
    apply bool_decide_eq_true in Hu. simpl in Hu.
    apply cleared_rows in Hk' as [(s0 & Hs0 & Hu0) _].
    pose proof (Huser k' s0 Hs0 ltac:(congruence)) as Hpk.
    subst k. rewrite Hpk in Hne. done. }
  exists k, (set_super_owners (<[k := grant_all self]> tbl1) db), (grant_all self).
  split; [done|]. simpl. split; [apply lookup_insert_eq|].
  split; [|by repeat split].
  intros k' s' Hk' Hp'.
  destruct (decide (k' = k)) as [|Hne]; [done|].
  rewrite lookup_insert_ne in Hk' by done.
  apply cleared_rows in Hk' as [_ Hpk]. specialize (Hpk Hp').
  subst k. by rewrite Hpk.
Qed.

Lemma primary_owner_singleton_witness :
  is_primary_owner owner_B = true
  ∧ user_taken_by_other store_with_owner_A None owner_B = false
  ∧ ∃ k db' self',
      SuperOwner_save store_with_owner_A None owner_B = (db', self', Ok k)
      ∧ super_owners db' !! k = Some self'
      ∧ (∀ k' s', super_owners db' !! k' = Some s' →
                  is_primary_owner s' = true → k' = k)
      ∧ is_primary_owner self' = true
      ∧ delegation_level self' = full
      ∧ can_manage_companies self' = true
      ∧ can_manage_users self' = true
      ∧ can_activate_accounts self' = true
      ∧ can_access_django_admin self' = true
      ∧ can_delegate_permissions self' = true
      ∧ can_manage_billing self' = true
      ∧ can_view_system_analytics self' = true.
Proof.
  split; [reflexivity|]. split; [reflexivity|].
  apply (primary_owner_singleton store_with_owner_A None owner_B);
    reflexivity.
Defined.

(** Property P3, run: after B is saved, A has lost the flag and B holds it
    with every capability. *)
Example primary_owner_handover :
  let '(db', _, r) := SuperOwner_save store_with_owner_A None owner_B in
  r = Ok 2
  ∧ super_owners db' !! 1 = Some (set_is_primary_owner false owner_A)
  ∧ super_owners db' !! 2 = Some (grant_all owner_B).
Proof. vm_compute. repeat split; reflexivity. Qed.

(** ** The activation request state machine *)

(** C3, as stated, fails: a request under review whose expiry has not
    passed is not approved; [approve] raises and changes nothing. *)
Lemma approve_from_under_review_fails :
  let r := set_status under_review company_request in
  status r = under_review
  ∧ is_expired (clock_at 86400 0) r = false
  ∧ approve (clock_at 86400) 1 (review_store r) 1 r
    = (review_store r, r,
       Raise (ValidationError "Only pending requests can be approved")).
Proof. repeat split; reflexivity. Qed.

(** C3, amended.  For a request whose expiry has not passed, [approve]
    succeeds exactly from [pending], where it stores the status
    [approved], the reviewer and the approval time; from [under_review] it
    raises a validation failure and changes neither the store nor the
    instance. *)
Theorem approve_succeeds_only_from_pending now reviewer db k r :
  is_expired (now 0) r = false →
  (status r = under_review →
   approve now reviewer db k r
   = (db, r, Raise (ValidationError "Only pending requests can be approved")))
  ∧ ((approve now reviewer db k r).2 = Ok () ↔ status r = pending)
  ∧ (status r = pending →
     ∃ r', approve now reviewer db k r = (save_request k r' db, r', Ok ())
           ∧ requests (save_request k r' db) !! k = Some r'
           ∧ status r' = approved
           ∧ approved_by r' = Some reviewer
           ∧ approved_at r' = Some (now 1)).
Proof.
  intros Hfresh. unfold approve. rewrite Hfresh.
  split; [|split].
  - intros ->. reflexivity.
  - case_bool_decide as Hst; simpl; split; try done.
  - intros Hst. rewrite bool_decide_eq_false_2 by (by intros ?).
    eexists. split; [reflexivity|]. simpl.
    split; [apply lookup_insert_eq|done].
Qed.

Lemma approve_succeeds_only_from_pending_witness :
  is_expired (clock_at 86400 0) company_request = false
  ∧ ((approve (clock_at 86400) 1 (review_store company_request) 1
        company_request).2 = Ok ()
     ↔ status company_request = pending).
Proof.
  split; [reflexivity|].
  apply (approve_succeeds_only_from_pending (clock_at 86400) 1
           (review_store company_request) 1 company_request).
  reflexivity.
Defined.

(** C4.  [approve] on a pending request whose expiry has passed stores
    the status [expired] and raises a validation failure; the stored and
    the in-memory status are [expired], not [approved]. *)
Theorem approve_expired now reviewer db k r :
  status r = pending →
  (expires_at r < now 0%nat)%Z →
  ∃ db' r',
    approve now reviewer db k r
    = (db', r', Raise (ValidationError "Request has expired"))
    ∧ r' = set_status expired r
    ∧ db' = save_request k r' db
    ∧ requests db' !! k = Some r'
    ∧ status r' = expired.
Proof.
  intros Hst Hexp. unfold approve, is_expired.
  rewrite bool_decide_eq_false_2 by (by intros ?).
  rewrite bool_decide_eq_true_2 by done.
  eexists _, _. split; [reflexivity|]. simpl.
  repeat split. apply lookup_insert_eq.
Qed.

Lemma approve_expired_witness :
  status company_request = pending
  ∧ (expires_at company_request < clock_at 2600000 0%nat)%Z
  ∧ ∃ db' r',
      approve (clock_at 2600000) 1 (review_store company_request) 1
        company_request
      = (db', r', Raise (ValidationError "Request has expired"))
      ∧ r' = set_status expired company_request
      ∧ db' = save_request 1 r' (review_store company_request)
      ∧ requests db' !! 1 = Some r'
      ∧ status r' = expired.
Proof.
  split; [reflexivity|]. split; [reflexivity|].
  apply (approve_expired (clock_at 2600000) 1 (review_store company_request) 1
           company_request); reflexivity.
Defined.

(** Inside [transaction.atomic()], as in [views._process_approval], the
    exception undoes the write of [expired]: the store is left as it was. *)
Remark approve_expired_rolled_back now reviewer db k r :
  status r = pending →
  is_expired (now 0) r = true →
  atomic (call_method (λ db, approve now reviewer db k r)) db
  = (db, Raise (ValidationError "Request has expired")).
Proof.
  intros Hst Hexp. unfold atomic, call_method, approve.
  rewrite bool_decide_eq_false_2 by (by intros ?). by rewrite Hexp.
Qed.



(** The handler of [registration_workflow.py] does not call [approve]:
    run on a rejected request, it stores [approved] and creates the
    account. *)
Example approve_request_has_no_guard :
  let r := set_status rejected company_request in
  let '(db', res) :=
    approve_request false (λ s, s) (clock_at 86400) "Xy12Za34Bc56" 1 r 1
      (review_store r) in
  res = Ok (Some 2)
  ∧ status <$> requests db' !! 1 = Some approved
  ∧ size (users db') = 2.
Proof. vm_compute. repeat split; reflexivity. Qed.

(** ** Expiry on the transition paths *)

(** [mark_under_review] never reads the clock: a pending request moves to
    [under_review] whatever its expiry time is. *)
Lemma mark_under_review_pending reviewer db k r :
  status r = pending →
  mark_under_review reviewer db k r
  = (save_request k (set_approved_by (Some reviewer) (set_status under_review r)) db,
     set_approved_by (Some reviewer) (set_status under_review r), Ok ()).
Proof.
  intros Hst. unfold mark_under_review.
  by rewrite bool_decide_eq_false_2 by (by intros ?).
Qed.

Lemma filter_pk_in_singleton {A} (tbl : gmap nat A) k a :
  tbl !! k = Some a → QuerySet.filter_pk_in [k] tbl = {[ k := a ]}.
Proof.
  intros Hk. apply map_eq. intros i. unfold QuerySet.filter_pk_in.
  destruct (decide (i = k)) as [->|Hne].
  - rewrite lookup_singleton_eq. apply map_lookup_filter_Some.
    split; [done|]. simpl. apply list_elem_of_singleton. done.
  - rewrite lookup_singleton_ne by done. apply map_lookup_filter_None.
    right. intros a' _. simpl. rewrite list_elem_of_singleton. done.
Qed.

(** The bulk approval of one pending request by a super owner writes
    [approved] without reading the expiry time. *)
Lemma bulk_approve_pending now request_user db k r :
  is_super_owner db request_user = true →
  requests db !! k = Some r →
  status r = pending →
  (bulk_action_requests now request_user "approve" [k] db).1
  = save_request k
      (set_approved_at (Some (now 0))
         (set_approved_by (Some request_user) (set_status approved r))) db.
Proof.
  intros Hso Hk Hst. unfold bulk_action_requests. rewrite Hso. simpl.
  rewrite (filter_pk_in_singleton _ _ _ Hk), map_to_list_singleton. simpl.
  by rewrite bool_decide_eq_true_2.
Qed.

(** C8, at a failing input: at time 2600000 the request, which expired at
    2592000, is still pending in the store.  [approve] detects the expiry
    and stores [expired]; [mark_under_review], [require_documents],
    [reject] and the bulk actions do not read the expiry time and move the
    request to [under_review], [documents_required], [rejected] and
    [approved]. *)
Theorem expired_request_still_transitions :
  let now := clock_at 2600000 in
  let db := review_store company_request in
  is_expired (now 0) company_request = true
  ∧ status (approve now 1 db 1 company_request).1.2 = expired
  ∧ (mark_under_review 1 db 1 company_request).2 = Ok ()
  ∧ status <$> requests (mark_under_review 1 db 1 company_request).1.1 !! 1
    = Some under_review
  ∧ (require_documents 1 "" db 1 company_request).2 = Ok ()
  ∧ status <$> requests (require_documents 1 "" db 1 company_request).1.1 !! 1
    = Some documents_required
  ∧ (reject now 1 "" db 1 company_request).2 = Ok ()
  ∧ status <$> requests (reject now 1 "" db 1 company_request).1.1 !! 1
    = Some rejected
  ∧ status <$> requests (bulk_action_requests now 1 "approve" [1] db).1 !! 1
    = Some approved
  ∧ status <$> requests (bulk_action_requests now 1 "review" [1] db).1 !! 1
    = Some under_review
  ∧ status <$> requests (bulk_action_requests now 1 "reject" [1] db).1 !! 1
    = Some rejected.
Proof. vm_compute. repeat split; reflexivity. Qed.

(** ** Accounts created on approval *)

Section KeepsPermissions.
Context {A B : Type}.

Lemma keeps_permissions_ret (a : A) : keeps_permissions (mret a).
Proof. by intros db. Qed.

Lemma keeps_permissions_raise e : keeps_permissions (raise e : M A).
Proof. by intros db. Qed.

Lemma keeps_permissions_of_result (r : result A) :
  keeps_permissions (of_result r).
Proof. by intros db. Qed.

Lemma keeps_permissions_bind (m : M A) (f : A → M B) :
  keeps_permissions m → (∀ a, keeps_permissions (f a)) →
  keeps_permissions (m ≫= f).
Proof.
  intros Hm Hf db. unfold mbind, M_bind.
  specialize (Hm db). destruct (m db) as [db1 [a|e]]; simpl in *.
  - by rewrite Hf.
  - done.
Qed.
End KeepsPermissions.

Lemma keeps_permissions_approve now reviewer k self :
  keeps_permissions (call_method (λ db, approve now reviewer db k self)).
Proof.
  intros db. unfold call_method, approve.
  repeat case_match; simplify_eq; done.
Qed.

Lemma keeps_permissions_create_user profile_signal u :
  keeps_permissions (create_user profile_signal u).
Proof. intros db. unfold create_user. repeat case_match; done. Qed.

Lemma keeps_permissions_get_or_create p :
  keeps_permissions (UserProfile_get_or_create p).
Proof.
  intros db. unfold UserProfile_get_or_create. repeat case_match; done.
Qed.

Lemma keeps_permissions_Company_create c :
  keeps_permissions (Company_create c).
Proof. intros db. unfold Company_create. repeat case_match; done. Qed.

Lemma keeps_permissions_Role_create r : keeps_permissions (Role_create r).
Proof. intros db. unfold Role_create. repeat case_match; done. Qed.

Lemma keeps_permissions_CompanyMembership_create m :
  keeps_permissions (CompanyMembership_create m).
Proof.
  intros db. unfold CompanyMembership_create. repeat case_match; done.
Qed.

Create HintDb keeps.

#[local] Hint Resolve keeps_permissions_ret keeps_permissions_raise
  keeps_permissions_of_result keeps_permissions_approve
  keeps_permissions_create_user keeps_permissions_get_or_create
  keeps_permissions_Company_create keeps_permissions_Role_create
  keeps_permissions_CompanyMembership_create : keeps.

(** The view [approve_activation_request] writes no permission row, for
    any store, request and outcome. *)
Lemma approve_activation_request_keeps_permissions
    profile_signal mail now request_user request_id db :
  permissions
    (approve_activation_request profile_signal mail now request_user
       request_id db).1
  = permissions db.
Proof.
  unfold approve_activation_request.
  destruct (user_can_activate_accounts db request_user); simpl; [|done].
  destruct (requests db !! request_id) as [r|]; [|done].
  assert (keeps_permissions
            (approve_and_create_account profile_signal mail now request_user
               request_id r)) as Hkeep.
  { unfold approve_and_create_account.
    repeat (first [ apply keeps_permissions_bind; [|intros ?]
                  | case_match
                  | by auto with keeps ]). }
  specialize (Hkeep db).
  by destruct (approve_and_create_account _ _ _ _ _ _ _) as [db1 [?|?]].
Qed.

(** C7, at a failing input: the reviewer approves the pending, unexpired
    company registration through [approve_activation_request].  The
    request is approved and one user, one company and one active admin
    membership are created, but the user has no password, the only role
    is a Company Admin role without a permission row, and the new admin
    is denied (projects, view).  This holds whether or not the profile
    receiver is registered and whatever the mail backend answers. *)
Theorem approval_view_creates_bare_admin_role profile_signal mail :
  let db' :=
    (approve_activation_request profile_signal mail (clock_at 86400) 1 1
       (review_store company_request)).1 in
  status <$> requests db' !! 1 = Some approved
  ∧ size (users db') = 2
  ∧ password <$> users db' !! 2 = Some None
  ∧ size (profiles_of db' 2) = 1
  ∧ size (companies db') = 1
  ∧ map_to_list (roles db')
    = [(0, mkRole 0 "Company Admin" "Full company administration access"
             true false false)]
  ∧ size (permissions db') = 0
  ∧ map_to_list (memberships db')
    = [(0, mkMembership 2 0 (Some 0) active (Some 86400%Z))]
  ∧ user_has_permission db' 2 0 projects view = Ok false.
Proof.
  destruct profile_signal, mail; vm_compute; repeat split; reflexivity.
Qed.

(** The sibling path, [RegistrationRequestHandler.approve_request], on the
    same input: three roles, with 42, 14 and 9 permission rows, a drawn
    password, and an admin who is granted (projects, view). *)
Example approve_request_creates_default_roles :
  let db' :=
    (approve_request false (λ s, s) (clock_at 86400) "Xy12Za34Bc56" 1
       company_request 1 (review_store company_request)).1 in
  status <$> requests db' !! 1 = Some approved
  ∧ size (users db') = 2
  ∧ password <$> users db' !! 2 = Some (Some "Xy12Za34Bc56")
  ∧ size (profiles_of db' 2) = 1
  ∧ size (companies db') = 1
  ∧ role_name <$> roles db' !! 0 = Some "Company Admin"
  ∧ role_name <$> roles db' !! 1 = Some "Supervisor"
  ∧ role_name <$> roles db' !! 2 = Some "Employee"
  ∧ size (roles db') = 3
  ∧ size (role_permissions db' 0) = 42
  ∧ size (role_permissions db' 1) = 14
  ∧ size (role_permissions db' 2) = 9
  ∧ map_to_list (memberships db')
    = [(0, mkMembership 2 0 (Some 0) active (Some 86400%Z))]
  ∧ user_has_permission db' 2 0 projects view = Ok true.
Proof. vm_compute. repeat split; reflexivity. Qed.

(** *** Bulk creation *)

Section BulkCreate.
Context {A : Type}.
Implicit Types (tbl : gmap nat A) (rows : list A) (P : A → bool).

Lemma bulk_create_cons row rows tbl :
  QuerySet.bulk_create (row :: rows) tbl
  = QuerySet.bulk_create rows (<[QuerySet.new_pk tbl := row]> tbl).
Proof. reflexivity. Qed.

Lemma bulk_create_old rows tbl k a :
  tbl !! k = Some a → QuerySet.bulk_create rows tbl !! k = Some a.
Proof.
  revert tbl. induction rows as [|row rows IH]; intros tbl Hk; [done|].
  rewrite bulk_create_cons. apply IH.
  rewrite lookup_insert_ne; [done|].
  intros <-. by rewrite new_pk_fresh in Hk.
Qed.

Lemma bulk_create_new rows tbl a :
  a ∈ rows → ∃ k, tbl !! k = None ∧ QuerySet.bulk_create rows tbl !! k = Some a.
Proof.
  revert tbl. induction rows as [|row rows IH]; intros tbl Ha.
  - by apply elem_of_nil in Ha.
  - rewrite bulk_create_cons. apply elem_of_cons in Ha as [->|Ha].
    + exists (QuerySet.new_pk tbl). split; [apply new_pk_fresh|].
      apply bulk_create_old. apply lookup_insert_eq.
    + destruct (IH (<[QuerySet.new_pk tbl := row]> tbl) Ha) as (k & Hnone & Hk).
      exists k. split; [|done].
      apply lookup_insert_None in Hnone as [Hnone _]. done.
Qed.

Lemma bulk_create_inv rows tbl k a :
  QuerySet.bulk_create rows tbl !! k = Some a → tbl !! k = Some a ∨ a ∈ rows.
Proof.
  revert tbl. induction rows as [|row rows IH]; intros tbl Hk; [by left|].
  rewrite bulk_create_cons in Hk. apply IH in Hk as [Hk|Hin].
  - apply lookup_insert_Some in Hk as [[_ <-]|[_ Hk]]; [right; left|by left].
  - right. by right.
Qed.

Lemma size_filter_by_insert P tbl k a :
  tbl !! k = None →
  size (QuerySet.filter_by P (<[k := a]> tbl))
  = size (QuerySet.filter_by P tbl) + (if P a then 1 else 0).
Proof.
  intros Hk. unfold QuerySet.filter_by. destruct (P a) eqn:HP.
  - rewrite map_filter_insert_True by done.
    rewrite map_size_insert_None; [lia|].
    apply map_lookup_filter_None. by left.
  - rewrite map_filter_insert_not'; [lia|simpl; congruence|].
    intros y Hy. congruence.
Qed.

Lemma size_filter_by_bulk_create P rows tbl :
  size (QuerySet.filter_by P (QuerySet.bulk_create rows tbl))
  = size (QuerySet.filter_by P tbl) + length (filter (λ a, P a = true) rows).
Proof.
  revert tbl. induction rows as [|row rows IH]; intros tbl.
  - simpl. lia.
  - rewrite bulk_create_cons, IH, size_filter_by_insert by apply new_pk_fresh.
    rewrite filter_cons. destruct (P row) eqn:HP.
    + rewrite decide_True by done. simpl. lia.
    + rewrite decide_False by congruence. lia.
Qed.
End BulkCreate.

(** The rows built by the nested loops over resources and actions. *)
Section GrantRows.
Implicit Types (rid : nat) (rs : list Resource) (acts : list Action).

Lemma elem_of_grant_rows rid rs acts p :
  p ∈ (res ← rs; act ← acts; [mkPermission rid res act])
  ↔ perm_role p = rid ∧ resource p ∈ rs ∧ action p ∈ acts.
Proof.
  rewrite list_elem_of_bind. split.
  - intros (res & Hp & Hres). apply list_elem_of_bind in Hp as (act & Hp & Hact).
    apply list_elem_of_singleton in Hp as ->. done.
  - intros (Hrid & Hres & Hact). exists (resource p). split; [|done].
    apply list_elem_of_bind. exists (action p). split; [|done].
    apply list_elem_of_singleton. destruct p; simpl in *. by subst.
Qed.

Lemma NoDup_grant_rows rid rs acts :
  NoDup rs → NoDup acts →
  NoDup (res ← rs; act ← acts; [mkPermission rid res act]).
Proof.
  intros Hrs Hacts. apply NoDup_bind; [| |done].
  - intros r1 r2 p _ _ H1 H2.
    apply list_elem_of_bind in H1 as (a1 & H1 & _), H2 as (a2 & H2 & _).
    apply list_elem_of_singleton in H1, H2. subst p. by injection H2.
  - intros r _. apply NoDup_bind; [| |done].
    + intros a1 a2 p _ _ H1 H2.
      apply list_elem_of_singleton in H1, H2. subst p. by injection H2.
    + intros a _. apply NoDup_singleton.
Qed.

Lemma filter_role_grant_rows rid rid' rs acts :
  length (filter (λ p, bool_decide (perm_role p = rid') = true)
            (res ← rs; act ← acts; [mkPermission rid res act]))
  = if decide (rid = rid') then length rs * length acts else 0.
Proof.
  induction rs as [|r rs IH].
  - simpl. by destruct (decide _).
  - rewrite bind_cons, filter_app, length_app, IH.
    assert (length (filter (λ p, bool_decide (perm_role p = rid') = true)
                      (act ← acts; [mkPermission rid r act]))
            = if decide (rid = rid') then length acts else 0) as ->.
    { clear IH. induction acts as [|a acts IHa].
      - simpl. by destruct (decide _).
      - rewrite bind_cons, filter_app, length_app, IHa.
        rewrite filter_cons, filter_nil. simpl.
        destruct (decide (rid = rid')) as [->|Hne].
        + rewrite bool_decide_eq_true_2 by done.
          by rewrite decide_True by done.
        + rewrite bool_decide_eq_false_2 by done.
          by rewrite decide_False by done. }
    destruct (decide _); simpl; lia.
Qed.
End GrantRows.

(** *** The default roles of a new company *)

Lemma Role_create_ok r db :
  (∀ k r', roles db !! k = Some r' →
           ¬ (role_company r' = role_company r ∧ role_name r' = role_name r)) →
  Role_create r db
  = (set_roles (<[QuerySet.new_pk (roles db) := r]> (roles db)) db,
     Ok (QuerySet.new_pk (roles db))).
Proof.
  intros Hfree. unfold Role_create.
  assert (QuerySet.exists_
            (QuerySet.filter_by
               (λ r', bool_decide (role_company r' = role_company r)
                      && bool_decide (role_name r' = role_name r))
               (roles db)) = false) as ->; [|done].
  apply not_true_iff_false. rewrite exists_true. intros (k & r' & Hk).
  apply lookup_filter_by in Hk as [Hk Heq].
  apply andb_true_iff in Heq as [H1 H2]. apply bool_decide_eq_true in H1, H2.
  by apply (Hfree k r').
Qed.

Lemma Permission_bulk_create_ok rows db :
  NoDup rows →
  (∀ k p, permissions db !! k = Some p → p ∉ rows) →
  Permission_bulk_create rows db
  = (set_permissions (QuerySet.bulk_create rows (permissions db)) db, Ok ()).
Proof.
  intros Hnd Hnew. unfold Permission_bulk_create.
  rewrite bool_decide_eq_true_2 by done. simpl.
  assert (forallb
            (λ p, negb (QuerySet.exists_
                          (QuerySet.filter_by (λ p', bool_decide (p' = p))
                             (permissions db)))) rows = true) as ->; [|done].
  apply forallb_forall. intros p Hp. apply negb_true_iff.
  apply not_true_iff_false. rewrite exists_true. intros (k & p' & Hk).
  apply lookup_filter_by in Hk as [Hk Heq]. apply bool_decide_eq_true in Heq.
  subst p'. apply (Hnew k p Hk). by apply list_elem_of_In.
Qed.

Lemma CompanyMembership_create_ok m db :
  (∀ k m', memberships db !! k = Some m' →
           ¬ (m_user m' = m_user m ∧ m_company m' = m_company m)) →
  CompanyMembership_create m db
  = (set_memberships (<[QuerySet.new_pk (memberships db) := m]> (memberships db)) db,
     Ok (QuerySet.new_pk (memberships db))).
Proof.
  intros Hfree. unfold CompanyMembership_create.
  assert (QuerySet.exists_
            (QuerySet.filter_by
               (λ m', bool_decide (m_user m' = m_user m)
                      && bool_decide (m_company m' = m_company m))
               (memberships db)) = false) as ->; [|done].
  apply not_true_iff_false. rewrite exists_true. intros (k & m' & Hk).
  apply lookup_filter_by in Hk as [Hk Heq].
  apply andb_true_iff in Heq as [H1 H2]. apply bool_decide_eq_true in H1, H2.
  by apply (Hfree k m').
Qed.

Lemma all_resources res : res ∈ RESOURCE_CHOICES.
Proof. destruct res; unfold RESOURCE_CHOICES; set_solver. Qed.

Lemma all_actions act : act ∈ ACTION_CHOICES.
Proof. destruct act; unfold ACTION_CHOICES; set_solver. Qed.

(** Projections of a store after writes to other tables. *)
Ltac store_simpl :=
  cbn [users profiles companies roles permissions memberships requests
       super_owners set_users set_profiles set_companies set_roles
       set_permissions set_memberships set_requests set_super_owners] in *.

#[local] Opaque QuerySet.new_pk QuerySet.bulk_create.

Lemma bind_Ok {A B} (m : M A) (f : A → M B) db db1 a :
  m db = (db1, Ok a) → (m ≫= f) db = f a db1.
Proof. intros Hm. unfold mbind, M_bind. by rewrite Hm. Qed.

(** [_create_company_default_roles] on a company without roles, for a user
    who is not yet a member, in a store whose permission rows point to
    stored roles: the call succeeds and creates the three roles, the
    admin role with every pair (42 rows), the supervisor role with view
    and export on every resource (14 rows), the employee role with view,
    create and edit on projects, expenses and contractors (9 rows), and
    the active membership of the user with the admin role. *)
Lemma create_company_default_roles_spec now company admin_user db :
  (∀ k r, roles db !! k = Some r → role_company r ≠ company) →
  (∀ k p, permissions db !! k = Some p → is_Some (roles db !! perm_role p)) →
  (∀ k m, memberships db !! k = Some m →
          ¬ (m_user m = admin_user ∧ m_company m = company)) →
  ∃ db' ka ks ke km,
    _create_company_default_roles now company admin_user db = (db', Ok ())
    ∧ roles db'
      = <[ke := mkRole company "Employee" "Basic employee access"
                  false false false]>
          (<[ks := mkRole company "Supervisor"
                     "High-level oversight and reporting access"
                     false true false]>
             (<[ka := mkRole company "Company Admin"
                        "Full company administration access"
                        true false false]> (roles db)))
    ∧ roles db !! ka = None ∧ roles db !! ks = None ∧ roles db !! ke = None
    ∧ ka ≠ ks ∧ ka ≠ ke ∧ ks ≠ ke
    ∧ (∀ res act, role_owns db' ka res act)
    ∧ size (role_permissions db' ka) = 42
    ∧ (∀ res act, role_owns db' ks res act ↔ act ∈ [view; export])
    ∧ size (role_permissions db' ks) = 14
    ∧ (∀ res act, role_owns db' ke res act
                  ↔ res ∈ [projects; expenses; contractors]
                    ∧ act ∈ [view; create; edit])
    ∧ size (role_permissions db' ke) = 9
    ∧ memberships db'
      = <[km := mkMembership admin_user company (Some ka) active (Some now)]>
          (memberships db)
    ∧ memberships db !! km = None.
Proof.
  intros Hroles Hfk Hmem.
  set (admin := mkRole company "Company Admin"
                  "Full company administration access" true false false).
  set (supervisor := mkRole company "Supervisor"
                       "High-level oversight and reporting access"
                       false true false).
  set (employee := mkRole company "Employee" "Basic employee access"
                     false false false).
  set (ka := QuerySet.new_pk (roles db)).
  set (R1 := <[ka := admin]> (roles db)).
  set (ks := QuerySet.new_pk R1).
  set (R2 := <[ks := supervisor]> R1).
  set (ke := QuerySet.new_pk R2).
  set (R3 := <[ke := employee]> R2).
  assert (roles db !! ka = None) as Hka by apply new_pk_fresh.
  assert (R1 !! ks = None) as Hks by apply new_pk_fresh.
  assert (R2 !! ke = None) as Hke by apply new_pk_fresh.
  apply lookup_insert_None in Hks as [Hks Hkas].
  apply lookup_insert_None in Hke as [Hke Hkse].
  apply lookup_insert_None in Hke as [Hke Hkae].
  set (rows_a := res ← RESOURCE_CHOICES; act ← ACTION_CHOICES;
                 [mkPermission ka res act]).
  set (rows_s := res ← RESOURCE_CHOICES; act ← [view; export];
                 [mkPermission ks res act]).
  set (rows_e := res ← [projects; expenses; contractors];
                 act ← [view; create; edit]; [mkPermission ke res act]).
  set (P1 := QuerySet.bulk_create rows_a (permissions db)).
  set (P2 := QuerySet.bulk_create rows_s P1).
  set (P3 := QuerySet.bulk_create rows_e P2).
  set (km := QuerySet.new_pk (memberships db)).
  set (membership := mkMembership admin_user company (Some ka) active (Some now)).
  set (db3 := set_roles R3 (set_roles R2 (set_roles R1 db))).
  set (db6 := set_permissions P3 (set_permissions P2 (set_permissions P1 db3))).
  exists (set_memberships (<[km := membership]> (memberships db)) db6),
    ka, ks, ke, km.
  (* the rows that exist before each bulk insertion *)
  assert (∀ k p, permissions db !! k = Some p →
                 perm_role p ≠ ka ∧ perm_role p ≠ ks ∧ perm_role p ≠ ke) as Hold.
  { intros k p Hp. destruct (Hfk k p Hp) as [r Hr].
    repeat split; intros Heq; rewrite Heq in Hr; congruence. }
  assert (∀ k p, P1 !! k = Some p →
                 (permissions db !! k = Some p ∨ p ∈ rows_a)) as HP1
    by (intros k p; apply bulk_create_inv).
  assert (∀ k p, P2 !! k = Some p →
                 (permissions db !! k = Some p ∨ p ∈ rows_a) ∨ p ∈ rows_s) as HP2.
  { intros k p Hp. apply bulk_create_inv in Hp as [Hp|Hp]; [left|by right].
    apply bulk_create_inv in Hp. done. }
  split.
  { unfold _create_company_default_roles.
    erewrite bind_Ok.
    2:{ apply Role_create_ok. intros k r Hk [Hc _]. by apply (Hroles k r). }
    erewrite bind_Ok.
    2:{ apply Role_create_ok. store_simpl. fold ka admin R1.
        intros k r Hk [Hc Hn].
        apply lookup_insert_Some in Hk as [[_ <-]|[_ Hk]]; [done|].
        by apply (Hroles k r). }
    store_simpl. fold ka admin R1 ks supervisor R2.
    erewrite bind_Ok.
    2:{ apply Role_create_ok. store_simpl. intros k r Hk [Hc Hn].
        apply lookup_insert_Some in Hk as [[_ <-]|[_ Hk]]; [done|].
        apply lookup_insert_Some in Hk as [[_ <-]|[_ Hk]]; [done|].
        by apply (Hroles k r). }
    store_simpl. fold ke employee R3 db3.
    erewrite bind_Ok.
    2:{ apply Permission_bulk_create_ok.
        - apply NoDup_grant_rows; apply (bool_decide_unpack _); by vm_compute.
        - store_simpl. intros k p Hp Hin. apply elem_of_grant_rows in Hin as [Hr _].
          by destruct (Hold k p Hp) as (? & _). }
    store_simpl. fold rows_a P1.
    erewrite bind_Ok.
    2:{ unfold _add_basic_permissions. erewrite bind_Ok.
        2:{ apply Permission_bulk_create_ok.
            - apply NoDup_grant_rows; apply (bool_decide_unpack _); by vm_compute.
            - store_simpl. intros k p Hp Hin.
              apply elem_of_grant_rows in Hin as [Hr _].
              apply HP1 in Hp as [Hp|Hp].
              + by destruct (Hold k p Hp) as (_ & ? & _).
              + apply elem_of_grant_rows in Hp as [Hr' _]. congruence. }
        store_simpl. fold rows_s P2.
        apply Permission_bulk_create_ok.
        - apply NoDup_grant_rows; apply (bool_decide_unpack _); by vm_compute.
        - store_simpl. intros k p Hp Hin.
          apply elem_of_grant_rows in Hin as [Hr _].
          apply HP2 in Hp as [[Hp|Hp]|Hp].
          + by destruct (Hold k p Hp) as (_ & _ & ?).
          + apply elem_of_grant_rows in Hp as [Hr' _]. congruence.
          + apply elem_of_grant_rows in Hp as [Hr' _]. congruence. }
    store_simpl. fold rows_e P3.
    erewrite bind_Ok.
    2:{ apply CompanyMembership_create_ok. store_simpl. intros k m Hk.
        by apply (Hmem k m). }
    reflexivity. }
  store_simpl.
  assert (∀ rid, (rid = ka ∨ rid = ks ∨ rid = ke) →
                 size (QuerySet.filter_by (λ p, bool_decide (perm_role p = rid))
                         (permissions db)) = 0) as Hnone.
  { intros rid Hrid. apply map_size_empty_iff, map_empty. intros k.
    apply eq_None_not_Some. intros [p Hp].
    apply lookup_filter_by in Hp as [Hp Hr]. apply bool_decide_eq_true in Hr.
    destruct (Hold k p Hp) as (? & ? & ?).
    by destruct Hrid as [-> | [-> | ->]]. }
  assert (∀ rid, size (QuerySet.filter_by (λ p, bool_decide (perm_role p = rid)) P3)
                 = size (QuerySet.filter_by
                           (λ p, bool_decide (perm_role p = rid)) (permissions db))
                   + (if decide (ka = rid) then 42 else 0)
                   + (if decide (ks = rid) then 14 else 0)
                   + (if decide (ke = rid) then 9 else 0)) as Hsize.
  { intros rid. unfold P3, P2, P1, rows_a, rows_s, rows_e.
    rewrite !size_filter_by_bulk_create, !filter_role_grant_rows.
    unfold RESOURCE_CHOICES, ACTION_CHOICES. cbn [length Nat.mul Nat.add].
    lia. }
  split_and!; try done.
  - intros res act.
    destruct (bulk_create_new rows_a (permissions db) (mkPermission ka res act))
      as (k & _ & Hk).
    { apply elem_of_grant_rows. split_and!;
        [done|apply all_resources|apply all_actions]. }
    exists k, (mkPermission ka res act). split; [|done].
    by do 2 apply bulk_create_old.
  - unfold role_permissions. store_simpl.
    rewrite Hsize, Hnone by auto. repeat case_decide; try done; lia.
  - intros res act. split.
    + intros (k & p & Hp & Hr & <- & <-). store_simpl.
      apply bulk_create_inv in Hp as [Hp|Hp].
      * apply HP2 in Hp as [[Hp|Hp]|Hp].
        -- by destruct (Hold k p Hp) as (_ & ? & _).
        -- apply elem_of_grant_rows in Hp as [Hr' _]. congruence.
        -- by apply elem_of_grant_rows in Hp as (_ & _ & ?).
      * apply elem_of_grant_rows in Hp as [Hr' _]. congruence.
    + intros Hact.
      destruct (bulk_create_new rows_s P1 (mkPermission ks res act))
        as (k & _ & Hk).
      { apply elem_of_grant_rows. split_and!; [done|apply all_resources|done]. }
      exists k, (mkPermission ks res act). split; [|done].
      by apply bulk_create_old.
  - unfold role_permissions. store_simpl.
    rewrite Hsize, Hnone by auto. repeat case_decide; try done; lia.
  - intros res act. split.
    + intros (k & p & Hp & Hr & <- & <-). store_simpl.
      apply bulk_create_inv in Hp as [Hp|Hp].
      * apply HP2 in Hp as [[Hp|Hp]|Hp].
        -- by destruct (Hold k p Hp) as (_ & _ & ?).
        -- apply elem_of_grant_rows in Hp as [Hr' _]. congruence.
        -- apply elem_of_grant_rows in Hp as [Hr' _]. congruence.
      * by apply elem_of_grant_rows in Hp as (_ & ? & ?).
    + intros [Hres Hact].
      destruct (bulk_create_new rows_e P2 (mkPermission ke res act))
        as (k & _ & Hk).
      { by apply elem_of_grant_rows. }
      by exists k, (mkPermission ke res act).
  - unfold role_permissions. store_simpl.
    rewrite Hsize, Hnone by auto. repeat case_decide; try done; lia.
  - apply new_pk_fresh.
Qed.

#[local] Transparent QuerySet.new_pk QuerySet.bulk_create.

(** ** Role deletion *)

Lemma get_Ok {A} (q : gmap nat A) k a :
  QuerySet.get q = Ok (k, a) → q !! k = Some a.
Proof.
  unfold QuerySet.get. intros Hget.
  apply elem_of_map_to_list.
  destruct (map_to_list q) as [|kr [|kr' l]]; simplify_eq. left.
Qed.

Lemma role_of_company_Ok db company role_id k role :
  role_of_company db company role_id = Ok (k, role) →
  k = role_id ∧ roles db !! role_id = Some role ∧ role_company role = company.
Proof.
  intros Hget. apply get_Ok in Hget.
  apply lookup_filter_by in Hget as [Hget Hc].
  apply lookup_filter_pk in Hget as [Hget ->].
  by apply bool_decide_eq_true in Hc.
Qed.



(** Either [role_delete] leaves the store as it is, or every guard was
    passed and the role is deleted. *)
Lemma role_delete_cases request_user company role_id is_post db :
  (role_delete request_user (Some company) role_id is_post db).1 = db
  ∨ ∃ role,
      roles db !! role_id = Some role
      ∧ role_company role = company
      ∧ QuerySet.count (active_members_with_role db company role_id) = 0
      ∧ (is_admin role = true → (2 ≤ QuerySet.count (admin_roles db company))%nat)
      ∧ role_delete request_user (Some company) role_id is_post db
        = (Role_delete role_id db,
           Redirect "core:user_management" [msg_role_deleted (role_name role)]).
Proof.
  unfold role_delete.
  destruct (membership_of db request_user company) as [[kq mem]|e];
    [|by left].
  destruct (is_company_admin db mem); simpl; [|by left].
  destruct (role_of_company db company role_id) as [[k role]|e] eqn:Hrole;
    [|by left].
  apply role_of_company_Ok in Hrole as (-> & Hrole & Hc).
  destruct (Nat.ltb_spec 0
              (QuerySet.count (active_members_with_role db company role_id)))
    as [|Hzero]; [by left|].
  destruct (is_admin role) eqn:Hadm; simpl.
  - destruct (Nat.leb_spec (QuerySet.count (admin_roles db company)) 1)
      as [|Hmany]; [by left|].
    destruct is_post; [|by left].
    right. exists role. split_and!; [done|done|lia|lia|done].
  - destruct is_post; [|by left].
    right. exists role. split_and!; [done|done|lia|congruence|done].
Qed.



(** The employee role is deleted once its holder has been moved to
    another role; its permission row goes with it. *)
Example role_delete_after_reassignment :
  let db :=
    set_memberships
      {[ 1 := mkMembership 7 1 (Some 1) active None;
         2 := mkMembership 8 1 (Some 1) active None ]}
      staffed_company in
  let '(db', response) := role_delete 7 (Some 1) 2 true db in
  response = Redirect "core:user_management" [msg_role_deleted "Employee"]
  ∧ roles db' !! 2 = None
  ∧ size (permissions db') = 0
  ∧ memberships db' = memberships db.
Proof. vm_compute. repeat split; reflexivity. Qed.

(** The only admin role cannot be deleted, even when no active member
    holds it: here the administrator's own membership is suspended. *)
Example role_delete_last_admin_role :
  let db :=
    set_memberships {[ 1 := mkMembership 7 1 (Some 1) suspended None ]}
      staffed_company in
  role_delete 7 (Some 1) 1 true db
  = (db, Redirect "core:user_management" [msg_last_admin_role]).
Proof. vm_compute. reflexivity. Qed.

(** ** Review traces *)

Lemma review_step_lookup c k db r :
  requests db !! k = Some r →
  requests (review_step c k db) !! k = Some (run_call c db k r).1.2.
Proof.
  intros Hk. unfold review_step. rewrite Hk.
  destruct c; simpl; unfold approve, reject, mark_under_review,
    require_documents; repeat case_match; simpl;
    by (done || apply lookup_insert_eq).
Qed.

Lemma run_call_may_follow c db k r :
  may_follow (status r) (status (run_call c db k r).1.2) = true.
Proof.
  destruct c; simpl; unfold approve, reject, mark_under_review,
    require_documents; repeat case_bool_decide; repeat case_match; simpl;
    try (by destruct (status r)).
  all: destruct (status r) eqn:Hst; try done; exfalso;
    match goal with
    | H : _ ∈ _ |- _ =>
        revert H; apply (bool_decide_unpack _); by vm_compute
    end.
Qed.

Lemma may_follow_trans s1 s2 s3 :
  may_follow s1 s2 = true → may_follow s2 s3 = true → may_follow s1 s3 = true.
Proof. by destruct s1, s2, s3. Qed.

Lemma may_follow_refl s : may_follow s s = true.
Proof. by destruct s. Qed.

Lemma review_steps_lookup cs k db r :
  requests db !! k = Some r →
  ∃ r', requests (review_steps cs k db) !! k = Some r'
        ∧ may_follow (status r) (status r') = true.
Proof.
  revert db r. induction cs as [|c cs IH]; intros db r Hk.
  - exists r. split; [done|apply may_follow_refl].
  - destruct (IH (review_step c k db) _ (review_step_lookup c k db r Hk))
      as (r' & Hr' & Hfollow).
    exists r'. split; [done|].
    eapply may_follow_trans; [apply (run_call_may_follow c db k r)|done].
Qed.

Lemma review_step_status c k db r :
  requests db !! k = Some r →
  status <$> requests (review_step c k db) !! k
  = Some (status (run_call c db k r).1.2).
Proof. intros Hk. by rewrite (review_step_lookup c k db r Hk). Qed.

(** X1.  The statuses that review requests can give a stored request are
    exactly those of the table [may_follow]: a pending request can reach
    every status; a request under review can only stay, require documents
    or be rejected; a request that requires documents can only stay or be
    rejected; approved, rejected and expired requests keep their status. *)
Theorem reachable_statuses db k r s' :
  requests db !! k = Some r →
  (∃ cs, status <$> requests (review_steps cs k db) !! k = Some s')
  ↔ may_follow (status r) s' = true.
Proof.
  intros Hk. split.
  - intros (cs & Hcs).
    destruct (review_steps_lookup cs k db r Hk) as (r' & Hr' & Hfollow).
    rewrite Hr' in Hcs. by injection Hcs as <-.
  - intros Hfollow.
    destruct (decide (s' = status r)) as [->|Hne].
    { exists []. simpl. by rewrite Hk. }
    assert (∀ c, status (run_call c db k r).1.2 = s' →
                 ∃ cs, status <$> requests (review_steps cs k db) !! k = Some s')
      as Hone.
    { intros c Hc. exists [c]. simpl.
      by rewrite (review_step_status c k db r Hk), Hc. }
    destruct (status r) eqn:Hst, s'; try done.
    + apply (Hone (call_require_documents 0 "")). simpl.
      unfold require_documents. by rewrite Hst.
    + apply (Hone (call_mark_under_review 0)). simpl.
      unfold mark_under_review. by rewrite Hst.
    + apply (Hone (call_approve (λ _, expires_at r) 0)). simpl.
      unfold approve, is_expired. rewrite Hst. simpl.
      by rewrite bool_decide_eq_false_2 by lia.
    + apply (Hone (call_reject (λ _, 0%Z) 0 "")). simpl.
      unfold reject. by rewrite Hst.
    + apply (Hone (call_approve (λ _, (expires_at r + 1)%Z) 0)). simpl.
      unfold approve, is_expired. rewrite Hst. simpl.
      by rewrite bool_decide_eq_true_2 by lia.
    + apply (Hone (call_reject (λ _, 0%Z) 0 "")). simpl.
      unfold reject. by rewrite Hst.
    + apply (Hone (call_require_documents 0 "")). simpl.
      unfold require_documents. by rewrite Hst.
    + apply (Hone (call_reject (λ _, 0%Z) 0 "")). simpl.
      unfold reject. by rewrite Hst.
Qed.

Lemma reachable_statuses_witness :
  requests (review_store (set_status under_review company_request)) !! 1
  = Some (set_status under_review company_request)
  ∧ ¬ ∃ cs, status
            <$> requests
                  (review_steps cs 1
                     (review_store (set_status under_review company_request)))
                !! 1
            = Some approved.
Proof.
  split; [reflexivity|].
  intros Hreach.
  apply (reachable_statuses
           (review_store (set_status under_review company_request)) 1
           (set_status under_review company_request) approved eq_refl)
    in Hreach.
  discriminate Hreach.
Defined.

(** X2.  Approved, rejected and expired are final: whatever review requests
    follow, the store stays exactly as it is. *)
Theorem final_statuses_absorb cs db k r :
  requests db !! k = Some r →
  status r ∈ [approved; rejected; expired] →
  review_steps cs k db = db.
Proof.
  intros Hk Hfinal. induction cs as [|c cs IH] using rev_ind; [done|].
  unfold review_steps in *. rewrite foldl_app, IH. simpl.
  unfold review_step. rewrite Hk.
  assert (status r ≠ pending ∧ status r ≠ under_review
          ∧ status r ≠ documents_required) as (H1 & H2 & H3).
  { repeat split; intros Heq; rewrite Heq in Hfinal; revert Hfinal;
      apply (bool_decide_unpack _); by vm_compute. }
  destruct c; simpl; unfold approve, reject, mark_under_review,
    require_documents.
  - by rewrite bool_decide_eq_true_2.
  - rewrite bool_decide_eq_true_2; [done|].
    intros Hin. repeat (apply elem_of_cons in Hin as [Hin|Hin]; [done|]).
    by apply elem_of_nil in Hin.
  - by rewrite bool_decide_eq_true_2.
  - rewrite bool_decide_eq_true_2; [done|].
    intros Hin. repeat (apply elem_of_cons in Hin as [Hin|Hin]; [done|]).
    by apply elem_of_nil in Hin.
Qed.

Lemma final_statuses_absorb_witness :
  let db := review_store (set_status rejected company_request) in
  review_steps
    [call_approve (clock_at 86400) 1; call_mark_under_review 1;
     call_require_documents 1 "licence"; call_reject (clock_at 86400) 1 "again"]
    1 db
  = db.
Proof.
  apply (final_statuses_absorb _
           (review_store (set_status rejected company_request)) 1
           (set_status rejected company_request)); [reflexivity|].
  apply (bool_decide_unpack _). vm_compute. reflexivity.
Defined.

(** ** Super owners: the primary flag over all saves *)

Lemma count_le_1 {A} (q : gmap nat A) :
  (QuerySet.count q ≤ 1)%nat
  ↔ ∀ k1 k2 a1 a2, q !! k1 = Some a1 → q !! k2 = Some a2 → k1 = k2.
Proof.
  unfold QuerySet.count. rewrite <- length_map_to_list.
  pose proof (NoDup_map_to_list q) as Hnd.
  split.
  - intros Hlen k1 k2 a1 a2 H1 H2. apply elem_of_map_to_list in H1, H2.
    destruct (map_to_list q) as [|x [|y l]]; simpl in Hlen; [| |lia].
    + by apply elem_of_nil in H1.
    + apply list_elem_of_singleton in H1, H2. congruence.
  - intros Huniq.
    destruct (map_to_list q) as [|[k1 a1] [|[k2 a2] l]] eqn:E; simpl;
      [lia|lia|exfalso].
    assert (q !! k1 = Some a1) as H1
      by (apply elem_of_map_to_list; rewrite E; left).
    assert (q !! k2 = Some a2) as H2
      by (apply elem_of_map_to_list; rewrite E; right; left).
    pose proof (Huniq _ _ _ _ H1 H2) as ->.
    assert (a1 = a2) as -> by congruence.
    apply NoDup_cons in Hnd as [Hnotin _]. apply Hnotin. left.
Qed.

Lemma at_most_one_primary_keys db :
  at_most_one_primary db
  ↔ ∀ k1 k2 s1 s2,
      super_owners db !! k1 = Some s1 → super_owners db !! k2 = Some s2 →
      is_primary_owner s1 = true → is_primary_owner s2 = true → k1 = k2.
Proof.
  unfold at_most_one_primary. rewrite count_le_1. split.
  - intros H k1 k2 s1 s2 H1 H2 Hp1 Hp2.
    apply (H k1 k2 s1 s2); by apply lookup_filter_by.
  - intros H k1 k2 s1 s2 H1 H2.
    apply lookup_filter_by in H1 as [H1 Hp1], H2 as [H2 Hp2]. eauto.
Qed.

(** X3.  Every save of a super owner, primary or not, successful or not,
    keeps the table with at most one primary owner. *)
Theorem save_keeps_at_most_one_primary db self_pk self :
  at_most_one_primary db →
  at_most_one_primary (SuperOwner_save db self_pk self).1.1.
Proof.
  rewrite !at_most_one_primary_keys. intros Hinv.
  unfold SuperOwner_save.
  destruct (is_primary_owner self) eqn:Hprim.
  - set (tbl1 := QuerySet.update _ _ _).
    set (k := match self_pk with Some k => k | None => QuerySet.new_pk tbl1 end).
    assert (∀ k' s', tbl1 !! k' = Some s' → is_primary_owner s' = true →
                     k' = k) as Hcleared.
    { intros k' s' Hk' Hp'. apply cleared_rows in Hk' as [_ Hpk].
      subst k. by rewrite (Hpk Hp'). }
    destruct (QuerySet.exists_ _); simpl; intros k1 k2 s1 s2 H1 H2 Hp1 Hp2.
    + by rewrite (Hcleared k1 s1), (Hcleared k2 s2).
    + transitivity k.
      * destruct (decide (k1 = k)) as [|Hne]; [done|].
        rewrite lookup_insert_ne in H1 by done. eauto.
      * destruct (decide (k2 = k)) as [|Hne]; [done|].
        rewrite lookup_insert_ne in H2 by done. symmetry. eauto.
  - set (k := match self_pk with
              | Some k => k
              | None => QuerySet.new_pk (super_owners db)
              end).
    destruct (QuerySet.exists_ _); simpl; [done|].
    intros k1 k2 s1 s2 H1 H2 Hp1 Hp2.
    apply lookup_insert_Some in H1 as [[_ <-]|[_ H1]]; [congruence|].
    apply lookup_insert_Some in H2 as [[_ <-]|[_ H2]]; [congruence|].
    eauto.
Qed.

Lemma save_keeps_at_most_one_primary_witness :
  at_most_one_primary store_with_owner_A
  ∧ at_most_one_primary (SuperOwner_save store_with_owner_A None owner_B).1.1.
Proof.
  assert (at_most_one_primary store_with_owner_A) as Hinv
    by (unfold at_most_one_primary; vm_compute; lia).
  split; [exact Hinv|].
  apply (save_keeps_at_most_one_primary store_with_owner_A None owner_B Hinv).
Defined.

(** X4.  The save of a primary owner grants the seven flags but leaves the
    company restriction in place: when the owner is restricted to a set of
    stored companies, a company outside the set stays out of reach. *)
Theorem primary_owner_stays_scoped db self_pk self db' self' k0 c0 c k :
  SuperOwner_save db self_pk self = (db', self', Ok k0) →
  is_primary_owner self = true →
  companies db !! c0 = Some c →
  c0 ∈ allowed_companies self →
  k ∉ allowed_companies self →
  super_owners db' !! k0 = Some self'
  ∧ can_manage_companies self' = true
  ∧ can_manage_company db' self' k = false.
Proof.
  intros Hsave Hprim Hc0 Hin Hout. unfold SuperOwner_save in Hsave.
  rewrite Hprim in Hsave.
  destruct (QuerySet.exists_ _) in Hsave; [done|].
  injection Hsave as <- <- <-. simpl.
  split; [apply lookup_insert_eq|]. split; [done|].
  unfold can_manage_company. simpl.
  assert (QuerySet.exists_
            (allowed_companies_all
               (set_super_owners
                  (<[match self_pk with
                     | Some k1 => k1
                     | None => _
                     end := grant_all self]> _) db)
               (grant_all self)) = true) as ->.
  { apply exists_true. exists c0, c. by apply lookup_allowed_companies_all. }
  apply not_true_iff_false. rewrite exists_true. intros (k' & c' & Hk').
  apply lookup_filter_pk in Hk' as [Hk' ->].
  by apply lookup_allowed_companies_all in Hk' as [_ Hk'].
Qed.

Lemma primary_owner_stays_scoped_witness :
  let '(db', self', r) := SuperOwner_save two_companies None scoped_primary_owner in
  r = Ok 0
  ∧ can_manage_companies self' = true
  ∧ can_manage_company db' self' 2 = false.
Proof.
  destruct (primary_owner_stays_scoped two_companies None scoped_primary_owner
              (SuperOwner_save two_companies None scoped_primary_owner).1.1
              (SuperOwner_save two_companies None scoped_primary_owner).1.2
              0 1
              (mkCompany "Acme" "acme" "" "office@acme.example" "" "" "" true)
              2)
    as (_ & Hflag & Hscope); [reflexivity|reflexivity|reflexivity| | |].
  - apply (bool_decide_unpack _). by vm_compute.
  - apply (bool_decide_unpack _). by vm_compute.
  - split; [reflexivity|]. split; [exact Hflag|exact Hscope].
Defined.

(** ** The set of permission strings *)

Lemma permission_string_inj res act res' act' :
  permission_string res act = permission_string res' act' →
  res = res' ∧ act = act'.
Proof.
  destruct res, res'; destruct act, act'; intros H;
    first [by split | discriminate H].
Qed.

(** X5.  Under the unique-together constraint, [get_user_permissions]
    returns a set, never an exception, and the string of a pair is in the
    set exactly when [user_has_permission] grants the pair. *)
Theorem get_user_permissions_agrees db user company :
  unique_together_user_company db →
  ∃ perms, get_user_permissions db user company = Ok perms
           ∧ ∀ res act,
               permission_string res act ∈ perms
               ↔ user_has_permission db user company res act = Ok true.
Proof.
  intros Huniq. unfold get_user_permissions, user_has_permission.
  destruct (get_at_most_one (active_memberships db user company)
              (active_memberships_at_most_one db user company Huniq))
    as [[_ ->]|(k & m & _ & ->)].
  - exists ∅. split; [done|]. intros res act. split; [|done].
    intros Hin. by apply not_elem_of_empty in Hin.
  - unfold has_permission. destruct (m_role m) as [rid|].
    + eexists. split; [reflexivity|]. intros res act.
      rewrite elem_of_list_to_set, list_elem_of_fmap. split.
      * intros ([kp p] & Hstr & Hin). simpl in Hstr.
        apply permission_string_inj in Hstr as [-> ->].
        apply elem_of_map_to_list in Hin. f_equal.
        apply exists_true. exists kp, p. apply lookup_filter_by.
        split; [done|]. apply andb_true_iff.
        split; by apply bool_decide_eq_true.
      * intros [= Hex]. apply exists_true in Hex as (kp & p & Hp).
        apply lookup_filter_by in Hp as [Hp Hra].
        apply andb_true_iff in Hra as [Hr Ha].
        apply bool_decide_eq_true in Hr, Ha. subst res act.
        exists (kp, p). split; [done|]. by apply elem_of_map_to_list.
    + exists ∅. split; [done|]. intros res act. split; [|done].
      intros Hin. by apply not_elem_of_empty in Hin.
Qed.

Lemma get_user_permissions_agrees_witness :
  unique_together_user_company scenario_A
  ∧ ∃ perms, get_user_permissions scenario_A 7 1 = Ok perms
             ∧ ∀ res act,
                 permission_string res act ∈ perms
                 ↔ user_has_permission scenario_A 7 1 res act = Ok true.
Proof.
  assert (unique_together_user_company scenario_A) as Huniq
    by (apply (bool_decide_unpack _); vm_compute; reflexivity).
  split; [exact Huniq|].
  apply (get_user_permissions_agrees scenario_A 7 1 Huniq).
Defined.

(** Scenario A: the set holds the one string of the admin role. *)
Example scenario_A_permission_strings :
  get_user_permissions scenario_A 7 1 = Ok {[ "projects.create" ]}.
Proof. vm_compute. reflexivity. Qed.

(** ** Middleware *)

Lemma startswith_both s a b :
  startswith s a = true → startswith s b = true →
  startswith b a = true ∨ startswith a b = true.
Proof.
  unfold startswith. revert a b.
  induction s as [|c s IH]; intros [|ca a] [|cb b]; simpl; auto; try done.
  destruct (ascii_dec ca c) as [->|]; [|done].
  destruct (ascii_dec cb c) as [->|]; [|done].
  destruct (ascii_dec c c); [|done]. apply IH.
Qed.

Lemma check_permission_map_None db membership p items :
  check_permission_map db membership p items = None
  ↔ ∀ url res act,
      (url, (res, act)) ∈ items → startswith p url = true →
      has_permission db membership res act = true.
Proof.
  induction items as [|[url0 [res0 act0]] items IH]; simpl.
  - split; [|done]. intros _ url res act Hin. by apply elem_of_nil in Hin.
  - destruct (startswith p url0) eqn:Hp.
    + destruct (has_permission db membership res0 act0) eqn:Hperm; simpl.
      * rewrite IH. split.
        -- intros H url res act Hin Hurl.
           apply elem_of_cons in Hin as [[= -> -> ->]|Hin]; eauto.
        -- intros H url res act Hin. apply H. by right.
      * split; [done|]. intros H.
        rewrite (H url0 res0 act0) in Hperm; [done|left|done].
    + rewrite IH. split.
      * intros H url res act Hin Hurl.
        apply elem_of_cons in Hin as [[= -> -> ->]|Hin]; [congruence|eauto].
      * intros H url res act Hin. apply H. by right.
Qed.

Lemma existsb_startswith p patterns :
  existsb (startswith p) patterns = true
  ↔ ∃ pattern, pattern ∈ patterns ∧ startswith p pattern = true.
Proof.
  rewrite existsb_exists. split; intros (x & Hin & Hx); exists x;
    (split; [by apply list_elem_of_In|done]).
Qed.

(** X6.  For an authenticated request that carries a membership, the
    permission middleware lets the view run exactly when the membership
    holds the permission of every entry of the map whose pattern starts the
    path, its role is an admin role if the path is under an admin-only
    pattern, and its role is a supervisor or admin role if the path is
    under a supervisor pattern.  A path under [/reports/export/] is thus
    asked for (reports, view) as well as (reports, export), and an admin
    role passes the map only through its permission rows. *)
Theorem process_view_passes_iff db request u membership :
  user request = Some u →
  company_membership request = Some membership →
  process_view db request = None
  ↔ (∀ url res act,
       (url, (res, act)) ∈ PERMISSION_MAP →
       startswith (path request) url = true →
       has_permission db membership res act = true)
    ∧ (∀ pattern,
         pattern ∈ admin_only_patterns →
         startswith (path request) pattern = true →
         is_company_admin db membership = true)
    ∧ (∀ pattern,
         pattern ∈ supervisor_patterns →
         startswith (path request) pattern = true →
         is_company_supervisor db membership = true
         ∨ is_company_admin db membership = true).
Proof.
  intros Hu Hm. unfold process_view. rewrite Hu, Hm.
  rewrite <- check_permission_map_None.
  destruct (check_permission_map db membership (path request) PERMISSION_MAP)
    as [response|]; [by split; [|intros [? _]]|].
  assert (∀ patterns (Q : Prop),
            (∀ pattern, pattern ∈ patterns →
                        startswith (path request) pattern = true → Q)
            ↔ (existsb (startswith (path request)) patterns = true → Q))
    as Hany.
  { intros patterns Q. rewrite existsb_startswith. split.
    - intros H (pattern & Hin & Hp). eauto.
    - intros H pattern Hin Hp. apply H. eauto. }
  rewrite !Hany.
  destruct (existsb (startswith (path request)) admin_only_patterns);
    destruct (existsb (startswith (path request)) supervisor_patterns);
    destruct (is_company_admin db membership);
    destruct (is_company_supervisor db membership); simpl;
    intuition congruence.
Qed.

Lemma process_view_passes_iff_witness :
  let membership := mkMembership 7 1 (Some 1) active None in
  let request :=
    mkHttpRequest (Some 7) "/projects/create/" (Some (Some 1))
      (Some membership) in
  process_view scenario_A request = None
  ∧ has_permission scenario_A membership projects create = true.
Proof.
  assert (process_view scenario_A
            (mkHttpRequest (Some 7) "/projects/create/" (Some (Some 1))
               (Some (mkMembership 7 1 (Some 1) active None))) = None) as Hpass
    by (vm_compute; reflexivity).
  split; [exact Hpass|].
  apply (process_view_passes_iff scenario_A
           (mkHttpRequest (Some 7) "/projects/create/" (Some (Some 1))
              (Some (mkMembership 7 1 (Some 1) active None)))
           7 (mkMembership 7 1 (Some 1) active None) eq_refl eq_refl) in Hpass
    as (Hmap & _ & _).
  apply (Hmap "/projects/create/" projects create).
  - apply (bool_decide_unpack _). vm_compute. reflexivity.
  - vm_compute. reflexivity.
Defined.

(** No exempt URL and no page that needs no company shares a path with an
    entry of the permission map. *)
Lemma permission_map_not_exempt p url perm :
  (url, perm) ∈ PERMISSION_MAP → startswith p url = true →
  existsb (startswith p) exempt_urls = false
  ∧ bool_decide (p ∈ ["/dashboard/"; "/"]) = false.
Proof.
  intros Hin Hp. split.
  - apply not_true_iff_false. rewrite existsb_startswith.
    intros (e & He & Hpe).
    assert (forallb (λ e, forallb (λ up, negb (startswith e up.1)
                                         && negb (startswith up.1 e))
                            PERMISSION_MAP) exempt_urls = true) as Hdisj
      by (vm_compute; reflexivity).
    rewrite forallb_forall in Hdisj.
    apply list_elem_of_In, Hdisj in He. rewrite forallb_forall in He.
    apply list_elem_of_In, He in Hin. cbn [fst] in Hin.
    apply andb_true_iff in Hin as [H1 H2].
    apply negb_true_iff in H1, H2.
    destruct (startswith_both p url e Hp Hpe); congruence.
  - apply bool_decide_eq_false. intros Hd.
    assert (forallb (λ up : string * (Resource * Action),
                       negb (startswith "/dashboard/" up.1)
                       && negb (startswith "/" up.1))
              PERMISSION_MAP = true) as Hdisj by (vm_compute; reflexivity).
    rewrite forallb_forall in Hdisj.
    apply list_elem_of_In, Hdisj in Hin. cbn [fst] in Hin.
    apply andb_true_iff in Hin as [H1 H2]. apply negb_true_iff in H1, H2.
    apply elem_of_cons in Hd as [->|Hd]; [congruence|].
    apply list_elem_of_singleton in Hd as ->. congruence.
Qed.

(** X7.  On a path under a pattern of the permission map, a user passes
    the two middlewares only as a super owner or with the mapped permission
    in the current company, as [user_has_permission] tells it; and a super
    owner passes on every path, whatever the memberships are. *)
Theorem middleware_enforces_permission first db u p url res act :
  (url, (res, act)) ∈ PERMISSION_MAP →
  startswith p url = true →
  (passes_middleware first db (incoming (Some u) p) →
   is_super_owner db u = true
   ∨ ∃ c, get_current_company first db u = Ok (Some c)
          ∧ user_has_permission db u c res act = Ok true)
  ∧ (is_super_owner db u = true →
     passes_middleware first db (incoming (Some u) p)).
Proof.
  intros Hin Hp.
  destruct (permission_map_not_exempt p url _ Hin Hp) as [Hexempt Hhome].
  unfold passes_middleware, process_request, incoming.
  cbn [user path current_company company_membership].
  rewrite Hexempt. split.
  - intros (request1 & Hreq & Hview).
    destruct (is_super_owner db u); [by left|right].
    destruct (get_current_company first db u) as [[c|]|e]; [| |done].
    + exists c. split; [done|].
      cbn [andb bool_decide decide_rel] in Hreq.
      rewrite bool_decide_eq_false_2 in Hreq by done.
      cbn [andb user path current_company company_membership] in Hreq.
      unfold user_has_permission.
      destruct (QuerySet.get (active_memberships db u c))
        as [[k membership]|[]]; try done.
      injection Hreq as <-. f_equal.
      unfold process_view in Hview.
      cbn [user path current_company company_membership] in Hview.
      destruct (check_permission_map db membership p PERMISSION_MAP)
        eqn:Hmap; [done|].
      by apply (proj1 (check_permission_map_None db membership p _) Hmap url).
    + rewrite bool_decide_eq_true_2, Hhome in Hreq by done. done.
  - intros ->. by exists (mkHttpRequest (Some u) p None None).
Qed.

Lemma middleware_enforces_permission_witness :
  ("/expenses/approve/", (expenses, approve_action)) ∈ PERMISSION_MAP
  ∧ startswith "/expenses/approve/12/" "/expenses/approve/" = true
  ∧ ¬ passes_middleware first_by_key scenario_A
        (incoming (Some 7) "/expenses/approve/12/").
Proof.
  assert (("/expenses/approve/", (expenses, approve_action)) ∈ PERMISSION_MAP)
    as Hin by (apply (bool_decide_unpack _); vm_compute; reflexivity).
  assert (startswith "/expenses/approve/12/" "/expenses/approve/" = true)
    as Hp by (vm_compute; reflexivity).
  split; [exact Hin|]. split; [exact Hp|]. intros Hpass.
  destruct (middleware_enforces_permission first_by_key scenario_A 7
              "/expenses/approve/12/" "/expenses/approve/" expenses
              approve_action Hin Hp) as [Hsound _].
  destruct (Hsound Hpass) as [Hso|(c & Hc & Hperm)].
  - vm_compute in Hso. discriminate Hso.
  - vm_compute in Hc. injection Hc as <-.
    vm_compute in Hperm. discriminate Hperm.
Defined.

Lemma first_by_key_spec : first_of_query first_by_key.
Proof.
  intros q. unfold first_by_key.
  destruct (map_to_list q) as [|[k m] l] eqn:Hl; simpl.
  - by apply map_to_list_empty_iff.
  - apply elem_of_map_to_list. rewrite Hl. left.
Qed.

Lemma get_current_company_member first db u c :
  first_of_query first →
  get_current_company first db u = Ok (Some c) →
  QuerySet.exists_ (active_memberships db u c) = true.
Proof.
  intros Hfirst. unfold get_current_company.
  assert (match first (active_memberships_of db u) with
          | Some (_, membership) => Ok (Some (m_company membership))
          | None => Ok None
          end = Ok (Some c) →
          QuerySet.exists_ (active_memberships db u c) = true) as Hfallback.
  { specialize (Hfirst (active_memberships_of db u)).
    destruct (first (active_memberships_of db u)) as [[k m]|]; [|done].
    intros [= <-]. apply lookup_filter_by in Hfirst as [Hk Hm].
    apply andb_true_iff in Hm as [Hu Hs].
    apply exists_true. exists k, m. apply lookup_filter_by. split; [done|].
    rewrite Hu, Hs. simpl. by rewrite bool_decide_eq_true_2. }
  destruct (QuerySet.get (profiles_of db u)) as [[kp profile]|[]]; try done.
  destruct (last_company profile) as [c'|]; [|done].
  destruct (QuerySet.exists_ (active_memberships db u c')) eqn:Hex; [|done].
  by intros [= <-].
Qed.

(** X8.  The tenant middleware attaches only an active membership of the
    user in the company it chose, and its answer is never the redirect
    with [Access denied to this company]: the company it chooses is one in
    which the user has an active membership. *)
Theorem tenant_middleware_membership first db u p request1 response :
  first_of_query first →
  process_request first db (incoming (Some u) p) = Ok (request1, response) →
  response
  ≠ Some (redirected "dashboard:dashboard" "Access denied to this company")
  ∧ ∀ membership,
      company_membership request1 = Some membership →
      ∃ c k,
        current_company request1 = Some (Some c)
        ∧ memberships db !! k = Some membership
        ∧ m_user membership = u
        ∧ m_company membership = c
        ∧ m_status membership = active.
Proof.
  intros Hfirst. unfold process_request, incoming.
  cbn [user path current_company company_membership].
  destruct (existsb _ _); [by intros [= <- <-]|].
  destruct (is_super_owner db u); [by intros [= <- <-]|].
  destruct (get_current_company first db u) as [[c|]|e] eqn:Hcc; [| |done].
  - rewrite bool_decide_eq_false_2 by done. cbn [andb].
    pose proof (get_current_company_member first db u c Hfirst Hcc) as Hex.
    apply exists_true in Hex as (k0 & m0 & Hk0).
    unfold QuerySet.get.
    destruct (map_to_list (active_memberships db u c)) as [|[k m] [|? ?]]
      eqn:Hl.
    + apply elem_of_map_to_list in Hk0. rewrite Hl in Hk0.
      by apply elem_of_nil in Hk0.
    + intros [= <- <-]. split; [done|]. intros membership [= <-].
      assert (active_memberships db u c !! k = Some m) as Hk
        by (apply elem_of_map_to_list; rewrite Hl; left).
      apply lookup_active_memberships in Hk as (Hk & Hu & Hc & Hs).
      by exists c, k.
    + done.
  - rewrite bool_decide_eq_true_2 by done. cbn [andb].
    destruct (negb _); by intros [= <- <-].
Qed.

Lemma tenant_middleware_membership_witness :
  let membership := mkMembership 7 1 (Some 1) active None in
  let request1 :=
    mkHttpRequest (Some 7) "/projects/" (Some (Some 1)) (Some membership) in
  first_of_query first_by_key
  ∧ process_request first_by_key scenario_A (incoming (Some 7) "/projects/")
    = Ok (request1, None)
  ∧ ∃ c k,
      current_company request1 = Some (Some c)
      ∧ memberships scenario_A !! k = Some membership
      ∧ m_user membership = 7
      ∧ m_company membership = c
      ∧ m_status membership = active.
Proof.
  assert (process_request first_by_key scenario_A
            (incoming (Some 7) "/projects/")
          = Ok (mkHttpRequest (Some 7) "/projects/" (Some (Some 1))
                  (Some (mkMembership 7 1 (Some 1) active None)), None))
    as Hreq by (vm_compute; reflexivity).
  split; [exact first_by_key_spec|]. split; [exact Hreq|].
  destruct (tenant_middleware_membership first_by_key scenario_A 7 "/projects/"
              _ None first_by_key_spec Hreq) as [_ Hm].
  exact (Hm _ eq_refl).
Defined.

(** ** Bulk actions *)

Section FoldRows.
Context {S : Type} (st : S → Store)
  (step : S → pk * AccountActivationRequest → S)
  (skip : AccountActivationRequest → Prop)
  (written : AccountActivationRequest → AccountActivationRequest → Prop).

Hypothesis step_cases : ∀ s k req,
  (skip req ∧ st (step s (k, req)) = st s)
  ∨ (∃ r', written req r' ∧ st (step s (k, req)) = save_request k r' (st s)).

Lemma foldl_rows_frame l s :
  set_requests ∅ (st (foldl step s l)) = set_requests ∅ (st s).
Proof.
  revert s. induction l as [|[k req] l IH]; intros s; [done|].
  simpl. rewrite IH.
  destruct (step_cases s k req) as [[_ ->]|(r' & _ & ->)]; done.
Qed.

Lemma foldl_rows_lookup l s k :
  (∃ req r', (k, req) ∈ l ∧ written req r'
             ∧ requests (st (foldl step s l)) !! k = Some r')
  ∨ (requests (st (foldl step s l)) !! k = requests (st s) !! k
     ∧ ∀ req, (k, req) ∈ l → skip req).
Proof.
  revert s. induction l as [|[k0 req0] l IH]; intros s.
  - right. split; [done|]. intros req Hin. by apply elem_of_nil in Hin.
  - simpl. destruct (IH (step s (k0, req0)))
      as [(req & r' & Hin & Hw & Hk)|[Hk Hskip]].
    { left. exists req, r'. split; [by right|done]. }
    destruct (step_cases s k0 req0) as [[Hs Hst]|(r' & Hw & Hst)].
    + right. rewrite Hk, Hst. split; [done|].
      intros req Hin. apply elem_of_cons in Hin as [[= _ ->]|Hin]; auto.
    + rewrite Hst in Hk. unfold save_request in Hk. simpl in Hk.
      destruct (decide (k = k0)) as [->|Hne].
      * left. exists req0, r'. rewrite lookup_insert_eq in Hk.
        split; [left|done].
      * right. rewrite lookup_insert_ne in Hk by done. split; [done|].
        intros req Hin. apply elem_of_cons in Hin as [[= ? _]|Hin]; auto.
        done.
Qed.
End FoldRows.

Lemma lookup_filter_pk_in {A} (ks : list nat) (q : gmap nat A) k a :
  QuerySet.filter_pk_in ks q !! k = Some a ↔ q !! k = Some a ∧ k ∈ ks.
Proof. unfold QuerySet.filter_pk_in. by rewrite map_lookup_filter_Some. Qed.

(** X9.  A bulk action writes the request table only: a request that is
    listed and whose status the action accepts gets the new status
    (approved or rejected with the acting user and a reading of the clock,
    or under review with nothing else changed); every other request,
    listed or not, is left as it is, and no row appears or disappears. *)
Theorem bulk_action_requests_rows now request_user action request_ids db k :
  let db' := (bulk_action_requests now request_user action request_ids db).1 in
  set_requests (requests db) db' = db
  ∧ match requests db !! k with
    | None => requests db' !! k = None
    | Some r =>
        if is_super_owner db request_user && bool_decide (k ∈ request_ids)
        then
          match bulk_target action (status r) with
          | None => requests db' !! k = Some r
          | Some under_review =>
              requests db' !! k = Some (set_status under_review r)
          | Some s' =>
              ∃ n, requests db' !! k
                   = Some (set_approved_at (Some (now n))
                             (set_approved_by (Some request_user)
                                (set_status s' r)))
          end
        else requests db' !! k = Some r
    end.
Proof.
  assert (∀ d d' : Store,
            set_requests ∅ d' = set_requests ∅ d →
            set_requests (requests d) d' = d) as Hframe.
  { intros [] [] [= -> -> -> -> -> -> ->]. done. }
  assert (∀ d : Store, set_requests (requests d) d = d) as Hsame
    by (by intros []).
  assert (match requests db !! k with
          | Some r => requests db !! k = Some r
          | None => requests db !! k = None
          end) as Hunchanged by (by destruct (requests db !! k)).
  unfold bulk_action_requests.
  destruct (is_super_owner db request_user); cbn [negb andb fst].
  2: { split; [apply Hsame|exact Hunchanged]. }
  destruct (bool_decide (action = "") || bool_decide (request_ids = []))
    eqn:Hinvalid; cbn [fst].
  { split; [apply Hsame|]. destruct (requests db !! k) as [r|]; [|done].
    destruct (decide (k ∈ request_ids)) as [Hin|Hin];
      [rewrite bool_decide_eq_true_2 by done
      |by rewrite bool_decide_eq_false_2].
    apply orb_true_iff in Hinvalid as [Ha|Hi].
    - apply bool_decide_eq_true in Ha. subst action. done.
    - apply bool_decide_eq_true in Hi. subst request_ids.
      by apply elem_of_nil in Hin. }
  clear Hinvalid.
  set (reqs := map_to_list (QuerySet.filter_pk_in request_ids (requests db))).
  assert (∀ req, (k, req) ∈ reqs ↔ requests db !! k = Some req ∧ k ∈ request_ids)
    as Hreqs.
  { intros req. unfold reqs.
    by rewrite elem_of_map_to_list, lookup_filter_pk_in. }
  unfold bulk_target.
  destruct (bool_decide (action = "approve")).
  { match goal with |- context [foldl ?f (db, 0) reqs] => set (step := f) end.
    assert (∀ (s : Store * nat) k' req,
              (status req ≠ pending ∧ (step s (k', req)).1 = s.1)
              ∨ (∃ r', (status req = pending
                        ∧ ∃ n, r' = set_approved_at (Some (now n))
                                      (set_approved_by (Some request_user)
                                         (set_status approved req)))
                       ∧ (step s (k', req)).1 = save_request k' r' s.1))
      as Hstep.
    { intros [d n] k' req. unfold step. simpl.
      case_bool_decide; [right|by left].
      eexists. split; [split; [done|by exists n]|done]. }
    pose proof (foldl_rows_frame fst step _ _ Hstep reqs (db, 0)) as Hfr.
    pose proof (foldl_rows_lookup fst step _ _ Hstep reqs (db, 0) k) as Hlk.
    split; [by apply Hframe|].
    destruct Hlk as [(req & r' & Hin & [Hst (n & ->)] & Hk)|[Hk Hskip]].
    - apply Hreqs in Hin as [Hdb Hin]. rewrite Hdb.
      rewrite !bool_decide_eq_true_2 by done. by exists n.
    - cbn [fst] in Hk. rewrite Hk.
      destruct (requests db !! k) as [r|] eqn:Hdb; [|done].
      destruct (decide (k ∈ request_ids)) as [Hin|Hin];
        [rewrite bool_decide_eq_true_2 by done
        |by rewrite bool_decide_eq_false_2].
      rewrite bool_decide_eq_false_2; [done|].
      apply Hskip, Hreqs. done. }
  destruct (bool_decide (action = "reject")).
  { match goal with |- context [foldl ?f (db, 0) reqs] => set (step := f) end.
    assert (∀ (s : Store * nat) k' req,
              ((status req ∉ [pending; under_review])
               ∧ (step s (k', req)).1 = s.1)
              ∨ (∃ r', (status req ∈ [pending; under_review]
                        ∧ ∃ n, r' = set_approved_at (Some (now n))
                                      (set_approved_by (Some request_user)
                                         (set_status rejected req)))
                       ∧ (step s (k', req)).1 = save_request k' r' s.1))
      as Hstep.
    { intros [d n] k' req. unfold step. simpl.
      case_bool_decide; [right|by left].
      eexists. split; [split; [done|by exists n]|done]. }
    pose proof (foldl_rows_frame fst step _ _ Hstep reqs (db, 0)) as Hfr.
    pose proof (foldl_rows_lookup fst step _ _ Hstep reqs (db, 0) k) as Hlk.
    split; [by apply Hframe|].
    destruct Hlk as [(req & r' & Hin & [Hst (n & ->)] & Hk)|[Hk Hskip]].
    - apply Hreqs in Hin as [Hdb Hin]. rewrite Hdb.
      rewrite !bool_decide_eq_true_2 by done. by exists n.
    - cbn [fst] in Hk. rewrite Hk.
      destruct (requests db !! k) as [r|] eqn:Hdb; [|done].
      destruct (decide (k ∈ request_ids)) as [Hin|Hin];
        [rewrite bool_decide_eq_true_2 by done
        |by rewrite bool_decide_eq_false_2].
      rewrite bool_decide_eq_false_2; [done|].
      apply Hskip, Hreqs. done. }
  destruct (bool_decide (action = "review")).
  { match goal with |- context [foldl ?f db reqs] => set (step := f) end.
    assert (∀ (s : Store) k' req,
              (status req ≠ pending ∧ step s (k', req) = s)
              ∨ (∃ r', (status req = pending
                        ∧ r' = set_status under_review req)
                       ∧ step s (k', req) = save_request k' r' s))
      as Hstep.
    { intros d k' req. unfold step. simpl.
      case_bool_decide; [right|by left]. by eexists. }
    pose proof (foldl_rows_frame (λ d, d) step _ _ Hstep reqs db) as Hfr.
    pose proof (foldl_rows_lookup (λ d, d) step _ _ Hstep reqs db k) as Hlk.
    split; [by apply Hframe|].
    destruct Hlk as [(req & r' & Hin & [Hst ->] & Hk)|[Hk Hskip]].
    - apply Hreqs in Hin as [Hdb Hin]. rewrite Hdb.
      by rewrite !bool_decide_eq_true_2 by done.
    - rewrite Hk.
      destruct (requests db !! k) as [r|] eqn:Hdb; [|done].
      destruct (decide (k ∈ request_ids)) as [Hin|Hin];
        [rewrite bool_decide_eq_true_2 by done
        |by rewrite bool_decide_eq_false_2].
      rewrite bool_decide_eq_false_2; [done|].
      apply Hskip, Hreqs. done. }
  split; [apply Hsame|]. destruct (requests db !! k); [|done].
  by destruct (bool_decide _).
Qed.

(** ** The handler under the profile receiver *)

Lemma create_user_with_profile u db db1 k :
  create_user true u db = (db1, Ok k) →
  QuerySet.exists_ (profiles_of db1 k) = true.
Proof.
  unfold create_user. destruct (QuerySet.exists_ _); [done|].
  intros [= <- <-]. apply exists_true.
  exists (QuerySet.new_pk (profiles db)),
    (default_profile (QuerySet.new_pk (users db))).
  apply lookup_filter_by. split.
  - simpl. apply lookup_insert_eq.
  - simpl. by rewrite bool_decide_eq_true_2.
Qed.

Lemma create_user_raises profile_signal u db db1 e :
  create_user profile_signal u db = (db1, Raise e) → e = IntegrityError.
Proof.
  unfold create_user. destruct (QuerySet.exists_ _); [by intros [= _ <-]|].
  by destruct profile_signal.
Qed.

(** X10.  When the receiver of [core/signals.py] that creates a profile
    for every new user is registered, the handler cannot approve a company
    or an individual registration: the profile it creates itself collides
    with the one of the receiver, the call ends with an integrity error and
    the transaction leaves the store as it was. *)
Theorem approve_request_fails_under_profile_signal slugify now temp_password
    k r approved_by_user db :
  request_type r ∈ [company_registration; individual_registration] →
  approve_request true slugify now temp_password k r approved_by_user db
  = (db, Raise IntegrityError).
Proof.
  intros Htype. unfold approve_request, atomic.
  set (r1 := set_approved_at _ _).
  assert (request_type r1 = request_type r) as -> by done.
  unfold mbind at 1, M_bind at 1, save at 1.
  generalize (save_request k r1 db). intros d.
  assert (request_type r = company_registration
          ∨ request_type r = individual_registration) as [-> | ->].
  { apply elem_of_cons in Htype as [->|Htype]; [by left|].
    apply list_elem_of_singleton in Htype as ->. by right. }
  - unfold _create_company_and_admin, mbind, M_bind.
    destruct (create_user true _ d) as [d1 [ku|e]] eqn:Hcreate.
    + apply create_user_with_profile in Hcreate.
      unfold set_password, UserProfile_create.
      cbn [profile_user].
      change (profiles_of (set_users _ d1) ku) with (profiles_of d1 ku).
      by rewrite Hcreate.
    + by apply create_user_raises in Hcreate as ->.
  - unfold _create_individual_user, mbind, M_bind.
    destruct (create_user true _ d) as [d1 [ku|e]] eqn:Hcreate.
    + apply create_user_with_profile in Hcreate.
      unfold set_password, UserProfile_create.
      cbn [profile_user].
      change (profiles_of (set_users _ d1) ku) with (profiles_of d1 ku).
      by rewrite Hcreate.
    + by apply create_user_raises in Hcreate as ->.
Qed.

Lemma approve_request_fails_under_profile_signal_witness :
  request_type company_request
  ∈ [company_registration; individual_registration]
  ∧ approve_request true (λ s, s) (clock_at 86400) "Xy12Za34Bc56" 1
      company_request 1 (review_store company_request)
    = (review_store company_request, Raise IntegrityError).
Proof.
  assert (request_type company_request
          ∈ [company_registration; individual_registration]) as Htype
    by (apply (bool_decide_unpack _); vm_compute; reflexivity).
  split; [exact Htype|].
  apply (approve_request_fails_under_profile_signal (λ s, s) (clock_at 86400)
           "Xy12Za34Bc56" 1 company_request 1 (review_store company_request)
           Htype).
Defined.

(** ** The approval view on the other request types *)



(** ** What a role deletion leaves in place *)

Lemma Role_delete_frame rid db :
  let db' := Role_delete rid db in
  (∀ k, k ≠ rid → roles db' !! k = roles db !! k)
  ∧ roles db' !! rid = None
  ∧ (∀ k, permissions db' !! k
          = match permissions db !! k with
            | Some p => if decide (perm_role p = rid) then None else Some p
            | None => None
            end)
  ∧ (∀ k, memberships db' !! k
          = match memberships db !! k with
            | Some m =>
                if decide (m_role m = Some rid) then
                  Some (mkMembership (m_user m) (m_company m) None
                          (m_status m) (joined_date m))
                else Some m
            | None => None
            end).
Proof.
  unfold Role_delete. simpl. split_and!.
  - intros k Hne. by apply lookup_delete_ne.
  - apply lookup_delete_eq.
  - intros k. unfold QuerySet.delete_rows, role_permissions.
    destruct (permissions db !! k) as [p|] eqn:Hp.
    + destruct (decide (perm_role p = rid)) as [Hr|Hr].
      * apply lookup_difference_None. right. exists p.
        apply lookup_filter_by. by rewrite bool_decide_eq_true.
      * apply lookup_difference_Some. split; [done|].
        apply eq_None_not_Some. intros [p' Hp'].
        apply lookup_filter_by in Hp' as [Hp' Hr'].
        apply bool_decide_eq_true in Hr'. congruence.
    + apply lookup_difference_None. by left.
  - intros k. rewrite lookup_update.
    destruct (memberships db !! k) as [m|] eqn:Hm.
    + destruct (decide (m_role m = Some rid)) as [Hr|Hr].
      * assert (QuerySet.filter_by (λ m, bool_decide (m_role m = Some rid))
                  (memberships db) !! k = Some m) as ->; [|done].
        apply lookup_filter_by. by rewrite bool_decide_eq_true.
      * assert (QuerySet.filter_by (λ m, bool_decide (m_role m = Some rid))
                  (memberships db) !! k = None) as ->; [|done].
        apply eq_None_not_Some. intros [m' Hm'].
        apply lookup_filter_by in Hm' as [Hm' Hr'].
        apply bool_decide_eq_true in Hr'. congruence.
    + assert (QuerySet.filter_by (λ m, bool_decide (m_role m = Some rid))
                (memberships db) !! k = None) as ->; [|done].
      apply eq_None_not_Some. intros [m' Hm'].
      apply lookup_filter_by in Hm' as [Hm' _]. congruence.
Qed.

(** X12.  [role_delete] touches nothing but the role, its permission rows
    and the role column of memberships: no membership is deleted, a
    membership loses its role only if it held the deleted role and is not
    an active membership of the current company, the permission rows of
    the other roles stay, and no permission row or membership is left
    pointing to a role that is gone. *)
Theorem role_delete_frame request_user current_company role_id is_post db :
  let db' := (role_delete request_user current_company role_id is_post db).1 in
  (users db' = users db ∧ profiles db' = profiles db
   ∧ companies db' = companies db ∧ requests db' = requests db
   ∧ super_owners db' = super_owners db)
  ∧ (∀ k, k ≠ role_id → roles db' !! k = roles db !! k)
  ∧ (∀ k, permissions db' !! k = permissions db !! k
          ∨ (permissions db' !! k = None
             ∧ perm_role <$> permissions db !! k = Some role_id))
  ∧ (∀ k, memberships db' !! k = memberships db !! k
          ∨ ∃ m, memberships db !! k = Some m
                 ∧ memberships db' !! k
                   = Some (mkMembership (m_user m) (m_company m) None
                             (m_status m) (joined_date m))
                 ∧ m_role m = Some role_id
                 ∧ ¬ (Some (m_company m) = current_company
                      ∧ m_status m = active))
  ∧ (∀ k p, permissions db' !! k = Some p →
            is_Some (roles db !! perm_role p) →
            is_Some (roles db' !! perm_role p))
  ∧ (∀ k m rid, memberships db' !! k = Some m → m_role m = Some rid →
                is_Some (roles db !! rid) → is_Some (roles db' !! rid)).
Proof.
  assert ((role_delete request_user current_company role_id is_post db).1 = db
          ∨ ∃ company,
              current_company = Some company
              ∧ QuerySet.count (active_members_with_role db company role_id) = 0
              ∧ (role_delete request_user current_company role_id is_post db).1
                = Role_delete role_id db) as [-> | (company & -> & Hnone & ->)].
  { destruct current_company as [company|]; [|by left].
    destruct (role_delete_cases request_user company role_id is_post db)
      as [|(role & _ & _ & Hnone & _ & ->)]; [by left|right].
    by exists company. }
  { simpl. split_and!; try done; intros; by left. }
  destruct (Role_delete_frame role_id db) as (Hroles & Hgone & Hperms & Hmems).
  cbv zeta in *. split_and!; try done.
  - intros k. rewrite Hperms. destruct (permissions db !! k) as [p|]; [|by left].
    destruct (decide _) as [<-|]; [by right|by left].
  - intros k. rewrite Hmems.
    destruct (memberships db !! k) as [m|] eqn:Hm; [|by left].
    destruct (decide _) as [Hr|]; [right|by left].
    exists m. split_and!; try done. intros [[= Hc] Hs].
    assert (0 < QuerySet.count (active_members_with_role db company role_id));
      [|lia].
    apply count_pos. exists k, m. apply lookup_filter_by. split; [done|].
    by rewrite !bool_decide_eq_true_2.
  - intros k p. rewrite Hperms.
    destruct (permissions db !! k) as [p'|]; [|done].
    destruct (decide _) as [|Hne]; [done|]. intros [= ->] Hsome.
    by rewrite Hroles.
  - intros k m rid. rewrite Hmems.
    destruct (memberships db !! k) as [m'|]; [|done].
    destruct (decide _) as [|Hne]; intros [= <-]; [done|].
    simpl. intros Hr Hsome. rewrite Hroles; [done|]. congruence.
Qed.

(** ** The handler, from the request to the permissions of the new admin *)

#[local] Opaque QuerySet.new_pk QuerySet.bulk_create.

Lemma create_user_ok u db :
  (∀ k u', users db !! k = Some u' → username u' ≠ username u) →
  create_user false u db
  = (set_users (<[QuerySet.new_pk (users db) := u]> (users db)) db,
     Ok (QuerySet.new_pk (users db))).
Proof.
  intros Hfree. unfold create_user.
  assert (QuerySet.exists_
            (QuerySet.filter_by (λ u', bool_decide (username u' = username u))
               (users db)) = false) as ->; [|done].
  apply not_true_iff_false. rewrite exists_true. intros (k & u' & Hk).
  apply lookup_filter_by in Hk as [Hk Heq]. apply bool_decide_eq_true in Heq.
  by apply (Hfree k u').
Qed.

Lemma UserProfile_create_ok p db :
  (∀ k p', profiles db !! k = Some p' → profile_user p' ≠ profile_user p) →
  UserProfile_create p db
  = (set_profiles (<[QuerySet.new_pk (profiles db) := p]> (profiles db)) db,
     Ok (QuerySet.new_pk (profiles db))).
Proof.
  intros Hfree. unfold UserProfile_create.
  assert (QuerySet.exists_ (profiles_of db (profile_user p)) = false) as ->;
    [|done].
  apply not_true_iff_false. rewrite exists_true. intros (k & p' & Hk).
  apply lookup_filter_by in Hk as [Hk Heq]. apply bool_decide_eq_true in Heq.
  by apply (Hfree k p').
Qed.

Lemma Company_create_ok c db :
  (∀ k c', companies db !! k = Some c' → slug c' ≠ slug c) →
  Company_create c db
  = (set_companies (<[QuerySet.new_pk (companies db) := c]> (companies db)) db,
     Ok (QuerySet.new_pk (companies db))).
Proof.
  intros Hfree. unfold Company_create.
  assert (QuerySet.exists_
            (QuerySet.filter_by (λ c', bool_decide (slug c' = slug c))
               (companies db)) = false) as ->; [|done].
  apply not_true_iff_false. rewrite exists_true. intros (k & c' & Hk).
  apply lookup_filter_by in Hk as [Hk Heq]. apply bool_decide_eq_true in Heq.
  by apply (Hfree k c').
Qed.

Lemma writes_roles_only_bind {A B} (m : M A) (f : A → M B) :
  writes_roles_only m → (∀ a, writes_roles_only (f a)) →
  writes_roles_only (m ≫= f).
Proof.
  intros Hm Hf db. unfold mbind, M_bind. specialize (Hm db).
  destruct (m db) as [db1 [a|e]]; [|done].
  rewrite <- Hm. apply Hf.
Qed.

Lemma writes_roles_only_Role_create r : writes_roles_only (Role_create r).
Proof. intros db. unfold Role_create. by destruct (QuerySet.exists_ _). Qed.

Lemma writes_roles_only_Permission_bulk_create rows :
  writes_roles_only (Permission_bulk_create rows).
Proof. intros db. unfold Permission_bulk_create. by destruct (_ && _). Qed.

Lemma writes_roles_only_CompanyMembership_create m :
  writes_roles_only (CompanyMembership_create m).
Proof.
  intros db. unfold CompanyMembership_create. by destruct (QuerySet.exists_ _).
Qed.

Lemma writes_roles_only_default_roles now company admin_user :
  writes_roles_only (_create_company_default_roles now company admin_user).
Proof.
  unfold _create_company_default_roles, _add_basic_permissions.
  repeat first
    [ apply writes_roles_only_bind; [|intros ?]
    | apply writes_roles_only_Role_create
    | apply writes_roles_only_Permission_bulk_create
    | apply writes_roles_only_CompanyMembership_create
    | done ].
Qed.

(** The store that the handler leaves after the approval of a company
    registration. *)
Lemma approve_request_store slugify now temp_password k r approved_by_user db :
  foreign_keys db →
  request_type r = company_registration →
  (∀ ku u, users db !! ku = Some u → username u ≠ req_username r) →
  (∀ kc c, companies db !! kc = Some c → slug c ≠ slugify (company_name r)) →
  ∃ db' user company profile ka km,
    approve_request false slugify now temp_password k r approved_by_user db
    = (db', Ok (Some user))
    ∧ users db !! user = None
    ∧ companies db !! company = None
    ∧ profiles db !! profile = None
    ∧ memberships db !! km = None
    ∧ requests db'
      = <[k := set_approved_at (Some (now 0%nat))
                 (set_approved_by (Some approved_by_user)
                    (set_status approved r))]> (requests db)
    ∧ users db'
      = <[user := mkUser (req_username r) (email r) (first_name r)
                    (last_name r) (Some temp_password)]> (users db)
    ∧ profiles db'
      = <[profile := mkProfile user (phone r) (Some company) "company_admin"
                       true true (Some approved_by_user) (Some (now 1%nat))]>
          (profiles db)
    ∧ companies db'
      = <[company := mkCompany (company_name r) (slugify (company_name r))
                       (company_description r) (email r) ""
                       (company_address r) (company_website r) true]>
          (companies db)
    ∧ roles db' !! ka
      = Some (mkRole company "Company Admin"
                "Full company administration access" true false false)
    ∧ (∀ res act, role_owns db' ka res act)
    ∧ memberships db'
      = <[km := mkMembership user company (Some ka) active
                  (Some (now 2%nat))]> (memberships db)
    ∧ super_owners db' = super_owners db.
Proof.
  intros (Hfk_prof & Hfk_role & Hfk_perm & Hfk_mem) Htype Huser Hslug.
  unfold approve_request, atomic.
  set (r1 := set_approved_at _ _).
  assert (request_type r1 = company_registration) as -> by done.
  unfold mbind at 1, M_bind at 1, save at 1.
  set (d0 := save_request k r1 db).
  set (ku := QuerySet.new_pk (users db)).
  set (kp := QuerySet.new_pk (profiles db)).
  set (kc := QuerySet.new_pk (companies db)).
  assert (users db !! ku = None) as Hku by apply new_pk_fresh.
  assert (companies db !! kc = None) as Hkc by apply new_pk_fresh.
  set (u0 := mkUser (req_username r1) (email r1) (first_name r1)
               (last_name r1) None).
  set (d1 := set_users (<[ku := u0]> (users db)) d0).
  assert (create_user false u0 d0 = (d1, Ok ku)) as E1
    by (by apply create_user_ok).
  destruct (set_password ku temp_password d1) as [d2 ?] eqn:E2.
  injection E2 as E2 <-.
  set (p0 := mkProfile ku (phone r1) None "company_admin" true true
               (approved_by r1) (Some (now 1%nat))).
  set (d3 := set_profiles (<[kp := p0]> (profiles db)) d2).
  assert (UserProfile_create p0 d2 = (d3, Ok kp)) as E3.
  { subst d2. apply (UserProfile_create_ok p0). store_simpl.
    intros k' p' Hp' Heq. destruct (Hfk_prof k' p' Hp') as [u' Hu'].
    simpl in Heq. rewrite Heq in Hu'. congruence. }
  set (c0 := mkCompany (company_name r1) (slugify (company_name r1))
               (company_description r1) (email r1) "" (company_address r1)
               (company_website r1) true).
  set (d4 := set_companies (<[kc := c0]> (companies db)) d3).
  assert (Company_create c0 d3 = (d4, Ok kc)) as E4.
  { subst d3 d2. by apply (Company_create_ok c0). }
  destruct (set_last_company kp kc d4) as [d5 ?] eqn:E5.
  injection E5 as E5 <-.
  destruct (create_company_default_roles_spec (now 2%nat) kc ku d5)
    as (d6 & ka & ks & ke & km & E6 & Hroles & Hka & Hks & Hke & Hne1 & Hne2
        & Hne3 & Hadmin & _ & _ & _ & _ & _ & Hmems & Hkm).
  { subst d5 d4 d3 d2 d1 d0. store_simpl. intros k' ro Hro Heq.
    destruct (Hfk_role k' ro Hro) as [c' Hc']. rewrite Heq in Hc'. congruence. }
  { subst d5 d4 d3 d2 d1 d0. store_simpl. exact Hfk_perm. }
  { subst d5 d4 d3 d2 d1 d0. store_simpl. intros k' m Hm [Hu _].
    destruct (Hfk_mem k' m Hm) as [[u' Hu'] _]. rewrite Hu in Hu'.
    congruence. }
  assert (_create_company_and_admin false slugify now temp_password r1 d0
          = (d6, Ok ku)) as Hrun.
  { unfold _create_company_and_admin. fold u0.
    rewrite (bind_Ok _ _ _ _ _ E1).
    assert (set_password ku temp_password d1 = (d2, Ok ())) as E2'
      by (by rewrite <- E2).
    rewrite (bind_Ok _ _ _ _ _ E2'). fold p0.
    rewrite (bind_Ok _ _ _ _ _ E3). fold c0.
    rewrite (bind_Ok _ _ _ _ _ E4).
    assert (set_last_company kp kc d4 = (d5, Ok ())) as E5'
      by (by rewrite <- E5).
    rewrite (bind_Ok _ _ _ _ _ E5').
    by rewrite (bind_Ok _ _ _ _ _ E6). }
  rewrite (bind_Ok _ _ _ _ _ Hrun).
  assert (profiles db !! kp = None) as Hkp by apply new_pk_fresh.
  exists d6, ku, kc, kp, ka, km. split; [done|].
  pose proof (writes_roles_only_default_roles (now 2%nat) kc ku d5) as Hframe.
  rewrite E6 in Hframe. cbn [fst] in Hframe.
  assert (users d6 = users d5 ∧ companies d6 = companies d5
          ∧ requests d6 = requests d5 ∧ profiles d6 = profiles d5
          ∧ super_owners d6 = super_owners d5)
    as (Husers & Hcompanies & Hrequests & Hprofiles & Hsuper).
  { destruct d6, d5. by injection Hframe as -> -> -> -> ->. }
  rewrite Hrequests, Husers, Hcompanies, Hprofiles, Hsuper, Hroles, Hmems.
  subst d5 d4 d3 d2 d1 d0. store_simpl.
  split_and!; try done.
  - by rewrite alter_insert_eq.
  - by rewrite alter_insert_eq.
  - rewrite !lookup_insert_ne by done. apply lookup_insert_eq.
Qed.

(** X13.  In a store whose foreign keys hold, without the profile
    receiver, the handler approves a company registration whose username
    and company slug are free: the request is stored as approved, a user
    with the drawn password and a company are created, and the new user
    is granted every resource and action in the new company. *)
Theorem approve_request_company_registration slugify now temp_password k r
    approved_by_user db :
  foreign_keys db →
  request_type r = company_registration →
  (∀ ku u, users db !! ku = Some u → username u ≠ req_username r) →
  (∀ kc c, companies db !! kc = Some c → slug c ≠ slugify (company_name r)) →
  ∃ db' user company,
    approve_request false slugify now temp_password k r approved_by_user db
    = (db', Ok (Some user))
    ∧ requests db'
      = <[k := set_approved_at (Some (now 0%nat))
                 (set_approved_by (Some approved_by_user)
                    (set_status approved r))]> (requests db)
    ∧ users db !! user = None
    ∧ users db'
      = <[user := mkUser (req_username r) (email r) (first_name r)
                    (last_name r) (Some temp_password)]> (users db)
    ∧ companies db !! company = None
    ∧ companies db'
      = <[company := mkCompany (company_name r) (slugify (company_name r))
                       (company_description r) (email r) ""
                       (company_address r) (company_website r) true]>
          (companies db)
    ∧ ∀ res act, user_has_permission db' user company res act = Ok true.
Proof.
  intros Hfk Htype Huser Hslug.
  destruct (approve_request_store slugify now temp_password k r
              approved_by_user db Hfk Htype Huser Hslug)
    as (db' & ku & kc & kp & ka & km & Hrun & Hku & Hkc & Hkp & Hkm
        & Hrequests & Husers & Hprofiles & Hcompanies & Hrole & Hadmin
        & Hmems & _).
  destruct Hfk as (Hfk_prof & Hfk_role & Hfk_perm & Hfk_mem).
  exists db', ku, kc. split_and!; try done.
  intros res act. unfold user_has_permission.
  set (membership := mkMembership ku kc (Some ka) active (Some (now 2%nat))).
  assert (active_memberships db' ku kc !! km = Some membership) as Hnew.
  { apply lookup_active_memberships. rewrite Hmems.
    split; [apply lookup_insert_eq|done]. }
  assert (∀ k0 m0, active_memberships db' ku kc !! k0 = Some m0 →
                   k0 = km ∧ m0 = membership) as Hone.
  { intros k0 m0 H0. apply lookup_active_memberships in H0 as (H0 & Hu & _).
    rewrite Hmems in H0.
    apply lookup_insert_Some in H0 as [[? ?]|[_ H0]]; [done|].
    destruct (Hfk_mem k0 m0 H0) as [[u' Hu'] _]. rewrite Hu in Hu'.
    congruence. }
  destruct (get_at_most_one (active_memberships db' ku kc))
    as [[Hempty _]|(k' & m' & Hk' & ->)].
  - intros k1 k2 m1 m2 H1 H2.
    destruct (Hone k1 m1 H1) as [-> _]. by destruct (Hone k2 m2 H2) as [-> _].
  - rewrite Hempty in Hnew. by rewrite lookup_empty in Hnew.
  - destruct (Hone k' m' Hk') as [-> ->]. f_equal.
    apply has_permission_true. exists ka. by split.
Qed.

#[local] Transparent QuerySet.new_pk QuerySet.bulk_create.

Lemma foreign_keys_review_store r : foreign_keys (review_store r).
Proof.
  unfold foreign_keys, review_store, reviewer_store, empty_store.
  store_simpl. split_and!.
  - intros k p Hp. apply lookup_singleton_Some in Hp as [_ <-]. by eexists.
  - intros k ro Hro. by rewrite lookup_empty in Hro.
  - intros k p Hp. by rewrite lookup_empty in Hp.
  - intros k m Hm. by rewrite lookup_empty in Hm.
Qed.

Lemma approve_request_company_registration_witness :
  ∃ db' user company,
    approve_request false (λ s, s) (clock_at 86400) "Xy12Za34Bc56" 1
      company_request 1 (review_store company_request)
    = (db', Ok (Some user))
    ∧ requests db'
      = <[1 := set_approved_at (Some 86400%Z)
                 (set_approved_by (Some 1) (set_status approved company_request))]>
          (requests (review_store company_request))
    ∧ users (review_store company_request) !! user = None
    ∧ users db'
      = <[user := mkUser "acme-owner" "owner@acme.example" "Grace" "Hopper"
                    (Some "Xy12Za34Bc56")]>
          (users (review_store company_request))
    ∧ companies (review_store company_request) !! company = None
    ∧ companies db'
      = <[company := mkCompany "Acme Builders" "Acme Builders" ""
                       "owner@acme.example" "" "" "" true]>
          (companies (review_store company_request))
    ∧ ∀ res act, user_has_permission db' user company res act = Ok true.
Proof.
  apply (approve_request_company_registration (λ s, s) (clock_at 86400)
           "Xy12Za34Bc56" 1 company_request 1 (review_store company_request)).
  - apply foreign_keys_review_store.
  - reflexivity.
  - intros ku u Hu.
    unfold review_store, reviewer_store, empty_store in Hu. store_simpl.
    apply lookup_singleton_Some in Hu as [_ <-]. discriminate.
  - intros kc c Hc. vm_compute in Hc. discriminate Hc.
Defined.

(** ** The role form *)

Lemma permission_of_choice_key role res act :
  permission_of_key role (choice_key res act) = Some (mkPermission role res act).
Proof. by destruct res, act. Qed.

Lemma elem_of_permission_choices key :
  key ∈ permission_choices ↔ ∃ res act, key = choice_key res act.
Proof.
  unfold permission_choices. rewrite list_elem_of_bind. split.
  - intros (res & Hkey & _). apply list_elem_of_bind in Hkey as (act & Hkey & _).
    apply list_elem_of_singleton in Hkey. eauto.
  - intros (res & act & ->). exists res. split; [|apply all_resources].
    apply list_elem_of_bind. exists act. split; [|apply all_actions].
    by apply list_elem_of_singleton.
Qed.

Lemma choice_key_inj res act res' act' :
  choice_key res act = choice_key res' act' → res = res' ∧ act = act'.
Proof.
  intros Heq. pose proof (permission_of_choice_key 0 res act) as H1.
  rewrite Heq, permission_of_choice_key in H1. by injection H1.
Qed.

(** The loop of [save] over validated keys: one row for each key. *)
Lemma permissions_to_create_valid role keys :
  valid_permissions keys = true →
  ∃ rows,
    mapM (permission_of_key role) keys = Some rows
    ∧ length rows = length keys
    ∧ (∀ p, p ∈ rows
            ↔ perm_role p = role ∧ choice_key (resource p) (action p) ∈ keys)
    ∧ (NoDup keys ↔ NoDup rows).
Proof.
  unfold valid_permissions. rewrite forallb_forall. intros Hvalid.
  induction keys as [|key keys IH].
  - exists []. split_and!; [done|done| |by split; constructor].
    intros p. split; [intros Hp; by apply elem_of_nil in Hp|].
    intros [_ Hp]. by apply elem_of_nil in Hp.
  - destruct IH as (rows & Hrows & Hlen & Hin & Hnd).
    { intros key' Hkey'. apply Hvalid. by right. }
    assert (key ∈ permission_choices) as Hkey.
    { eapply bool_decide_eq_true, Hvalid. by left. }
    apply elem_of_permission_choices in Hkey as (res & act & ->).
    exists (mkPermission role res act :: rows). split_and!.
    + cbn [mapM]. rewrite permission_of_choice_key. simpl. by rewrite Hrows.
    + simpl. by rewrite Hlen.
    + intros p. rewrite !elem_of_cons, Hin. split.
      * intros [->|[Hr Hp]]; [by split; [|left]|by split; [|right]].
      * intros [Hr [Heq|Hp]]; [left|by right].
        apply choice_key_inj in Heq as [<- <-]. destruct p. simpl in *.
        by subst.
    + rewrite !NoDup_cons, Hnd, Hin. simpl. tauto.
Qed.

Lemma Role_save_ok instance r db :
  (∀ k r', roles db !! k = Some r' → Some k ≠ instance →
           ¬ (role_company r' = role_company r ∧ role_name r' = role_name r)) →
  Role_save instance r db
  = (set_roles
       (<[match instance with
          | Some k => k
          | None => QuerySet.new_pk (roles db)
          end := r]> (roles db)) db,
     Ok match instance with
        | Some k => k
        | None => QuerySet.new_pk (roles db)
        end).
Proof.
  intros Hfree. unfold Role_save.
  assert (QuerySet.exists_
            (QuerySet.exclude_pk instance
               (QuerySet.filter_by
                  (λ r', bool_decide (role_company r' = role_company r)
                         && bool_decide (role_name r' = role_name r))
                  (roles db))) = false) as ->; [|done].
  apply not_true_iff_false. rewrite exists_true. intros (k & r' & Hk).
  apply lookup_exclude_pk in Hk as [Hk Hne].
  apply lookup_filter_by in Hk as [Hk Heq].
  apply andb_true_iff in Heq as [H1 H2]. apply bool_decide_eq_true in H1, H2.
  by apply (Hfree k r').
Qed.

(** The permission table after the rows of a role were deleted. *)
Lemma lookup_delete_role_permissions db rid k p :
  QuerySet.delete_rows (role_permissions db rid) (permissions db) !! k = Some p
  ↔ permissions db !! k = Some p ∧ perm_role p ≠ rid.
Proof.
  unfold QuerySet.delete_rows, role_permissions.
  rewrite lookup_difference_Some. split.
  - intros [Hp Hnone]. split; [done|]. intros Hr.
    assert (QuerySet.filter_by (λ p, bool_decide (perm_role p = rid))
              (permissions db) !! k = Some p) as Hsome; [|congruence].
    apply lookup_filter_by. by rewrite bool_decide_eq_true.
  - intros [Hp Hr]. split; [done|]. apply eq_None_not_Some. intros [p' Hp'].
    apply lookup_filter_by in Hp' as [Hp' Hr'].
    apply bool_decide_eq_true in Hr'. congruence.
Qed.

(** The store after a successful [save] of the form. *)
Lemma RoleForm_save_ok company instance cleaned_data db :
  valid_permissions (cleaned_permissions cleaned_data) = true →
  (∀ k r, roles db !! k = Some r → Some k ≠ fst <$> instance →
          ¬ (role_company r
             = role_company (form_role company instance cleaned_data)
             ∧ role_name r = cleaned_name cleaned_data)) →
  ∃ rows k,
    k = match instance with
        | Some (k0, _) => k0
        | None => QuerySet.new_pk (roles db)
        end
    ∧ length rows = length (cleaned_permissions cleaned_data)
    ∧ (∀ p, p ∈ rows
            ↔ perm_role p = k
              ∧ choice_key (resource p) (action p)
                ∈ cleaned_permissions cleaned_data)
    ∧ (NoDup (cleaned_permissions cleaned_data) ↔ NoDup rows)
    ∧ RoleForm_save company instance cleaned_data db
      = Some
          (let db1 :=
             set_roles
               (<[k := form_role company instance cleaned_data]> (roles db))
               db in
           let db2 :=
             set_permissions
               (QuerySet.delete_rows (role_permissions db k) (permissions db))
               db1 in
           match Permission_bulk_create rows db2 with
           | (db3, Raise e) => (db3, Raise e)
           | (db3, Ok _) => (db3, Ok k)
           end).
Proof.
  intros Hvalid Hfree.
  set (k := match instance with
            | Some (k0, _) => k0
            | None => QuerySet.new_pk (roles db)
            end).
  destruct (permissions_to_create_valid k _ Hvalid)
    as (rows & Hrows & Hlen & Hin & Hnd).
  exists rows, k. split_and!; try done.
  unfold RoleForm_save. rewrite Role_save_ok by done.
  assert (match fst <$> instance with
          | Some k0 => k0
          | None => QuerySet.new_pk (roles db)
          end = k) as -> by (by destruct instance as [[]|]).
  rewrite Hrows. cbv zeta.
  by destruct (Permission_bulk_create rows _) as [db3 [[]|e]].
Qed.

Lemma length_filter_all {A} (P : A → Prop) `{∀ x, Decision (P x)} (l : list A) :
  (∀ x, x ∈ l → P x) → length (filter P l) = length l.
Proof.
  induction l as [|x l IH]; intros Hall; [done|].
  rewrite filter_cons_True by (apply Hall; left).
  simpl. f_equal. apply IH. intros y Hy. apply Hall. by right.
Qed.

#[local] Opaque QuerySet.new_pk QuerySet.bulk_create.

(** X14.  A form whose cleaned keys are choice keys without repetition,
    saved for a role whose name is free in its company, succeeds and makes
    the permissions of the role exactly the ticked ones: the role owns a
    pair if and only if its key was submitted, a new form on the role
    shows the submitted keys and no other as initial, and the permission
    rows of the other roles are as before. *)
Theorem RoleForm_save_round_trip company instance cleaned_data db :
  valid_permissions (cleaned_permissions cleaned_data) = true →
  NoDup (cleaned_permissions cleaned_data) →
  (∀ k r, roles db !! k = Some r → Some k ≠ fst <$> instance →
          ¬ (role_company r
             = role_company (form_role company instance cleaned_data)
             ∧ role_name r = cleaned_name cleaned_data)) →
  ∃ db' k,
    RoleForm_save company instance cleaned_data db = Some (db', Ok k)
    ∧ match instance with
      | Some (k0, _) => k = k0
      | None => roles db !! k = None
      end
    ∧ roles db' = <[k := form_role company instance cleaned_data]> (roles db)
    ∧ (∀ res act,
         role_owns db' k res act
         ↔ choice_key res act ∈ cleaned_permissions cleaned_data)
    ∧ (∀ key,
         key ∈ initial_permissions db' k
         ↔ key ∈ cleaned_permissions cleaned_data)
    ∧ length (initial_permissions db' k)
      = length (cleaned_permissions cleaned_data)
    ∧ (∀ k' p, perm_role p ≠ k →
               permissions db' !! k' = Some p ↔ permissions db !! k' = Some p).
Proof.
  intros Hvalid Hnodup Hfree.
  destruct (RoleForm_save_ok company instance cleaned_data db Hvalid Hfree)
    as (rows & k & Hk & Hlen & Hin & Hnd & ->).
  cbv zeta.
  set (db1 := set_roles _ db).
  set (T2 := QuerySet.delete_rows (role_permissions db k) (permissions db)).
  rewrite Permission_bulk_create_ok; [|by apply Hnd|].
  2: { store_simpl. intros k' p Hp Hrow. apply Hin in Hrow as [Hr _].
       by apply lookup_delete_role_permissions in Hp as [_ Hne]. }
  store_simpl.
  set (T3 := QuerySet.bulk_create rows T2).
  assert (∀ k' p, T3 !! k' = Some p →
                  (permissions db !! k' = Some p ∧ perm_role p ≠ k) ∨ p ∈ rows)
    as Hinv.
  { intros k' p Hp. apply bulk_create_inv in Hp as [Hp|Hp]; [left|by right].
    by apply lookup_delete_role_permissions. }
  assert (∀ p, (∃ k', T3 !! k' = Some p ∧ perm_role p = k) ↔ p ∈ rows) as Hrole.
  { intros p. split.
    - intros (k' & Hp & Hr). by destruct (Hinv k' p Hp) as [[_ Hne]|].
    - intros Hp. destruct (bulk_create_new rows T2 p Hp) as (k' & _ & Hk').
      exists k'. split; [done|]. by apply Hin. }
  eexists _, k. split; [reflexivity|]. store_simpl. split_and!.
  - subst k. destruct instance as [[k0 old]|]; [done|apply new_pk_fresh].
  - done.
  - intros res act. unfold role_owns. store_simpl. split.
    + intros (k' & p & Hp & Hr & <- & <-). apply Hin, Hrole. eauto.
    + intros Hkey.
      assert (mkPermission k res act ∈ rows) as Hrow by (by apply Hin).
      apply Hrole in Hrow as (k' & Hp & _). by exists k', (mkPermission k res act).
  - intros key. unfold initial_permissions. rewrite list_elem_of_fmap. split.
    + intros ([k' p] & -> & Hp). apply elem_of_map_to_list in Hp. simpl.
      apply lookup_filter_by in Hp as [Hp Hr]. apply bool_decide_eq_true in Hr.
      apply Hin, Hrole. eauto.
    + intros Hkey. assert (key ∈ permission_choices) as Hchoice.
      { unfold valid_permissions in Hvalid. rewrite forallb_forall in Hvalid.
        eapply bool_decide_eq_true, Hvalid. by apply list_elem_of_In. }
      apply elem_of_permission_choices in Hchoice as (res & act & ->).
      assert (mkPermission k res act ∈ rows) as Hrow by (by apply Hin).
      apply Hrole in Hrow as (k' & Hp & _).
      exists (k', mkPermission k res act). split; [done|].
      apply elem_of_map_to_list, lookup_filter_by. split; [done|].
      by apply bool_decide_eq_true.
  - unfold initial_permissions, role_permissions. store_simpl.
    rewrite length_fmap, length_map_to_list. fold T3. unfold T3.
    rewrite size_filter_by_bulk_create.
    assert (QuerySet.filter_by (λ p, bool_decide (perm_role p = k)) T2 = ∅)
      as ->.
    { apply map_empty. intros k'. apply eq_None_not_Some. intros [p Hp].
      apply lookup_filter_by in Hp as [Hp Hr]. apply bool_decide_eq_true in Hr.
      by apply lookup_delete_role_permissions in Hp as [_ Hne]. }
    rewrite map_size_empty, <- Hlen. simpl.
    apply length_filter_all. intros p Hp. apply bool_decide_eq_true.
    by apply Hin.
  - intros k' p Hne. split.
    + intros Hp. by destruct (Hinv k' p Hp) as [[Hp' _]|Hp'%Hin%proj1].
    + intros Hp. apply bulk_create_old.
      by apply lookup_delete_role_permissions.
Qed.

(** X15.  When a key is submitted twice, the save of the form fails with
    an integrity error after it has written the role and deleted the rows
    of the role: outside a transaction, an edit with a repeated key leaves
    the role without any permission. *)
Theorem RoleForm_save_repeated_key company instance cleaned_data db :
  valid_permissions (cleaned_permissions cleaned_data) = true →
  ¬ NoDup (cleaned_permissions cleaned_data) →
  (∀ k r, roles db !! k = Some r → Some k ≠ fst <$> instance →
          ¬ (role_company r
             = role_company (form_role company instance cleaned_data)
             ∧ role_name r = cleaned_name cleaned_data)) →
  ∃ db' k,
    RoleForm_save company instance cleaned_data db
    = Some (db', Raise IntegrityError)
    ∧ match instance with
      | Some (k0, _) => k = k0
      | None => roles db !! k = None
      end
    ∧ roles db' = <[k := form_role company instance cleaned_data]> (roles db)
    ∧ (∀ res act, ¬ role_owns db' k res act)
    ∧ (∀ k' p, perm_role p ≠ k →
               permissions db' !! k' = Some p ↔ permissions db !! k' = Some p).
Proof.
  intros Hvalid Hdup Hfree.
  destruct (RoleForm_save_ok company instance cleaned_data db Hvalid Hfree)
    as (rows & k & Hk & Hlen & Hin & Hnd & ->).
  cbv zeta. unfold Permission_bulk_create.
  rewrite bool_decide_eq_false_2 by (by rewrite <- Hnd).
  cbn [andb]. eexists _, k. split; [reflexivity|]. store_simpl. split_and!.
  - subst k. destruct instance as [[k0 old]|]; [done|apply new_pk_fresh].
  - done.
  - intros res act (k' & p & Hp & Hr & _). store_simpl.
    by apply lookup_delete_role_permissions in Hp as [_ Hne].
  - intros k' p Hne. rewrite lookup_delete_role_permissions. tauto.
Qed.

#[local] Transparent QuerySet.new_pk QuerySet.bulk_create.

Lemma RoleForm_save_round_trip_witness :
  let instance := Some (2, mkRole 1 "Employee" "" false false false) in
  ∃ db',
    RoleForm_save 1 instance employee_edit staffed_company = Some (db', Ok 2)
    ∧ (∀ res act,
         role_owns db' 2 res act
         ↔ choice_key res act ∈ ["projects_view"; "expenses_create"])
    ∧ (∀ key,
         key ∈ initial_permissions db' 2
         ↔ key ∈ ["projects_view"; "expenses_create"]).
Proof.
  destruct (RoleForm_save_round_trip 1
              (Some (2, mkRole 1 "Employee" "" false false false))
              employee_edit staffed_company)
    as (db' & k & Hsave & -> & _ & Howns & Hinitial & _).
  - vm_compute. reflexivity.
  - apply (bool_decide_unpack _). vm_compute. reflexivity.
  - apply (bool_decide_unpack
             (map_Forall
                (λ k r, Some k ≠ Some 2 →
                        ¬ (role_company r = 1 ∧ role_name r = "Employee"))
                (roles staffed_company))).
    vm_compute. reflexivity.
  - exists db'. split; [exact Hsave|]. split; [exact Howns|exact Hinitial].
Defined.

Lemma RoleForm_save_repeated_key_witness :
  let instance := Some (2, mkRole 1 "Employee" "" false false false) in
  role_owns staffed_company 2 projects view
  ∧ ∃ db',
      RoleForm_save 1 instance employee_edit_twice staffed_company
      = Some (db', Raise IntegrityError)
      ∧ ∀ res act, ¬ role_owns db' 2 res act.
Proof.
  split.
  { exists 1, (mkPermission 2 projects view). by repeat split. }
  destruct (RoleForm_save_repeated_key 1
              (Some (2, mkRole 1 "Employee" "" false false false))
              employee_edit_twice staffed_company)
    as (db' & k & Hsave & -> & _ & Hnone & _).
  - vm_compute. reflexivity.
  - apply (bool_decide_unpack _). vm_compute. reflexivity.
  - apply (bool_decide_unpack
             (map_Forall
                (λ k r, Some k ≠ Some 2 →
                        ¬ (role_company r = 1 ∧ role_name r = "Employee"))
                (roles staffed_company))).
    vm_compute. reflexivity.
  - exists db'. split; [exact Hsave|exact Hnone].
Defined.

(** ** The owner of a company *)

Lemma get_owner_Some first db company :
  first_of_query first →
  is_Some (get_owner first db company)
  ↔ ∃ k m, memberships db !! k = Some m ∧ m_company m = company
           ∧ m_status m = active ∧ is_company_admin db m = true.
Proof.
  intros Hfirst. unfold get_owner.
  set (q := QuerySet.filter_by _ _). specialize (Hfirst q).
  assert (∀ k m, q !! k = Some m
                 ↔ memberships db !! k = Some m ∧ m_company m = company
                   ∧ m_status m = active ∧ is_company_admin db m = true) as Hq.
  { intros k m. unfold q. rewrite lookup_filter_by, !andb_true_iff.
    rewrite !bool_decide_eq_true. tauto. }
  destruct (first q) as [[k m]|]; split.
  - intros _. exists k, m. by apply Hq.
  - by eexists.
  - by intros [? ?].
  - intros (k & m & Hm). apply Hq in Hm. rewrite Hfirst in Hm.
    by rewrite lookup_empty in Hm.
Qed.

(** X16.  A company that has an owner before [role_delete] has one after
    it: the role of an active admin membership of the current company is
    never deleted. *)
Theorem role_delete_keeps_owner first request_user company role_id is_post db :
  first_of_query first →
  is_Some (get_owner first db company) →
  is_Some
    (get_owner first
       (role_delete request_user (Some company) role_id is_post db).1 company).
Proof.
  intros Hfirst Howner.
  destruct (role_delete_cases request_user company role_id is_post db)
    as [->|(role & Hrole & Hcompany & Hnone & _ & ->)]; [done|].
  cbn [fst]. apply (get_owner_Some first _ _ Hfirst).
  apply (get_owner_Some first _ _ Hfirst) in Howner
    as (k & m & Hm & Hc & Hs & Hadmin).
  destruct (Role_delete_frame role_id db) as (Hroles & _ & _ & Hmems).
  cbv zeta in *.
  assert (m_role m ≠ Some role_id) as Hne.
  { intros Hr.
    assert (0 < QuerySet.count (active_members_with_role db company role_id));
      [|lia].
    apply count_pos. exists k, m. apply lookup_filter_by. split; [done|].
    by rewrite !bool_decide_eq_true_2. }
  exists k, m. split_and!; try done.
  - rewrite Hmems, Hm. by rewrite decide_False.
  - unfold is_company_admin in *. destruct (m_role m) as [rid|]; [|done].
    rewrite Hroles; [done|]. congruence.
Qed.

Lemma role_delete_keeps_owner_witness :
  first_of_query first_by_key
  ∧ get_owner first_by_key staffed_company 1 = Some 7
  ∧ is_Some
      (get_owner first_by_key
         (role_delete 7 (Some 1) 2 true staffed_company).1 1).
Proof.
  assert (get_owner first_by_key staffed_company 1 = Some 7) as Howner
    by (vm_compute; reflexivity).
  split; [exact first_by_key_spec|]. split; [exact Howner|].
  apply (role_delete_keeps_owner first_by_key 7 1 2 true staffed_company
           first_by_key_spec).
  rewrite Howner. by eexists.
Defined.

(** ** The company registration form *)

#[local] Opaque QuerySet.new_pk QuerySet.bulk_create.

(** The rows of the nested loops over [rs] and [acts], created for a role
    that has no row yet. *)
Lemma Permission_bulk_create_grant rid rs acts db :
  NoDup rs → NoDup acts →
  (∀ k p, permissions db !! k = Some p → perm_role p ≠ rid) →
  ∃ T,
    Permission_bulk_create (res ← rs; act ← acts; [mkPermission rid res act]) db
    = (set_permissions T db, Ok ())
    ∧ (∀ k p, T !! k = Some p →
              permissions db !! k = Some p ∨ perm_role p = rid)
    ∧ ∀ rid' res act,
        role_owns (set_permissions T db) rid' res act
        ↔ role_owns db rid' res act ∨ (rid' = rid ∧ res ∈ rs ∧ act ∈ acts).
Proof.
  intros Hrs Hacts Hnone.
  set (rows := res ← rs; act ← acts; [mkPermission rid res act]).
  exists (QuerySet.bulk_create rows (permissions db)). split_and!.
  - apply Permission_bulk_create_ok; [by apply NoDup_grant_rows|].
    intros k p Hp Hrow. apply elem_of_grant_rows in Hrow as [Hr _].
    by apply (Hnone k p).
  - intros k p Hp. apply bulk_create_inv in Hp as [Hp|Hp]; [by left|right].
    by apply elem_of_grant_rows in Hp as [Hr _].
  - intros rid' res act. unfold role_owns. store_simpl. split.
    + intros (k & p & Hp & Hr & Hres & Hact).
      apply bulk_create_inv in Hp as [Hp|Hp]; [left; by exists k, p|right].
      apply elem_of_grant_rows in Hp as (Hr' & Hres' & Hact'). by subst.
    + intros [(k & p & Hp & Hrest)|(-> & Hres & Hact)].
      * exists k, p. split; [by apply bulk_create_old|done].
      * destruct (bulk_create_new rows (permissions db)
                    (mkPermission rid res act)) as (k & _ & Hk).
        { by apply elem_of_grant_rows. }
        by exists k, (mkPermission rid res act).
Qed.

Lemma role_owns_set_roles T db rid res act :
  role_owns (set_roles T db) rid res act ↔ role_owns db rid res act.
Proof. done. Qed.

Lemma NoDup_RESOURCE_CHOICES : NoDup RESOURCE_CHOICES.
Proof. apply (bool_decide_unpack _). by vm_compute. Qed.

Lemma NoDup_ACTION_CHOICES : NoDup ACTION_CHOICES.
Proof. apply (bool_decide_unpack _). by vm_compute. Qed.

(** [_create_default_roles] on a company without roles, for a user who is
    not yet a member, in a store whose permission rows point to stored
    roles. *)
Lemma create_default_roles_spec joined company admin_user db :
  (∀ k r, roles db !! k = Some r → role_company r ≠ company) →
  (∀ k p, permissions db !! k = Some p → is_Some (roles db !! perm_role p)) →
  (∀ k m, memberships db !! k = Some m →
          ¬ (m_user m = admin_user ∧ m_company m = company)) →
  ∃ db' ka ks ke kt km,
    _create_default_roles joined company admin_user db = (db', Ok ())
    ∧ roles db'
      = <[kt := mkRole company "Team Member"
                  "Standard team access with collaborative permissions"
                  false false true]>
          (<[ke := mkRole company "Employee"
                     "Basic access to view and create records"
                     false false false]>
             (<[ks := mkRole company "Supervisor/Executive"
                        "High-level oversight and reporting access"
                        false true false]>
                (<[ka := mkRole company "Company Admin"
                           "Full access to all company features and settings"
                           true false false]> (roles db))))
    ∧ roles db !! ka = None ∧ roles db !! ks = None
    ∧ roles db !! ke = None ∧ roles db !! kt = None
    ∧ NoDup [ka; ks; ke; kt]
    ∧ (∀ rid res act,
         role_owns db' rid res act
         ↔ role_owns db rid res act
           ∨ rid = ka
           ∨ (rid = ks ∧ act ∈ [view; export])
           ∨ (rid = ke ∧ res ∈ [projects; expenses; contractors]
              ∧ act ∈ [view; create; edit])
           ∨ (rid = kt ∧ res ∈ [projects; expenses; contractors; reports]
              ∧ act ∈ [view; create; edit; export]))
    ∧ memberships db'
      = <[km := mkMembership admin_user company (Some ka) active (Some joined)]>
          (memberships db)
    ∧ memberships db !! km = None.
Proof.
  intros Hroles Hfk Hmem.
  set (admin := mkRole company "Company Admin" _ true false false).
  set (supervisor := mkRole company "Supervisor/Executive" _ false true false).
  set (employee := mkRole company "Employee" _ false false false).
  set (team := mkRole company "Team Member" _ false false true).
  set (ka := QuerySet.new_pk (roles db)).
  set (R1 := <[ka := admin]> (roles db)).
  set (ks := QuerySet.new_pk R1).
  set (R2 := <[ks := supervisor]> R1).
  set (ke := QuerySet.new_pk R2).
  set (R3 := <[ke := employee]> R2).
  set (kt := QuerySet.new_pk R3).
  set (R4 := <[kt := team]> R3).
  assert (roles db !! ka = None) as Hka by apply new_pk_fresh.
  assert (R1 !! ks = None) as Hks by apply new_pk_fresh.
  assert (R2 !! ke = None) as Hke by apply new_pk_fresh.
  assert (R3 !! kt = None) as Hkt by apply new_pk_fresh.
  apply lookup_insert_None in Hks as [Hks Hne_as].
  apply lookup_insert_None in Hke as [Hke Hne_se].
  apply lookup_insert_None in Hke as [Hke Hne_ae].
  apply lookup_insert_None in Hkt as [Hkt Hne_et].
  apply lookup_insert_None in Hkt as [Hkt Hne_st].
  apply lookup_insert_None in Hkt as [Hkt Hne_at].
  assert (∀ (R : gmap nat Role) (r : Role),
            role_company r = company →
            (∀ k r', R !! k = Some r' →
                     role_company r' = company → role_name r' ≠ role_name r) →
            ∀ k r', R !! k = Some r' →
                    ¬ (role_company r' = role_company r
                       ∧ role_name r' = role_name r)) as Hnames.
  { intros R r Hc Hfree k r' Hr' [Hc' Hn]. apply (Hfree k r' Hr'); congruence. }
  assert (Role_create admin db = (set_roles R1 db, Ok ka)) as Ea.
  { apply Role_create_ok, Hnames; [done|]. intros k r' Hr' Hc.
    by destruct (Hroles k r' Hr'). }
  assert (Role_create supervisor (set_roles R1 db)
          = (set_roles R2 (set_roles R1 db), Ok ks)) as Es.
  { apply Role_create_ok, Hnames; [done|]. store_simpl. intros k r' Hr' Hc.
    apply lookup_insert_Some in Hr' as [[_ <-]|[_ Hr']]; [done|].
    by destruct (Hroles k r' Hr'). }
  assert (Role_create employee (set_roles R2 (set_roles R1 db))
          = (set_roles R3 (set_roles R2 (set_roles R1 db)), Ok ke)) as Ee.
  { apply Role_create_ok, Hnames; [done|]. store_simpl. intros k r' Hr' Hc.
    apply lookup_insert_Some in Hr' as [[_ <-]|[_ Hr']]; [done|].
    apply lookup_insert_Some in Hr' as [[_ <-]|[_ Hr']]; [done|].
    by destruct (Hroles k r' Hr'). }
  set (d3 := set_roles R3 (set_roles R2 (set_roles R1 db))).
  assert (Role_create team d3 = (set_roles R4 d3, Ok kt)) as Et.
  { apply Role_create_ok, Hnames; [done|]. subst d3. store_simpl.
    intros k r' Hr' Hc.
    apply lookup_insert_Some in Hr' as [[_ <-]|[_ Hr']]; [done|].
    apply lookup_insert_Some in Hr' as [[_ <-]|[_ Hr']]; [done|].
    apply lookup_insert_Some in Hr' as [[_ <-]|[_ Hr']]; [done|].
    by destruct (Hroles k r' Hr'). }
  set (d4 := set_roles R4 d3).
  assert (∀ k p, permissions db !! k = Some p →
                 perm_role p ≠ ka ∧ perm_role p ≠ ks
                 ∧ perm_role p ≠ ke ∧ perm_role p ≠ kt) as I0.
  { intros k p Hp. destruct (Hfk k p Hp) as [r Hr].
    split_and!; intros Heq; rewrite Heq in Hr; congruence. }
  destruct (Permission_bulk_create_grant ka RESOURCE_CHOICES ACTION_CHOICES d4)
    as (T1 & E1 & I1 & O1);
    [apply NoDup_RESOURCE_CHOICES|apply NoDup_ACTION_CHOICES| |].
  { intros k p Hp. by apply I0 in Hp as (? & _). }
  set (d5 := set_permissions T1 d4) in *.
  destruct (Permission_bulk_create_grant ks RESOURCE_CHOICES [view; export] d5)
    as (T2 & E2 & I2 & O2);
    [apply NoDup_RESOURCE_CHOICES
    |apply (bool_decide_unpack _); by vm_compute| |].
  { intros k p Hp. apply I1 in Hp as [Hp| ->]; [|done].
    by apply I0 in Hp as (_ & ? & _). }
  set (d6 := set_permissions T2 d5) in *.
  destruct (Permission_bulk_create_grant ke [projects; expenses; contractors]
              [view; create; edit] d6)
    as (T3 & E3 & I3 & O3);
    [apply (bool_decide_unpack _); by vm_compute
    |apply (bool_decide_unpack _); by vm_compute| |].
  { intros k p Hp. apply I2 in Hp as [Hp| ->]; [|done].
    apply I1 in Hp as [Hp| ->]; [|done].
    by apply I0 in Hp as (_ & _ & ? & _). }
  set (d7 := set_permissions T3 d6) in *.
  destruct (Permission_bulk_create_grant kt
              [projects; expenses; contractors; reports]
              [view; create; edit; export] d7)
    as (T4 & E4 & I4 & O4);
    [apply (bool_decide_unpack _); by vm_compute
    |apply (bool_decide_unpack _); by vm_compute| |].
  { intros k p Hp. apply I3 in Hp as [Hp| ->]; [|done].
    apply I2 in Hp as [Hp| ->]; [|done].
    apply I1 in Hp as [Hp| ->]; [|done].
    by apply I0 in Hp as (_ & _ & _ & ?). }
  set (d8 := set_permissions T4 d7) in *.
  set (km := QuerySet.new_pk (memberships db)).
  set (membership := mkMembership admin_user company (Some ka) active
                       (Some joined)).
  assert (CompanyMembership_create membership d8
          = (set_memberships (<[km := membership]> (memberships db)) d8,
             Ok km)) as Em.
  { by apply (CompanyMembership_create_ok membership d8). }
  exists (set_memberships (<[km := membership]> (memberships db)) d8),
    ka, ks, ke, kt, km.
  split_and!; try done.
  - unfold _create_default_roles.
    rewrite (bind_Ok _ _ _ _ _ Ea), (bind_Ok _ _ _ _ _ Es).
    rewrite (bind_Ok _ _ _ _ _ Ee), (bind_Ok _ _ _ _ _ Et).
    rewrite (bind_Ok _ _ _ _ _ E1). cbv zeta.
    rewrite (bind_Ok _ _ _ _ _ E2), (bind_Ok _ _ _ _ _ E3).
    rewrite (bind_Ok _ _ _ _ _ E4).
    by rewrite (bind_Ok _ _ _ _ _ Em).
  - repeat (apply NoDup_cons; split;
              [rewrite ?elem_of_cons, elem_of_nil; intuition congruence|]).
    apply NoDup_nil_2.
  - intros rid res act.
    change (role_owns (set_memberships _ d8) rid res act)
      with (role_owns d8 rid res act).
    rewrite O4, O3, O2, O1.
    change (role_owns d4 rid res act) with (role_owns db rid res act).
    pose proof (all_resources res). pose proof (all_actions act). tauto.
  - apply new_pk_fresh.
Qed.

Lemma Company_save_ok instance c db :
  (∀ k c', companies db !! k = Some c' → Some k ≠ instance →
           slug c' ≠ slug c) →
  Company_save instance c db
  = (set_companies
       (<[match instance with
          | Some k => k
          | None => QuerySet.new_pk (companies db)
          end := c]> (companies db)) db,
     Ok match instance with
        | Some k => k
        | None => QuerySet.new_pk (companies db)
        end).
Proof.
  intros Hfree. unfold Company_save.
  assert (QuerySet.exists_
            (QuerySet.exclude_pk instance
               (QuerySet.filter_by (λ c', bool_decide (slug c' = slug c))
                  (companies db))) = false) as ->; [|done].
  apply not_true_iff_false. rewrite exists_true. intros (k & c' & Hk).
  apply lookup_exclude_pk in Hk as [Hk Hne].
  apply lookup_filter_by in Hk as [Hk Heq]. apply bool_decide_eq_true in Heq.
  by apply (Hfree k c').
Qed.

(** The account of the admin, as [save] leaves it whether or not the
    profile receiver is registered: the receiver's profile is found by
    [get_or_create] and updated to the row that would have been created. *)
Lemma create_admin_account {B} profile_signal u phone company
    (f : pk → M B) db :
  (∀ k u', users db !! k = Some u' → username u' ≠ username u) →
  (∀ k p, profiles db !! k = Some p → is_Some (users db !! profile_user p)) →
  (admin_user ← create_user profile_signal u;
   '(profile, created) ← UserProfile_get_or_create
                           (mkProfile admin_user phone (Some company)
                              "individual" false false None None);
   _ ← (if negb created then update_profile profile phone company
        else mret ());
   f admin_user) db
  = f (QuerySet.new_pk (users db))
      (set_profiles
         (<[QuerySet.new_pk (profiles db) :=
              mkProfile (QuerySet.new_pk (users db)) phone (Some company)
                "individual" false false None None]> (profiles db))
         (set_users (<[QuerySet.new_pk (users db) := u]> (users db)) db)).
Proof.
  intros Hfree Hfk.
  set (ku := QuerySet.new_pk (users db)).
  set (kp := QuerySet.new_pk (profiles db)).
  assert (users db !! ku = None) as Hku by apply new_pk_fresh.
  assert (profiles db !! kp = None) as Hkp by apply new_pk_fresh.
  assert (∀ k p, profiles db !! k = Some p → profile_user p ≠ ku) as Hold.
  { intros k p Hp Heq. destruct (Hfk k p Hp) as [u' Hu'].
    rewrite Heq in Hu'. congruence. }
  unfold mbind at 1, M_bind at 1, create_user.
  assert (QuerySet.exists_
            (QuerySet.filter_by (λ u', bool_decide (username u' = username u))
               (users db)) = false) as ->.
  { apply not_true_iff_false. rewrite exists_true. intros (k & u' & Hk).
    apply lookup_filter_by in Hk as [Hk Heq].
    apply bool_decide_eq_true in Heq. by apply (Hfree k u'). }
  unfold QuerySet.create. cbv zeta. fold ku.
  destruct profile_signal; store_simpl; cbn [fst snd]; fold kp.
  - set (d2 := set_profiles _ _).
    unfold mbind at 1, M_bind at 1, UserProfile_get_or_create.
    cbn [profile_user].
    assert (QuerySet.get (profiles_of d2 ku) = Ok (kp, default_profile ku))
      as ->.
    { assert (profiles_of d2 ku !! kp = Some (default_profile ku)) as Hnew.
      { apply lookup_filter_by. split; [apply lookup_insert_eq|].
        by apply bool_decide_eq_true. }
      destruct (get_at_most_one (profiles_of d2 ku))
        as [[Hempty _]|(k' & p' & Hk' & ->)].
      - intros k1 k2 p1 p2 H1 H2.
        assert (∀ k0 p0, profiles_of d2 ku !! k0 = Some p0 → k0 = kp) as Hone.
        { intros k0 p0 H0. apply lookup_filter_by in H0 as [H0 Hu0].
          apply bool_decide_eq_true in Hu0. unfold d2 in H0. store_simpl.
          apply lookup_insert_Some in H0 as [[? _]|[_ H0]]; [done|].
          by destruct (Hold k0 p0 H0). }
        by rewrite (Hone k1 p1 H1), (Hone k2 p2 H2).
      - rewrite Hempty in Hnew. by rewrite lookup_empty in Hnew.
      - apply lookup_filter_by in Hk' as [Hk' Hu'].
        apply bool_decide_eq_true in Hu'. unfold d2 in Hk'. store_simpl.
        apply lookup_insert_Some in Hk' as [[<- <-]|[_ Hk']]; [done|].
        by destruct (Hold k' p' Hk'). }
    cbn [negb]. unfold mbind at 1, M_bind at 1, update_profile.
    unfold d2. store_simpl. rewrite alter_insert_eq.
    unfold default_profile.
    cbn [profile_user profile_phone account_type is_verified
         is_account_active activated_by activated_at].
    assert ((if bool_decide (phone = "") then "" else phone) = phone) as ->
      by (by case_bool_decide).
    done.
  - set (d2 := set_users _ _).
    unfold mbind at 1, M_bind at 1, UserProfile_get_or_create.
    cbn [profile_user].
    assert (QuerySet.get (profiles_of d2 ku) = Raise DoesNotExist) as ->.
    { destruct (get_at_most_one (profiles_of d2 ku))
        as [[_ ->]|(k' & p' & Hk' & _)]; [|done|].
      - intros k1 k2 p1 p2 H1 _. apply lookup_filter_by in H1 as [H1 Hu1].
        apply bool_decide_eq_true in Hu1. by destruct (Hold k1 p1 H1).
      - apply lookup_filter_by in Hk' as [Hk' Hu'].
        apply bool_decide_eq_true in Hu'. by destruct (Hold k' p' Hk'). }
    unfold QuerySet.create. cbv zeta. unfold d2. store_simpl. fold kp.
    cbn [negb]. by unfold mbind at 1, M_bind at 1, mret, M_ret.
Qed.

Lemma writes_roles_only_form_default_roles joined company admin_user :
  writes_roles_only (_create_default_roles joined company admin_user).
Proof.
  unfold _create_default_roles.
  repeat first
    [ apply writes_roles_only_bind; [|intros ?]
    | apply writes_roles_only_Role_create
    | apply writes_roles_only_Permission_bulk_create
    | apply writes_roles_only_CompanyMembership_create
    | done ].
Qed.

(** The store that the registration form leaves after a successful save
    of a new company. *)
Lemma registration_form_store profile_signal slugify created_at cleaned_data
    db :
  foreign_keys db →
  (∀ kc c, companies db !! kc = Some c →
           slug c ≠ slugify (form_name cleaned_data)) →
  (∀ ku u, users db !! ku = Some u → username u ≠ admin_email cleaned_data) →
  ∃ db' company admin_user profile ka ks ke kt km,
    CompanyRegistrationForm_save profile_signal slugify created_at None
      cleaned_data db
    = (db', Ok company)
    ∧ companies db !! company = None
    ∧ users db !! admin_user = None
    ∧ profiles db !! profile = None
    ∧ memberships db !! km = None
    ∧ users db'
      = <[admin_user := mkUser (admin_email cleaned_data)
                          (admin_email cleaned_data)
                          (admin_first_name cleaned_data)
                          (admin_last_name cleaned_data)
                          (Some (admin_password cleaned_data))]> (users db)
    ∧ profiles db'
      = <[profile := mkProfile admin_user (admin_phone cleaned_data)
                       (Some company) "individual" false false None None]>
          (profiles db)
    ∧ companies db'
      = <[company := mkCompany (form_name cleaned_data)
                       (slugify (form_name cleaned_data))
                       (form_description cleaned_data)
                       (form_email cleaned_data) (form_phone cleaned_data)
                       (form_address cleaned_data)
                       (form_website cleaned_data) true]> (companies db)
    ∧ roles db'
      = <[kt := mkRole company "Team Member"
                  "Standard team access with collaborative permissions"
                  false false true]>
          (<[ke := mkRole company "Employee"
                     "Basic access to view and create records"
                     false false false]>
             (<[ks := mkRole company "Supervisor/Executive"
                        "High-level oversight and reporting access"
                        false true false]>
                (<[ka := mkRole company "Company Admin"
                           "Full access to all company features and settings"
                           true false false]> (roles db))))
    ∧ NoDup [ka; ks; ke; kt]
    ∧ (∀ res act, role_owns db' ka res act)
    ∧ memberships db'
      = <[km := mkMembership admin_user company (Some ka) active
                  (Some created_at)]> (memberships db)
    ∧ super_owners db' = super_owners db.
Proof.
  intros (Hfk_prof & Hfk_role & Hfk_perm & Hfk_mem) Hslug Huser.
  set (kc := QuerySet.new_pk (companies db)).
  set (ku := QuerySet.new_pk (users db)).
  set (kp := QuerySet.new_pk (profiles db)).
  assert (companies db !! kc = None) as Hkc by apply new_pk_fresh.
  assert (users db !! ku = None) as Hku by apply new_pk_fresh.
  assert (profiles db !! kp = None) as Hkp by apply new_pk_fresh.
  set (c0 := mkCompany (form_name cleaned_data) _ _ _ _ _ _ true).
  set (u0 := mkUser (admin_email cleaned_data) _ _ _ _).
  set (p0 := mkProfile ku (admin_phone cleaned_data) (Some kc) "individual"
               false false None None).
  set (d1 := set_companies (<[kc := c0]> (companies db)) db).
  set (d3 := set_profiles (<[kp := p0]> (profiles db))
               (set_users (<[ku := u0]> (users db)) d1)).
  destruct (create_default_roles_spec created_at kc ku d3)
    as (d4 & ka & ks & ke & kt & km & E4 & Hroles & Hka & Hks & Hke & Hkt
        & Hnd & Howns & Hmems & Hkm).
  { unfold d3, d1. store_simpl. intros k r Hr Heq.
    destruct (Hfk_role k r Hr) as [c' Hc']. rewrite Heq in Hc'. congruence. }
  { unfold d3, d1. store_simpl. exact Hfk_perm. }
  { unfold d3, d1. store_simpl. intros k m Hm [Hu _].
    destruct (Hfk_mem k m Hm) as [[u' Hu'] _]. rewrite Hu in Hu'.
    congruence. }
  assert (CompanyRegistrationForm_save profile_signal slugify created_at None
            cleaned_data db = (d4, Ok kc)) as Hrun.
  { unfold CompanyRegistrationForm_save. cbn [fmap option_fmap option_map].
    rewrite (bind_Ok _ _ _ _ _ (Company_save_ok None c0 db
                                  (λ k c' Hc' _, Hslug k c' Hc'))).
    fold kc d1 u0.
    rewrite (create_admin_account profile_signal u0
               (admin_phone cleaned_data) kc
               (λ admin_user,
                  _ ← _create_default_roles created_at kc admin_user;
                  mret kc) d1); [| done | done].
    by rewrite (bind_Ok _ _ _ _ _ E4). }
  pose proof (writes_roles_only_form_default_roles created_at kc ku d3)
    as Hframe.
  rewrite E4 in Hframe. cbn [fst] in Hframe.
  assert (users d4 = users d3 ∧ companies d4 = companies d3
          ∧ profiles d4 = profiles d3 ∧ super_owners d4 = super_owners d3)
    as (Husers & Hcompanies & Hprofiles & Hsuper).
  { destruct d4, d3. by injection Hframe as -> -> -> -> ->. }
  exists d4, kc, ku, kp, ka, ks, ke, kt, km.
  rewrite Husers, Hcompanies, Hprofiles, Hsuper.
  split_and!; try done.
  intros res act. apply Howns. right. by left.
Qed.

(** X17.  In a store whose foreign keys hold, the registration form saved
    for a company whose slug is free and an admin whose email is not a
    username succeeds, whether or not the profile receiver is registered:
    it creates the company, the admin with a profile that points to the
    company, the four default roles, and grants the admin every resource
    and action in the company. *)
Theorem CompanyRegistrationForm_save_new profile_signal slugify created_at
    cleaned_data db :
  foreign_keys db →
  (∀ kc c, companies db !! kc = Some c →
           slug c ≠ slugify (form_name cleaned_data)) →
  (∀ ku u, users db !! ku = Some u → username u ≠ admin_email cleaned_data) →
  ∃ db' company admin_user profile,
    CompanyRegistrationForm_save profile_signal slugify created_at None
      cleaned_data db
    = (db', Ok company)
    ∧ companies db !! company = None
    ∧ companies db'
      = <[company := mkCompany (form_name cleaned_data)
                       (slugify (form_name cleaned_data))
                       (form_description cleaned_data)
                       (form_email cleaned_data) (form_phone cleaned_data)
                       (form_address cleaned_data)
                       (form_website cleaned_data) true]> (companies db)
    ∧ users db !! admin_user = None
    ∧ users db'
      = <[admin_user := mkUser (admin_email cleaned_data)
                          (admin_email cleaned_data)
                          (admin_first_name cleaned_data)
                          (admin_last_name cleaned_data)
                          (Some (admin_password cleaned_data))]> (users db)
    ∧ profiles db !! profile = None
    ∧ profiles db'
      = <[profile := mkProfile admin_user (admin_phone cleaned_data)
                       (Some company) "individual" false false None None]>
          (profiles db)
    ∧ (∀ name,
         (∃ k r, roles db' !! k = Some r ∧ role_company r = company
                 ∧ role_name r = name)
         ↔ name ∈ ["Company Admin"; "Supervisor/Executive"; "Employee";
                   "Team Member"])
    ∧ ∀ res act, user_has_permission db' admin_user company res act = Ok true.
Proof.
  intros Hfk Hslug Huser.
  destruct (registration_form_store profile_signal slugify created_at
              cleaned_data db Hfk Hslug Huser)
    as (db' & kc & ku & kp & ka & ks & ke & kt & km & Hrun & Hkc & Hku & Hkp
        & Hkm & Husers & Hprofiles & Hcompanies & Hroles & Hnd & Howns
        & Hmems & _).
  destruct Hfk as (Hfk_prof & Hfk_role & Hfk_perm & Hfk_mem).
  exists db', kc, ku, kp. split_and!; try done.
  - intros name. rewrite Hroles. split.
    + intros (k & r & Hr & Hc & <-).
      repeat (apply lookup_insert_Some in Hr as [[_ <-]|[_ Hr]];
              [apply (bool_decide_unpack _); by vm_compute|]).
      destruct (Hfk_role k r Hr) as [c' Hc']. rewrite Hc in Hc'. congruence.
    + apply NoDup_cons in Hnd as [Hn1 Hnd]. apply NoDup_cons in Hnd as [Hn2 Hnd].
      apply NoDup_cons in Hnd as [Hn3 _].
      apply not_elem_of_cons in Hn1 as [Hne_as Hn1].
      apply not_elem_of_cons in Hn1 as [Hne_ae Hn1].
      apply not_elem_of_cons in Hn1 as [Hne_at _].
      apply not_elem_of_cons in Hn2 as [Hne_se Hn2].
      apply not_elem_of_cons in Hn2 as [Hne_st _].
      apply not_elem_of_cons in Hn3 as [Hne_et _].
      rewrite !elem_of_cons, elem_of_nil.
      intros [->|[->|[->|[->|[]]]]].
      * exists ka. eexists.
        split; [rewrite !lookup_insert_ne by congruence;
                apply lookup_insert_eq|done].
      * exists ks. eexists.
        split; [rewrite !lookup_insert_ne by congruence;
                apply lookup_insert_eq|done].
      * exists ke. eexists.
        split; [rewrite !lookup_insert_ne by congruence;
                apply lookup_insert_eq|done].
      * exists kt. eexists. split; [apply lookup_insert_eq|done].
  - intros res act. unfold user_has_permission.
    set (membership := mkMembership ku kc (Some ka) active (Some created_at)).
    assert (active_memberships db' ku kc !! km = Some membership) as Hnew.
    { apply lookup_active_memberships. rewrite Hmems.
      split; [apply lookup_insert_eq|done]. }
    assert (∀ k0 m0, active_memberships db' ku kc !! k0 = Some m0 →
                     k0 = km ∧ m0 = membership) as Hone.
    { intros k0 m0 H0. apply lookup_active_memberships in H0 as (H0 & Hu & _).
      rewrite Hmems in H0.
      apply lookup_insert_Some in H0 as [[? ?]|[_ H0]]; [done|].
      destruct (Hfk_mem k0 m0 H0) as [[u' Hu'] _]. rewrite Hu in Hu'.
      congruence. }
    destruct (get_at_most_one (active_memberships db' ku kc))
      as [[Hempty _]|(k' & m' & Hk' & ->)].
    + intros k1 k2 m1 m2 H1 H2.
      destruct (Hone k1 m1 H1) as [-> _]. by destruct (Hone k2 m2 H2) as [-> _].
    + rewrite Hempty in Hnew. by rewrite lookup_empty in Hnew.
    + destruct (Hone k' m' Hk') as [-> ->]. f_equal.
      apply has_permission_true. exists ka. by split.
Qed.

Lemma bind_Raise {A B} (m : M A) (f : A → M B) db db1 e :
  m db = (db1, Raise e) → (m ≫= f) db = (db1, Raise e).
Proof. intros Hm. unfold mbind, M_bind. by rewrite Hm. Qed.

(** X18.  Saved again on a stored company, as the settings view does, the
    registration form cannot succeed once the company has a role named
    Company Admin: with a free slug and a new admin email it rewrites the
    company row and creates a new user with a profile, then fails with an
    integrity error on the first default role; outside a transaction the
    rewritten company and the new user stay. *)
Theorem CompanyRegistrationForm_save_again profile_signal slugify created_at
    k old cleaned_data db kr role :
  (∀ kp p, profiles db !! kp = Some p → is_Some (users db !! profile_user p)) →
  (∀ kc c, companies db !! kc = Some c → kc ≠ k →
           slug c ≠ slugify (form_name cleaned_data)) →
  (∀ ku u, users db !! ku = Some u → username u ≠ admin_email cleaned_data) →
  roles db !! kr = Some role →
  role_company role = k →
  role_name role = "Company Admin" →
  ∃ db' admin_user,
    CompanyRegistrationForm_save profile_signal slugify created_at
      (Some (k, old)) cleaned_data db
    = (db', Raise IntegrityError)
    ∧ companies db'
      = <[k := mkCompany (form_name cleaned_data)
                 (slugify (form_name cleaned_data))
                 (form_description cleaned_data) (form_email cleaned_data)
                 (form_phone cleaned_data) (form_address cleaned_data)
                 (form_website cleaned_data) (company_is_active old)]>
          (companies db)
    ∧ users db !! admin_user = None
    ∧ users db'
      = <[admin_user := mkUser (admin_email cleaned_data)
                          (admin_email cleaned_data)
                          (admin_first_name cleaned_data)
                          (admin_last_name cleaned_data)
                          (Some (admin_password cleaned_data))]> (users db)
    ∧ roles db' = roles db
    ∧ permissions db' = permissions db
    ∧ memberships db' = memberships db.
Proof.
  intros Hfk_prof Hslug Huser Hrole Hcompany Hname.
  set (ku := QuerySet.new_pk (users db)).
  set (c0 := mkCompany (form_name cleaned_data) _ _ _ _ _ _
               (company_is_active old)).
  set (u0 := mkUser (admin_email cleaned_data) _ _ _ _).
  set (d1 := set_companies (<[k := c0]> (companies db)) db).
  eexists _, ku.
  split; [|split_and!; [|apply new_pk_fresh|..]].
  - unfold CompanyRegistrationForm_save. cbn [fmap option_fmap option_map fst].
    rewrite (bind_Ok _ _ _ _ _ (Company_save_ok (Some k) c0 db
                                  (λ k' c' Hc' Hne,
                                     Hslug k' c' Hc'
                                       (λ Heq, Hne (f_equal Some Heq))))).
    fold d1 u0.
    rewrite (create_admin_account profile_signal u0
               (admin_phone cleaned_data) k
               (λ admin_user,
                  _ ← _create_default_roles created_at k admin_user;
                  mret k) d1); [| done | done].
    apply bind_Raise. unfold _create_default_roles. apply bind_Raise.
    unfold Role_create.
    assert (QuerySet.exists_
              (QuerySet.filter_by
                 (λ r', bool_decide (role_company r' = k)
                        && bool_decide (role_name r' = "Company Admin"))
                 (roles db)) = true) as Hex.
    { apply exists_true. exists kr, role. apply lookup_filter_by.
      split; [done|]. by rewrite !bool_decide_eq_true_2. }
    cbn [role_company role_name]. unfold d1. store_simpl. by rewrite Hex.
  - done.
  - done.
  - done.
  - done.
  - done.
Qed.

#[local] Transparent QuerySet.new_pk QuerySet.bulk_create.

Lemma CompanyRegistrationForm_save_new_witness :
  ∃ db' company admin_user,
    CompanyRegistrationForm_save true (λ s, s) 86400 None acme_registration
      (review_store company_request)
    = (db', Ok company)
    ∧ (∀ name,
         (∃ k r, roles db' !! k = Some r ∧ role_company r = company
                 ∧ role_name r = name)
         ↔ name ∈ ["Company Admin"; "Supervisor/Executive"; "Employee";
                   "Team Member"])
    ∧ ∀ res act, user_has_permission db' admin_user company res act = Ok true.
Proof.
  destruct (CompanyRegistrationForm_save_new true (λ s, s) 86400
              acme_registration (review_store company_request))
    as (db' & company & admin_user & profile & Hsave & _ & _ & _ & _ & _ & _
        & Hnames & Hperms).
  - apply foreign_keys_review_store.
  - intros kc c Hc. vm_compute in Hc. discriminate Hc.
  - intros ku u Hu.
    unfold review_store, reviewer_store, empty_store in Hu. store_simpl.
    apply lookup_singleton_Some in Hu as [_ <-]. discriminate.
  - exists db', company, admin_user. split; [exact Hsave|].
    split; [exact Hnames|exact Hperms].
Defined.

Lemma CompanyRegistrationForm_save_again_witness :
  let old := mkCompany "Acme" "acme" "" "office@acme.example" "" "" "" true in
  ∃ db' admin_user,
    CompanyRegistrationForm_save false (λ s, s) 86400 (Some (1, old))
      acme_registration staffed_company
    = (db', Raise IntegrityError)
    ∧ company_name_ <$> companies db' !! 1 = Some "Acme Builders"
    ∧ username <$> users db' !! admin_user = Some "grace@acme.example".
Proof.
  destruct (CompanyRegistrationForm_save_again false (λ s, s) 86400 1
              (mkCompany "Acme" "acme" "" "office@acme.example" "" "" "" true)
              acme_registration staffed_company 1
              (mkRole 1 "Company Admin" "" true false false))
    as (db' & admin_user & Hsave & Hcompanies & _ & Husers & _).
  - intros kp p Hp. vm_compute in Hp. discriminate Hp.
  - intros kc c Hc Hne.
    unfold staffed_company, empty_store in Hc. store_simpl.
    apply lookup_singleton_Some in Hc as [<- _]. done.
  - intros ku u Hu. vm_compute in Hu. discriminate Hu.
  - reflexivity.
  - reflexivity.
  - reflexivity.
  - exists db', admin_user. split; [exact Hsave|].
    rewrite Hcompanies, Husers, !lookup_insert_eq. done.
Defined.

(** ** Approved companies *)

#[local] Opaque QuerySet.new_pk QuerySet.bulk_create.

(** X19.  A company registered through the form does not count as
    approved: the profile of its admin is created without the activation
    flag, so that [_is_company_approved] answers false for the new company
    (and the admin cannot invite users), whether or not the profile
    receiver is registered. *)
Theorem form_registered_company_not_approved first profile_signal slugify
    created_at cleaned_data db :
  first_of_query first →
  foreign_keys db →
  (∀ k s, super_owners db !! k = Some s → is_Some (users db !! so_user s)) →
  (∀ kc c, companies db !! kc = Some c →
           slug c ≠ slugify (form_name cleaned_data)) →
  (∀ ku u, users db !! ku = Some u → username u ≠ admin_email cleaned_data) →
  ∃ db' company,
    CompanyRegistrationForm_save profile_signal slugify created_at None
      cleaned_data db
    = (db', Ok company)
    ∧ _is_company_approved first db' company = Ok false.
Proof.
  intros Hfirst Hfk Hfk_so Hslug Huser.
  destruct (registration_form_store profile_signal slugify created_at
              cleaned_data db Hfk Hslug Huser)
    as (db' & kc & ku & kp & ka & ks & ke & kt & km & Hrun & Hkc & Hku & Hkp
        & Hkm & Husers & Hprofiles & Hcompanies & Hroles & Hnd & Howns
        & Hmems & Hsuper).
  destruct Hfk as (Hfk_prof & Hfk_role & Hfk_perm & Hfk_mem).
  exists db', kc. split; [done|]. unfold _is_company_approved.
  set (q := QuerySet.filter_by _ (memberships db')).
  set (membership := mkMembership ku kc (Some ka) active (Some created_at)).
  assert (∀ k m, q !! k = Some m → m = membership) as Hq.
  { intros k m Hm. apply lookup_filter_by in Hm as [Hm Hc].
    apply andb_true_iff in Hc as [Hc _]. apply andb_true_iff in Hc as [Hc _].
    apply bool_decide_eq_true in Hc. rewrite Hmems in Hm.
    apply lookup_insert_Some in Hm as [[_ <-]|[_ Hm]]; [done|].
    destruct (Hfk_mem k m Hm) as (_ & [c' Hc'] & _). rewrite Hc in Hc'.
    congruence. }
  assert (q !! km = Some membership) as Hnew.
  { apply lookup_filter_by. split; [rewrite Hmems; apply lookup_insert_eq|].
    rewrite !andb_true_iff, !bool_decide_eq_true. split_and!; [done| |done].
    unfold is_company_admin. cbn [m_role membership]. rewrite Hroles.
    apply NoDup_cons in Hnd as [Hn1 _].
    apply not_elem_of_cons in Hn1 as [Hne_as Hn1].
    apply not_elem_of_cons in Hn1 as [Hne_ae Hn1].
    apply not_elem_of_cons in Hn1 as [Hne_at _].
    rewrite !lookup_insert_ne by congruence. by rewrite lookup_insert_eq. }
  specialize (Hfirst q). destruct (first q) as [[k m]|].
  2: { rewrite Hfirst in Hnew. by rewrite lookup_empty in Hnew. }
  rewrite (Hq k m Hfirst). cbn [m_user membership].
  set (p0 := mkProfile ku (admin_phone cleaned_data) (Some kc) "individual"
               false false None None).
  assert (∀ k0 p, profiles_of db' ku !! k0 = Some p → k0 = kp ∧ p = p0)
    as Hone.
  { intros k0 p Hp. apply lookup_filter_by in Hp as [Hp Hu].
    apply bool_decide_eq_true in Hu. rewrite Hprofiles in Hp.
    apply lookup_insert_Some in Hp as [[? ?]|[_ Hp]]; [done|].
    destruct (Hfk_prof k0 p Hp) as [u' Hu']. rewrite Hu in Hu'. congruence. }
  destruct (get_at_most_one (profiles_of db' ku))
    as [[Hempty _]|(k' & p' & Hk' & ->)].
  - intros k1 k2 p1 p2 H1 H2.
    destruct (Hone k1 p1 H1) as [-> _]. by destruct (Hone k2 p2 H2) as [-> _].
  - assert (profiles_of db' ku !! kp = Some p0) as Hp0.
    { apply lookup_filter_by. split; [rewrite Hprofiles; apply lookup_insert_eq|].
      by apply bool_decide_eq_true. }
    rewrite Hempty in Hp0. by rewrite lookup_empty in Hp0.
  - destruct (Hone k' p' Hk') as [-> ->]. cbn [is_account_active p0 orb
                                                profile_user].
    f_equal. apply bool_decide_eq_false. intros [s Hs].
    unfold super_owner_profile in Hs.
    destruct (QuerySet.get _) as [[kso s']|e] eqn:Hget; [|done].
    apply get_Ok, lookup_filter_by in Hget as [Hget Hu].
    apply bool_decide_eq_true in Hu. rewrite Hsuper in Hget.
    destruct (Hfk_so kso s' Hget) as [u' Hu']. rewrite Hu in Hu'. congruence.
Qed.

#[local] Transparent QuerySet.new_pk QuerySet.bulk_create.

Lemma form_registered_company_not_approved_witness :
  ∃ db' company,
    CompanyRegistrationForm_save false (λ s, s) 86400 None acme_registration
      (review_store company_request)
    = (db', Ok company)
    ∧ _is_company_approved first_by_key db' company = Ok false.
Proof.
  apply (form_registered_company_not_approved first_by_key false (λ s, s)
           86400 acme_registration (review_store company_request)).
  - exact first_by_key_spec.
  - apply foreign_keys_review_store.
  - intros k s Hs.
    unfold review_store, reviewer_store, empty_store in *. store_simpl.
    apply lookup_singleton_Some in Hs as [_ <-]. by eexists.
  - intros kc c Hc. vm_compute in Hc. discriminate Hc.
  - intros ku u Hu.
    unfold review_store, reviewer_store, empty_store in Hu. store_simpl.
    apply lookup_singleton_Some in Hu as [_ <-]. discriminate.
Defined.



(** ** The approval view, in general *)

#[local] Opaque QuerySet.new_pk QuerySet.bulk_create.



#[local] Transparent QuerySet.new_pk QuerySet.bulk_create.


(** ** The approval of [core/views.py] *)

(** A statement that raises whatever the store is. *)
Lemma bind_raises {A B} (m : M A) (f : A → M B) db :
  (∀ a d, ∃ d' e, f a d = (d', Raise e)) →
  ∃ d' e, (m ≫= f) db = (d', Raise e).
Proof.
  intros Hf. unfold mbind, M_bind. destruct (m db) as [d [a|e]]; [|by eauto].
  apply Hf.
Qed.

(** X22.  The action [approve] of [views.activation_request_detail] is
    all or nothing, and nothing is what it leaves in each of these cases:
    the request is not pending; it has expired, so that its expiry is
    never recorded through this view; or it is a company or individual
    registration and either the profile receiver is registered or the
    mail backend fails. *)
Theorem detail_approve_rolls_back profile_signal slugify mail now
    generated_password k r approver db :
  status r ≠ pending
  ∨ is_expired (now 0%nat) r = true
  ∨ (request_type r ∈ [company_registration; individual_registration]
     ∧ (profile_signal = true ∨ mail ≠ Ok ())) →
  ∃ e,
    activation_request_detail_approve profile_signal slugify mail now
      generated_password k r approver db
    = (db, Raise e).
Proof.
  intros Hcase.
  assert (∃ d e, _process_approval profile_signal slugify mail now
                   generated_password k r approver db = (d, Raise e))
    as (d & e & Hrun).
  2: { exists e. unfold activation_request_detail_approve, atomic.
       by rewrite Hrun. }
  unfold _process_approval, mbind at 1, M_bind at 1, call_method, approve.
  destruct (decide (status r = pending)) as [Hst|Hst].
  2: { rewrite bool_decide_eq_true_2 by done. by eauto. }
  rewrite bool_decide_eq_false_2 by (by intros []).
  destruct (is_expired (now 0%nat) r) eqn:Hexp; [by eauto|].
  destruct Hcase as [?|[?|[Htype Hwhy]]]; [done|done|].
  set (r1 := set_approved_at _ _).
  assert (request_type r1 = request_type r) as -> by done.
  generalize (save_request k r1 db). intros d0.
  assert (∀ u (f : pk → M unit) d,
            (∀ user d1, QuerySet.exists_ (profiles_of d1 user) = true ∨
                        profile_signal = false →
                        ∃ d' e, f user d1 = (d', Raise e)) →
            ∃ d' e, (user ← create_user profile_signal u; f user) d
                    = (d', Raise e)) as Hcreate.
  { intros u f d1 Hf. unfold mbind, M_bind.
    destruct (create_user profile_signal u d1) as [d2 [ku|e']] eqn:Hc;
      [|by eauto].
    apply Hf. destruct profile_signal; [left|by right].
    by apply (create_user_with_profile u d1). }
  assert (∀ (p : UserProfile) (f : pk → M unit) d,
            (QuerySet.exists_ (profiles_of d (profile_user p)) = true
             ∨ profile_signal = false) →
            (profile_signal = false → ∀ a d1, ∃ d' e, f a d1 = (d', Raise e)) →
            ∃ d' e, (a ← UserProfile_create p; f a) d = (d', Raise e))
    as Hprofile.
  { intros p f d1 [Hex| ->] Hf.
    - unfold mbind, M_bind, UserProfile_create. rewrite Hex. by eauto.
    - by apply bind_raises, Hf. }
  assert (profile_signal = false → mail ≠ Ok ()) as Hmail'
    by (intros ->; by destruct Hwhy).
  assert (profile_signal = false → ∀ d1, ∃ d' e, of_result mail d1 = (d', Raise e))
    as Hmail''.
  { intros Hs d1. destruct mail as [[]|e'] eqn:Hm; [by destruct (Hmail' Hs)|].
    by eauto. }
  assert (request_type r = company_registration
          ∨ request_type r = individual_registration) as [-> | ->].
  { apply elem_of_cons in Htype as [->|Htype]; [by left|].
    apply list_elem_of_singleton in Htype as ->. by right. }
  - apply bind_raises. intros company d1. apply Hcreate.
    intros user d2 Hex. apply Hprofile; [done|].
    intros Hs _ d3. apply bind_raises. intros _ d4. by apply Hmail''.
  - apply Hcreate. intros user d2 Hex. apply Hprofile; [done|].
    intros Hs _ d3. by apply Hmail''.
Qed.

Lemma detail_approve_rolls_back_witness :
  let r := company_request in
  is_expired (clock_at 2600000 0%nat) r = true
  ∧ ∃ e,
      activation_request_detail_approve false (λ s, s) (Ok ())
        (clock_at 2600000) "Xy12Za34Bc56" 1 r 1 (review_store r)
      = (review_store r, Raise e).
Proof.
  assert (is_expired (clock_at 2600000 0%nat) company_request = true) as Hexp
    by (vm_compute; reflexivity).
  split; [exact Hexp|].
  apply (detail_approve_rolls_back false (λ s, s) (Ok ()) (clock_at 2600000)
           "Xy12Za34Bc56" 1 company_request 1 (review_store company_request)).
  right. left. exact Hexp.
Defined.
